(** * Inspection report generator: data mapping and form pagination

    A shallow embedding of [data_mapper.py], [trec_field_mapper.py] and the
    checkbox driver of [generate_trec_report.py], with the properties the
    report pipeline relies on. *)

From Stdlib Require Import ZArith QArith Qround String Ascii.
From stdpp Require Import base option list sorting gmap strings.

Set Warnings "-register-all".
Local Open Scope string_scope.
Local Open Scope list_scope.
Local Open Scope Z_scope.

(** ** Python values and exceptions *)

(** The exceptions the modelled code can meet. *)
Inductive exn : Type :=
  | TypeError
  | AttributeError
  | KeyError
  | IndexError
  | ValueError
  | OverflowError
  | ZeroDivisionError
  | RuntimeError.

(** A computation either returns or raises. *)
Inductive result (A : Type) : Type :=
  | Return (a : A)
  | Raise (e : exn).
Arguments Return {A} a.
Arguments Raise {A} e.

#[global] Instance result_ret : MRet result := fun A a => Return a.
#[global] Instance result_bind : MBind result := fun A B k r =>
  match r with
  | Return a => k a
  | Raise e => Raise e
  end.

(** [try: body except: handler] with a bare [except]. *)
Definition try_except {A} (body : result A) (handler : A) : result A :=
  match body with
  | Return a => Return a
  | Raise _ => Return handler
  end.

Definition returns {A} (r : result A) : Prop := exists a, r = Return a.

(** What [json.load] produces: [None], [bool], [int], [float], [str],
    [list] and [dict] with string keys.  A float is carried by its
    binary64 bit pattern; no modelled function looks inside one. *)
Inductive json : Type :=
  | JNull
  | JBool (b : bool)
  | JInt (n : Z)
  | JFloat (bits : Z)
  | JStr (s : string)
  | JArr (l : list json)
  | JObj (m : gmap string json).

Definition isinstance_dict (obj : json) : bool :=
  match obj with JObj _ => true | _ => false end.

Definition is_None (obj : json) : bool :=
  match obj with JNull => true | _ => false end.

(** [obj != ""] *)
Definition ne_empty_str (obj : json) : bool :=
  match obj with JStr "" => false | _ => true end.

(** [obj.get(key)]: only a [dict] has the method; a missing key gives
    [None]. *)
Definition dict_get (obj : json) (key : string) : result json :=
  match obj with
  | JObj m => Return (default JNull (m !! key))
  | _ => Raise AttributeError
  end.

(** [l.append(x)] *)
Definition append {A} (l : list A) (x : A) : list A := (l ++ [x])%list.

(** [l[i]] for an index that is not negative. *)
Definition list_index {A} (l : list A) (i : nat) : result A :=
  match l !! i with
  | Some x => Return x
  | None => Raise IndexError
  end.

(** [d[k]] *)
Definition dict_index {V} (d : gmap string V) (k : string) : result V :=
  match d !! k with
  | Some v => Return v
  | None => Raise KeyError
  end.

(** [l[i:j]] for indices that are not negative. *)
Definition slice {A} (i j : nat) (l : list A) : list A :=
  take (j - i) (drop i l).

(** [range(start, stop, step)] for a positive [step]. *)
Definition py_range (start stop step : nat) : list nat :=
  (fun k => start + k * step)%nat <$>
    seq 0 ((stop - start + (step - 1)) / step)%nat.

(** [enumerate(l)] *)
Definition enumerate {A} (l : list A) : list (nat * A) :=
  zip (seq 0 (length l)) l.

(** [s[:n]] on a string, taken as the sequence of its characters. *)
Definition str_slice_to (n : nat) (s : string) : string := substring 0 n s.

(** [not s] for an [Optional[str]]: [None] and the empty string are falsy. *)
Definition str_falsy (s : option string) : bool :=
  match s with
  | None => true
  | Some "" => true
  | Some _ => false
  end.

Definition NOT_FOUND : string := "Data not found in test data".

(** [k in d] for an [Optional[str]] key. *)
Definition key_in {V} (k : option string) (d : gmap string V) : bool :=
  match k with
  | Some k => bool_decide (is_Some (d !! k))
  | None => false
  end.

(** [d[k] = v] for an [Optional[str]] key known to be a string. *)
Definition set_item {V} (k : option string) (v : V) (d : gmap string V)
    : gmap string V :=
  match k with
  | Some k => <[k := v]> d
  | None => d
  end.

(** [d[k] += n] on a key that is present. *)
Definition add_item (k : string) (n : Z) (d : gmap string Z)
    : gmap string Z :=
  alter (fun v => v + n) k d.

(** ** The built-in [sorted]

    [sorted(l, key=f)] is the stable ascending sort; it compares keys with
    [<] only.  Each element is put in front of the first element of the
    sorted tail whose key is not smaller. *)
Section Sorted.
Context {A : Type} (key : A -> Z).

Fixpoint sorted_insert (x : A) (l : list A) : list A :=
  match l with
  | [] => [x]
  | y :: l' =>
      if key y <? key x then y :: sorted_insert x l' else x :: y :: l'
  end.

Fixpoint sorted (l : list A) : list A :=
  match l with
  | [] => []
  | x :: l' => sorted_insert x (sorted l')
  end.
End Sorted.

(** ** The inspection tree

    The well-formed trees of the report: every level is a [dict] read
    with [.get(key, default)], so a field is [None] when its key is
    missing.  Photos and videos stay dictionaries: the media collector
    copies them and adds keys. *)
Abbreviation media := (gmap string json).

Record Comment : Type := {
  comment_text : option string;
  comment_order : option Z;
  comment_photos : option (list media);
  comment_videos : option (list media)
}.

Record LineItem : Type := {
  item_name : option string;
  item_order : option Z;
  item_inspectionStatus : option string;
  item_comments : option (list Comment)
}.

Record SectionT : Type := {
  section_name : option string;
  section_order : option Z;
  section_lineItems : option (list LineItem)
}.

Record Inspection : Type := {
  inspection_sections : option (list SectionT)
}.

(** [x.get('order')] at each level of the tree. *)
Class HasOrder (A : Type) : Type := get_order : A -> option Z.
#[global] Instance section_has_order : HasOrder SectionT := section_order.
#[global] Instance item_has_order : HasOrder LineItem := item_order.
#[global] Instance comment_has_order : HasOrder Comment := comment_order.

(** [lambda x: x.get('order', 0)] *)
Definition order_key {A} `{HasOrder A} (x : A) : Z := default 0 (get_order x).

(** ** The [datetime] library

    Only the calendar date of a [datetime] is read. *)
Record datetime : Type := {
  year : Z;
  month : Z;
  day : Z
}.

(** The proleptic Gregorian date of a day count from 1970-01-01. *)
Definition civil_from_days (days : Z) : datetime :=
  let z := days + 719468 in
  let era := z / 146097 in
  let doe := z - era * 146097 in
  let yoe := (doe - doe / 1460 + doe / 36524 - doe / 146096) / 365 in
  let doy := doe - (365 * yoe + yoe / 4 - yoe / 100) in
  let mp := (5 * doy + 2) / 153 in
  let d := doy - (153 * mp + 2) / 5 + 1 in
  let m := if mp <? 10 then mp + 3 else mp - 9 in
  let y := yoe + era * 400 + (if m <=? 2 then 1 else 0) in
  {| year := y; month := m; day := d |}.

(** [a / b] on two [int]s gives a [float], or raises when the quotient
    is beyond the floats (about [2^1024]).  The quotient is kept exact:
    for a count of milliseconds that names a date of the years 1..9999
    the float and the exact quotient agree on the microsecond. *)
Definition true_div (a b : Z) : result Q :=
  if b =? 0 then Raise ZeroDivisionError
  else if 2 ^ 1024 <=? Z.abs a / Z.abs b then Raise OverflowError
  else Return (Qmake a 1 / Qmake b 1)%Q.

(** Rounding to the nearest integer, a tie to the even one. *)
Definition round_half_even (y : Q) : Z :=
  let f := Qfloor y in
  match Qcompare (y - inject_Z f) (1 # 2) with
  | Lt => f
  | Gt => f + 1
  | Eq => if Z.even f then f else f + 1
  end.

(** [datetime.fromtimestamp(x)] on a POSIX platform: [x] seconds after
    the epoch are rounded to the microsecond, half to even, and turned
    into the local date.  [utcoffset] is the platform's time zone, the
    seconds to add to UTC at a given instant.  It raises outside
    [time_t] and outside the years 1..9999. *)
Definition fromtimestamp (utcoffset : Z -> Z) (x : Q) : result datetime :=
  let seconds := round_half_even (x * inject_Z 1000000) / 1000000 in
  if (seconds <? - 2 ^ 63) || (2 ^ 63 <=? seconds) then Raise OverflowError
  else
    let dt := civil_from_days ((seconds + utcoffset seconds) / 86400) in
    if (year dt <? 1) || (9999 <? year dt) then Raise ValueError
    else Return dt.

(** The decimal digit of [n] at position [10^k]. *)
Definition digit (n : Z) (k : nat) : ascii :=
  ascii_of_nat (48 + Z.to_nat ((n / 10 ^ Z.of_nat k) mod 10)).

(** [dt.strftime("%m/%d/%Y")]: month and day on two digits, the year on
    four, padded with zeros; each field of a [datetime] fits its width. *)
Definition strftime_mdY (dt : datetime) : string :=
  String (digit (month dt) 1) (String (digit (month dt) 0) (String "/"
  (String (digit (day dt) 1) (String (digit (day dt) 0) (String "/"
  (String (digit (year dt) 3) (String (digit (year dt) 2)
  (String (digit (year dt) 1) (String (digit (year dt) 0)
  EmptyString))))))))).

(** Truthiness of a loaded value: [None], [False], zero, the empty
    string, the empty list and the empty mapping are falsy.  The floats
    of bit pattern 0 and [2^63] are the two zeros. *)
Definition float_is_zero (bits : Z) : bool :=
  (bits =? 0) || (bits =? 2 ^ 63).

Definition truthy (v : json) : bool :=
  match v with
  | JNull => false
  | JBool b => b
  | JInt n => negb (n =? 0)
  | JFloat bits => negb (float_is_zero bits)
  | JStr s => negb (bool_decide (s = ""))
  | JArr l => negb (bool_decide (l = []))
  | JObj m => negb (bool_decide (size m = 0%nat))
  end.

(** [v == 0] *)
Definition eq_zero (v : json) : bool :=
  match v with
  | JBool b => negb b
  | JInt n => n =? 0
  | JFloat bits => float_is_zero bits
  | _ => false
  end.

(** [obj.get(key, default)]: only a [dict] has the method. *)
Definition dict_get_default (obj : json) (key : string) (default : json)
    : result json :=
  match obj with
  | JObj m => Return (match m !! key with Some v => v | None => default end)
  | _ => Raise AttributeError
  end.

(** ** [data_mapper.py] *)
Module DataMapper.

Section Mapper.

(** Python's [str] on a loaded value. *)
Variable py_str : json -> string.

(** [get_field_value]: [obj] starts as [self.inspection]; the loop over
    [field_path] returns early with [default]. *)
Fixpoint get_field_value (obj : json) (field_path : list string)
    (default : string) : result string :=
  match field_path with
  | [] =>
      Return (if negb (is_None obj) && ne_empty_str obj
              then py_str obj else default)
  | key :: field_path' =>
      if isinstance_dict obj then
        obj' ← dict_get obj key;
        if is_None obj' then Return default
        else get_field_value obj' field_path' default
      else Return default
  end.

(** The platform's time zone. *)
Variable utcoffset : Z -> Z.

(** [format_timestamp], on its [Optional[int]] argument. *)
Definition format_timestamp (timestamp : option Z) : result string :=
  match timestamp with
  | None => Return NOT_FOUND
  | Some timestamp =>
      (* [not timestamp or timestamp == 0]: the same test twice on an int *)
      if (timestamp =? 0) || (timestamp =? 0) then Return NOT_FOUND
      else
        try_except
          (x ← true_div timestamp 1000;
           dt ← fromtimestamp utcoffset x;
           Return (strftime_mdY dt))
          NOT_FOUND
  end.

End Mapper.

Definition STATUS_MAP : gmap string string :=
  <["I" := "Inspected"]> (<["NI" := "Not Inspected"]>
  (<["NP" := "Not Present"]> (<["D" := "Deficient"]> ∅))).

(** [get_status_label] *)
Definition get_status_label (status_code : option string) : string :=
  if str_falsy status_code then NOT_FOUND
  else match status_code with
       | Some code => default code (STATUS_MAP !! code)
       | None => NOT_FOUND
       end.

(** [get_checkbox_states] *)
Definition get_checkbox_states (status_code : option string)
    : gmap string bool :=
  let states : gmap string bool :=
    <["I" := false]> (<["NI" := false]>
    (<["NP" := false]> (<["D" := false]> ∅))) in
  if negb (str_falsy status_code) && key_in status_code states
  then set_item status_code true states
  else if bool_decide (status_code = None)
  then <["I" := true]> states
  else states.

(** [get_sections], [get_line_items_for_section],
    [get_comments_for_line_item] *)
Definition get_sections (inspection : Inspection) : list SectionT :=
  let sections := default [] (inspection_sections inspection) in
  sorted order_key sections.

Definition get_line_items_for_section (section : SectionT) : list LineItem :=
  let line_items := default [] (section_lineItems section) in
  sorted order_key line_items.

Definition get_comments_for_line_item (line_item : LineItem) : list Comment :=
  let comments := default [] (item_comments line_item) in
  sorted order_key comments.

(** [get_photos_for_comment], [get_videos_for_comment] *)
Definition get_photos_for_comment (comment : Comment) : list media :=
  default [] (comment_photos comment).

Definition get_videos_for_comment (comment : Comment) : list media :=
  default [] (comment_videos comment).

(** The copy of a media record with its three context keys set. *)
Definition with_context (section : SectionT) (line_item : LineItem)
    (comment : Comment) (record : media) : media :=
  let copy := record in
  let copy := <["section_name" :=
                 JStr (default "Unknown" (section_name section))]> copy in
  let copy := <["line_item_name" :=
                 JStr (default "Unknown" (item_name line_item))]> copy in
  <["comment_text" :=
      JStr (str_slice_to 100 (default "" (comment_text comment)))]> copy.

(** [get_all_media]: the two accumulators [all_photos] and [all_videos]
    are threaded through the four nested loops. *)
Definition get_all_media (inspection : Inspection)
    : list media * list media :=
  foldl (fun (acc : list media * list media) section =>
    foldl (fun acc line_item =>
      foldl (fun acc comment =>
        let photos := get_photos_for_comment comment in
        let videos := get_videos_for_comment comment in
        let all_photos :=
          foldl (fun all_photos photo =>
                   append all_photos
                     (with_context section line_item comment photo))
                (fst acc) photos in
        let all_videos :=
          foldl (fun all_videos video =>
                   append all_videos
                     (with_context section line_item comment video))
                (snd acc) videos in
        (all_photos, all_videos))
      acc (get_comments_for_line_item line_item))
    acc (get_line_items_for_section section))
  ([], []) (get_sections inspection).

(** [get_summary_stats]: the [stats] dictionary is threaded through the
    loops. *)
Definition count_status (status : option string) (stats : gmap string Z)
    : gmap string Z :=
  if bool_decide (status = Some "I") then add_item "inspected" 1 stats
  else if bool_decide (status = Some "NI") then add_item "not_inspected" 1 stats
  else if bool_decide (status = Some "NP") then add_item "not_present" 1 stats
  else if bool_decide (status = Some "D") then add_item "deficient" 1 stats
  else stats.

Definition get_summary_stats (inspection : Inspection) : gmap string Z :=
  let sections := get_sections inspection in
  let stats : gmap string Z :=
    <["total_sections" := Z.of_nat (length sections)]>
    (<["total_line_items" := 0]> (<["inspected" := 0]>
    (<["not_inspected" := 0]> (<["not_present" := 0]>
    (<["deficient" := 0]> (<["total_photos" := 0]>
    (<["total_videos" := 0]> ∅))))))) in
  foldl (fun stats section =>
    let line_items := get_line_items_for_section section in
    let stats := add_item "total_line_items" (Z.of_nat (length line_items)) stats in
    foldl (fun stats line_item =>
      let status := item_inspectionStatus line_item in
      let stats := count_status status stats in
      let comments := get_comments_for_line_item line_item in
      foldl (fun stats comment =>
        let stats := add_item "total_photos"
          (Z.of_nat (length (get_photos_for_comment comment))) stats in
        add_item "total_videos"
          (Z.of_nat (length (get_videos_for_comment comment))) stats)
      stats comments)
    stats line_items)
  stats sections.

(** *** Header and property fields

    [self.inspection] is whatever [json.load] gave under the key
    [inspection]. *)
Section Header.

(** Python's [str] on a loaded value. *)
Variable py_str : json -> string.

(** The platform's time zone. *)
Variable utcoffset : Z -> Z.

(** [datetime.fromtimestamp(f / 1000)] for the float of a bit pattern:
    the date, or the exception raised. *)
Variable float_date : Z -> result datetime.

(** [datetime.fromtimestamp(timestamp / 1000)] on a loaded value: a
    [bool] divides as the integer it is, other values do not divide. *)
Definition date_of_timestamp (timestamp : json) : result datetime :=
  match timestamp with
  | JInt n => x ← true_div n 1000; fromtimestamp utcoffset x
  | JBool b => x ← true_div (Z.b2z b) 1000; fromtimestamp utcoffset x
  | JFloat bits => float_date bits
  | _ => Raise TypeError
  end.

(** [format_timestamp] on any loaded value. *)
Definition format_timestamp_any (timestamp : json) : result string :=
  if negb (truthy timestamp) || eq_zero timestamp then Return NOT_FOUND
  else
    try_except
      (dt ← date_of_timestamp timestamp;
       Return (strftime_mdY dt))
      NOT_FOUND.

(** [get_header_fields] *)
Definition get_header_fields (inspection : json)
    : result (gmap string json) :=
  client_info ← dict_get_default inspection "clientInfo" (JObj ∅);
  inspector ← dict_get_default inspection "inspector" (JObj ∅);
  address ← dict_get_default inspection "address" (JObj ∅);
  schedule ← dict_get_default inspection "schedule" (JObj ∅);
  client_name ← dict_get_default client_info "name" (JStr NOT_FOUND);
  date ← dict_get schedule "date";
  date_text ← format_timestamp_any date;
  full_address ← dict_get_default address "fullAddress" (JStr NOT_FOUND);
  inspector_name ← dict_get_default inspector "name" (JStr NOT_FOUND);
  Return (<["Name of Client" := client_name]>
         (<["Date of Inspection" := JStr date_text]>
         (<["Address of Inspected Property" := full_address]>
         (<["Name of Inspector" := inspector_name]>
         (<["TREC License" := JStr NOT_FOUND]>
         (<["Name of Sponsor if applicable" := JStr NOT_FOUND]>
         (<["TREC License_2" := JStr NOT_FOUND]> ∅))))))).

(** [get_property_info] *)
Definition get_property_info (inspection : json)
    : result (gmap string json) :=
  address ← dict_get_default inspection "address" (JObj ∅);
  property_info ← dict_get_default address "propertyInfo" (JObj ∅);
  street ← dict_get_default address "street" (JStr NOT_FOUND);
  city ← dict_get_default address "city" (JStr NOT_FOUND);
  state ← dict_get_default address "state" (JStr NOT_FOUND);
  zipcode ← dict_get_default address "zipcode" (JStr NOT_FOUND);
  square_footage ←
    dict_get_default property_info "squareFootage" (JStr NOT_FOUND);
  Return (<["street" := street]> (<["city" := city]>
         (<["state" := state]> (<["zipcode" := zipcode]>
         (<["square_footage" := JStr (py_str square_footage)]> ∅))))).

End Header.

End DataMapper.

(** The dictionary [_fill_inspection_checkboxes] builds for a line item:
    its four keys are always set, [inspectionStatus] possibly to
    [None]. *)
Record form_item : Type := {
  entry_section : string;
  entry_name : string;
  entry_inspectionStatus : option string;
  entry_comments : list Comment
}.

(** ** [trec_field_mapper.py] *)

(** A form widget of the PDF library: its name, its type (2 is a
    checkbox, 7 a text field) and its value. *)
Record widget : Type := {
  field_name : string;
  field_type : Z;
  field_value : json
}.

(** A document is its pages; [page.widgets()] lists a page's widgets. *)
Abbreviation page := (list widget).
Abbreviation document := (list page).

Module TRECFieldMapper.

Definition STATUS_TO_CHECKBOX_INDEX : gmap string nat :=
  <["I" := 0%nat]> (<["NI" := 1%nat]> (<["NP" := 2%nat]>
  (<["D" := 3%nat]> ∅))).

(** The entries [_analyze_fields] records. *)
Record field : Type := {
  name : string;
  type : Z;
  page_of : Z
}.

Record page_fields : Type := {
  checkboxes : list field;
  text_fields : list field
}.

Record field_info_t : Type := {
  all_checkboxes : list field;
  all_text_fields : list field;
  by_page : gmap Z page_fields
}.

(** The inner loop of [_analyze_fields] over one page's widgets. *)
Definition analyze_page (page_num : Z) (widgets : page)
    (fields : field_info_t) : field_info_t :=
  let '(fields, page_checkboxes, page_text) :=
    foldl (fun '(fields, page_checkboxes, page_text) w =>
      let info := {| name := field_name w; type := field_type w;
                     page_of := page_num |} in
      if field_type w =? 2 then
        ({| all_checkboxes := append (all_checkboxes fields) info;
            all_text_fields := all_text_fields fields;
            by_page := by_page fields |},
         append page_checkboxes info, page_text)
      else if field_type w =? 7 then
        ({| all_checkboxes := all_checkboxes fields;
            all_text_fields := append (all_text_fields fields) info;
            by_page := by_page fields |},
         page_checkboxes, append page_text info)
      else (fields, page_checkboxes, page_text))
    (fields, [], []) widgets in
  {| all_checkboxes := all_checkboxes fields;
     all_text_fields := all_text_fields fields;
     by_page := <[page_num := {| checkboxes := page_checkboxes;
                                 text_fields := page_text |}]>
                (by_page fields) |}.

(** [_analyze_fields] on the opened template. *)
Definition _analyze_fields (doc : document) : field_info_t :=
  foldl (fun fields '(page_num, widgets) =>
           analyze_page (Z.of_nat page_num) widgets fields)
        {| all_checkboxes := []; all_text_fields := []; by_page := ∅ |}
        (enumerate doc).

Section Mapper.

(** [self.field_info] *)
Variable field_info : field_info_t.

(** [widget.update()] raises on the widgets for which this holds. *)
Variable update_raises : widget -> bool.

(** [get_checkbox_groups] *)
Definition get_checkbox_groups (page_num : Z) : list (list string) :=
  match by_page field_info !! page_num with
  | None => []
  | Some fields =>
      let checkbox_names := name <$> checkboxes fields in
      foldl (fun groups i =>
               let group := slice i (i + 4) checkbox_names in
               if (length group =? 4)%nat then append groups group
               else groups)
            [] (py_range 0 (length checkbox_names) 4)
  end.

(** [widget.field_value = v; widget.update()] *)
Definition set_and_update (w : widget) (v : json) : result widget :=
  let w' := {| field_name := field_name w; field_type := field_type w;
               field_value := v |} in
  if update_raises w' then Raise RuntimeError else Return w'.

(** The two nested loops of [fill_checkbox_for_status] over the
    widgets of the document.  [None] is the end of the loop without a
    [return]; otherwise the document after the write and the value
    returned. *)
Fixpoint check_in_widgets (widgets : page) (checkbox_name : string)
    : option (page * Z) :=
  match widgets with
  | [] => None
  | w :: widgets' =>
      if bool_decide (field_name w = checkbox_name) then
        match set_and_update w (JBool true) with
        | Return w' => Some (w' :: widgets', 1)
        | Raise _ => Some (w :: widgets', 0)
        end
      else
        '(widgets'', n) ← check_in_widgets widgets' checkbox_name;
        Some (w :: widgets'', n)
  end.

Fixpoint check_in_pages (doc : document) (checkbox_name : string)
    : option (document * Z) :=
  match doc with
  | [] => None
  | p :: doc' =>
      match check_in_widgets p checkbox_name with
      | Some (p', n) => Some (p' :: doc', n)
      | None =>
          '(doc'', n) ← check_in_pages doc' checkbox_name;
          Some (p :: doc'', n)
      end
  end.

(** [fill_checkbox_for_status]: the document after the call and the
    number returned. *)
Definition fill_checkbox_for_status (doc : document)
    (checkbox_group : list string) (status : option string)
    : result (document * Z) :=
  let status :=
    if str_falsy status || negb (key_in status STATUS_TO_CHECKBOX_INDEX)
    then "I" else default "I" status in
  checkbox_idx ← dict_index STATUS_TO_CHECKBOX_INDEX status;
  if (length checkbox_group <=? checkbox_idx)%nat then Return (doc, 0)
  else
    checkbox_name ← list_index checkbox_group checkbox_idx;
    match check_in_pages doc checkbox_name with
    | Some r => Return r
    | None => Return (doc, 0)
    end.

(** The loops of [fill_text_field]; [None] is the end of the loop
    without a [return]. *)
Fixpoint text_in_widgets (widgets : page) (name : string) (value : string)
    : option (page * bool) :=
  match widgets with
  | [] => None
  | w :: widgets' =>
      if bool_decide (field_name w = name) && (field_type w =? 7) then
        match set_and_update w (JStr value) with
        | Return w' => Some (w' :: widgets', true)
        | Raise _ => Some (w :: widgets', false)
        end
      else
        '(widgets'', b) ← text_in_widgets widgets' name value;
        Some (w :: widgets'', b)
  end.

Fixpoint text_in_pages (doc : document) (name : string) (value : string)
    : option (document * bool) :=
  match doc with
  | [] => None
  | p :: doc' =>
      match text_in_widgets p name value with
      | Some (p', b) => Some (p' :: doc', b)
      | None =>
          '(doc'', b) ← text_in_pages doc' name value;
          Some (p :: doc'', b)
      end
  end.

(** [fill_text_field] *)
Definition fill_text_field (doc : document) (name : string)
    (value : string) : document * bool :=
  default (doc, false) (text_in_pages doc name value).

(** [get_text_fields_for_page] *)
Definition get_text_fields_for_page (page_num : Z) : list string :=
  match by_page field_info !! page_num with
  | None => []
  | Some fields => name <$> text_fields fields
  end.

(** [get_checkbox_count_for_page] *)
Definition get_checkbox_count_for_page (page_num : Z) : Z :=
  match by_page field_info !! page_num with
  | None => 0
  | Some fields => Z.of_nat (length (checkboxes fields))
  end.

(** The optional text field of slot [i] in [fill_line_items_on_page]. *)
Definition fill_slot_text (doc : document) (text_fields : list string)
    (i : nat) (line_item : form_item) : result document :=
  if (i <? length text_fields)%nat then
    text_field_name ← list_index text_fields i;
    let comments := entry_comments line_item in
    match comments with
    | c :: _ =>
        if negb (str_falsy (comment_text c)) then
          let comment_text := str_slice_to 200 (default "" (comment_text c)) in
          Return (fst (fill_text_field doc text_field_name comment_text))
        else Return doc
    | [] => Return doc
    end
  else Return doc.

(** The loop of [fill_line_items_on_page] over
    [enumerate(checkbox_groups)], with its [break]. *)
Fixpoint fill_groups (doc : document) (groups : list (nat * list string))
    (line_items : list form_item) (start_idx : nat)
    (text_fields : list string) (checkboxes_filled items_processed : Z)
    : result (document * (Z * Z)) :=
  match groups with
  | [] => Return (doc, (checkboxes_filled, items_processed))
  | (i, checkbox_group) :: groups' =>
      let item_idx := (start_idx + i)%nat in
      if (length line_items <=? item_idx)%nat
      then Return (doc, (checkboxes_filled, items_processed))
      else
        line_item ← list_index line_items item_idx;
        let status := entry_inspectionStatus line_item in
        '(doc, filled) ← fill_checkbox_for_status doc checkbox_group status;
        let checkboxes_filled := checkboxes_filled + filled in
        let items_processed := items_processed + 1 in
        doc ← fill_slot_text doc text_fields i line_item;
        fill_groups doc groups' line_items start_idx text_fields
                    checkboxes_filled items_processed
  end.

(** [fill_line_items_on_page] *)
Definition fill_line_items_on_page (doc : document) (page_num : Z)
    (line_items : list form_item) (start_idx : nat)
    : result (document * (Z * Z)) :=
  let checkbox_groups := get_checkbox_groups page_num in
  let text_fields := get_text_fields_for_page page_num in
  fill_groups doc (enumerate checkbox_groups) line_items start_idx
              text_fields 0 0.

End Mapper.

End TRECFieldMapper.

(** ** [video_handler.py] *)
Module VideoHandler.

(** [s.startswith(prefixes)] for a tuple of prefixes. *)
Definition startswith (s : string) (prefixes : list string) : bool :=
  existsb (fun p => String.prefix p s) prefixes.

(** [enumerate(l, start)] *)
Definition enumerate_from {A} (start : nat) (l : list A) : list (nat * A) :=
  zip (seq start (length l)) l.

(** [format_video_url] *)
Definition format_video_url (url : string) : string :=
  if bool_decide (url = "") then "No video URL available"
  else if (80 <? String.length url)%nat then str_slice_to 77 url +:+ "..."
  else url.

(** [get_video_url] *)
Definition get_video_url (video_data : media) : json :=
  default (JStr "") (video_data !! "url").

(** [validate_url]: of the truthy values only a [str] has [startswith]. *)
Definition validate_url (url : json) : result bool :=
  if negb (truthy url) then Return false
  else
    match url with
    | JStr s => Return (startswith s ["http://"; "https://"])
    | _ => Raise AttributeError
    end.

(** [count_videos]: the sum over the generator, video by video. *)
Definition count_videos (videos : list media) : result Z :=
  foldl (fun (total : result Z) v =>
           total ← total;
           valid ← validate_url (get_video_url v);
           Return (if (valid : bool) then total + 1 else total))
        (Return 0) videos.

Section Handler.

(** [str(x)], also what an f-string makes of a value. *)
Variable py_str : json -> string.

(** [create_video_link_text] *)
Definition create_video_link_text (video_data : media) (index : Z)
    : string :=
  let description :=
    let description := default JNull (video_data !! "description") in
    if truthy description then description
    else default JNull (video_data !! "caption") in
  if truthy description then
    "Video " +:+ py_str (JInt index) +:+ ": " +:+ py_str description
  else "Video " +:+ py_str (JInt index).

(** [format_video_section] *)
Definition format_video_section (videos : list media)
    (section_name item_name : string) : result (list string) :=
  if bool_decide (videos = []) then Return []
  else
    let formatted := [] in
    let formatted :=
      if negb (bool_decide (section_name = ""))
         && negb (bool_decide (item_name = "")) then
        append formatted
          ("Videos for " +:+ section_name +:+ " - " +:+ item_name +:+ ":")
      else formatted in
    foldl (fun (formatted : result (list string)) '(i, video) =>
             formatted ← formatted;
             let url := get_video_url video in
             valid ← (if truthy url then validate_url url else Return false);
             if (valid : bool) then
               let link_text :=
                 create_video_link_text video (Z.of_nat i) in
               let formatted := append formatted ("  " +:+ link_text) in
               Return (append formatted ("  URL: " +:+ py_str url))
             else
               Return (append formatted
                         ("  Video " +:+ py_str (JInt (Z.of_nat i))
                          +:+ ": Invalid or missing URL")))
          (Return formatted) (enumerate_from 1 videos).

End Handler.

End VideoHandler.

(** ** [image_handler.py]: the download cache *)
Module ImageHandler.

Section Downloads.

(** A decoded image. *)
Variable image : Type.

(** The [try] block of [download_image]: the request, its status check,
    the decoding and the conversion to RGB.  [None] is an exception in
    any of them.  The answer of the network may change from one request
    to the next, so it depends on the number of requests made before. *)
Variable fetch : nat -> string -> option image.

(** The handler: its cache, and the requests it has sent. *)
Record image_handler : Type := {
  cache : gmap string image;
  requests : list string
}.

(** [ImageHandler()] *)
Definition new_handler : image_handler :=
  {| cache := ∅; requests := [] |}.

(** [download_image] *)
Definition download_image (self : image_handler) (url : string)
    : image_handler * option image :=
  match cache self !! url with
  | Some img => (self, Some img)
  | None =>
      match fetch (length (requests self)) url with
      | Some img =>
          ({| cache := <[url := img]> (cache self);
              requests := append (requests self) url |}, Some img)
      | None =>
          ({| cache := cache self;
              requests := append (requests self) url |}, None)
      end
  end.

End Downloads.

Arguments cache {image} _.
Arguments requests {image} _.
Arguments new_handler {image}.
Arguments download_image {image} fetch self url.

End ImageHandler.

(** ** [generate_trec_report.py]: the checkbox driver *)
Module TRECReportGenerator.

(** The dictionary built for one line item of a section. *)
Definition make_entry (section : SectionT) (item : LineItem) : form_item :=
  {| entry_section := default "Unknown" (section_name section);
     entry_name := default "Unknown" (item_name item);
     entry_inspectionStatus := item_inspectionStatus item;
     entry_comments := default [] (item_comments item) |}.

(** The first loops of [_fill_inspection_checkboxes]: all line items of
    all sections. *)
Definition collect_line_items (inspection : Inspection) : list form_item :=
  foldl (fun all_line_items section =>
           foldl (fun all_line_items item =>
                    append all_line_items (make_entry section item))
                 all_line_items
                 (DataMapper.get_line_items_for_section section))
        [] (DataMapper.get_sections inspection).

(** [(page_idx, start_idx, end_idx)] *)
Definition page_mappings : list (Z * (nat * nat)) :=
  [(2, (0%nat, 12%nat)); (3, (12%nat, 22%nat));
   (4, (22%nat, 34%nat)); (5, (34%nat, 41%nat))].

Section Generator.

Variable field_info : TRECFieldMapper.field_info_t.
Variable update_raises : widget -> bool.

(** The loop over [page_mappings]. *)
Fixpoint fill_pages (doc : document) (mappings : list (Z * (nat * nat)))
    (all_line_items : list form_item)
    (total_checkboxes_filled total_items_processed : Z)
    : result (document * (Z * Z)) :=
  match mappings with
  | [] => Return (doc, (total_checkboxes_filled, total_items_processed))
  | (page_idx, (start_idx, end_idx)) :: mappings' =>
      let items_for_page := slice start_idx end_idx all_line_items in
      match items_for_page with
      | [] =>
          fill_pages doc mappings' all_line_items
                     total_checkboxes_filled total_items_processed
      | _ :: _ =>
          '(doc, (filled, processed)) ←
            TRECFieldMapper.fill_line_items_on_page field_info update_raises
              doc page_idx items_for_page 0;
          fill_pages doc mappings' all_line_items
                     (total_checkboxes_filled + filled)
                     (total_items_processed + processed)
      end
  end.

(** [_fill_inspection_checkboxes] on [self.doc]. *)
Definition _fill_inspection_checkboxes (inspection : Inspection)
    (doc : document) : result (document * (Z * Z)) :=
  let all_line_items := collect_line_items inspection in
  fill_pages doc page_mappings all_line_items 0 0.

End Generator.

Section Report.

Variable py_str : json -> string.
Variable utcoffset : Z -> Z.
Variable float_date : Z -> result datetime.
Variable update_raises : widget -> bool.

(** The loop of [_fill_header_fields] over the widgets of the first
    page.  An exception of the update is caught and leaves the widget as
    the document has it; one of the message, printed after the count, is
    caught as well. *)
Fixpoint fill_header_widgets (header_fields : gmap string json)
    (widgets : page) (filled_count : Z) : page * Z :=
  match widgets with
  | [] => ([], filled_count)
  | w :: widgets' =>
      let '(w, filled_count) :=
        match header_fields !! field_name w with
        | Some value =>
            match TRECFieldMapper.set_and_update update_raises w value with
            | Return w' => (w', filled_count + 1)
            | Raise _ => (w, filled_count)
            end
        | None => (w, filled_count)
        end in
      let '(widgets', filled_count) :=
        fill_header_widgets header_fields widgets' filled_count in
      (w :: widgets', filled_count)
  end.

(** [_fill_header_fields] on [self.doc]: the document and the count it
    prints. *)
Definition _fill_header_fields (inspection : json) (doc : document)
    : result (document * Z) :=
  header_fields ← DataMapper.get_header_fields utcoffset float_date
                    inspection;
  match doc with
  | [] => Raise IndexError
  | page :: pages =>
      let '(page, filled_count) :=
        fill_header_widgets header_fields page 0 in
      Return (page :: pages, filled_count)
  end.

(** What [_add_videos] draws: a page added to the document, a text and
    a link on a page.  The colour of a text is left out. *)
Inductive drawing : Type :=
  | new_page
  | insert_text (page_num : Z) (text : string) (x y : Z) (fontsize : Z)
                (fontname : string)
  | insert_link (page_num : Z) (x0 y0 x1 y1 : Z) (uri : json).

(** [_add_text] *)
Definition _add_text (drawn : list drawing) (page_num : Z) (text : string)
    (x y : Z) (font_size : Z) (bold : bool) : list drawing :=
  let font := if bold then "Helvetica-Bold" else "Helvetica" in
  append drawn (insert_text page_num text x y font_size font).

(** The loop of [_add_videos] over [enumerate(videos, 1)], with its
    [continue] and its [break].  [doc_len] is [len(self.doc)]. *)
Fixpoint add_video_links (videos : list (nat * media))
    (drawn : list drawing) (doc_len page_num y_pos videos_added : Z)
    : result (list drawing * Z) :=
  match videos with
  | [] => Return (drawn, videos_added)
  | (i, video) :: videos' =>
      let url := default (JStr "") (video !! "url") in
      skip ← (if negb (truthy url) then Return true
              else valid ← VideoHandler.validate_url url;
                   Return (negb valid));
      if (skip : bool) then
        add_video_links videos' drawn doc_len page_num y_pos videos_added
      else
        let '(drawn, doc_len, page_num, y_pos) :=
          if 720 <? y_pos then
            (append drawn new_page, doc_len + 1, doc_len + 1 - 1, 50)
          else (drawn, doc_len, page_num, y_pos) in
        let video_text :=
          "Video " +:+ py_str (JInt (Z.of_nat i)) +:+ ": "
          +:+ py_str (default (JStr "") (video !! "section_name"))
          +:+ " - "
          +:+ py_str (default (JStr "") (video !! "line_item_name")) in
        let drawn := _add_text drawn page_num video_text 50 y_pos 10 false in
        let drawn :=
          append drawn
            (insert_link page_num 50 (y_pos - 10) 400 (y_pos + 5) url) in
        let y_pos := y_pos + 25 in
        let videos_added := videos_added + 1 in
        if 15 <=? videos_added then Return (drawn, videos_added)
        else
          add_video_links videos' drawn doc_len page_num y_pos videos_added
  end.

(** [_add_videos] on a document of [doc_len] pages: what it draws, and
    the number of links it prints. *)
Definition _add_videos (inspection : Inspection) (doc_len : Z)
    : result (list drawing * Z) :=
  let '(_, videos) := DataMapper.get_all_media inspection in
  if bool_decide (videos = []) then Return ([], 0)
  else
    let drawn := [new_page] in
    let doc_len := doc_len + 1 in
    let page_num := doc_len - 1 in
    let y_pos := 50 in
    let drawn :=
      _add_text drawn page_num "INSPECTION VIDEOS" 50 y_pos 16 true in
    let y_pos := y_pos + 40 in
    add_video_links (VideoHandler.enumerate_from 1 videos) drawn
                    doc_len page_num y_pos 0.

(** The loop of [_process_sections] over [comments[:1]]: the text of a
    comment of more than ten characters, cut after a hundred. *)
Definition add_comment_texts (comments : list Comment)
    (drawn : list drawing) (page_num y_pos : Z) : list drawing * Z :=
  foldl (fun '(drawn, y_pos) comment =>
           let comment_text := default "" (comment_text comment) in
           if negb (bool_decide (comment_text = ""))
              && (10 <? String.length comment_text)%nat then
             let display_text :=
               if (100 <? String.length comment_text)%nat
               then str_slice_to 100 comment_text +:+ "..."
               else comment_text in
             (_add_text drawn page_num ("    " +:+ display_text) 70 y_pos
                        8 false,
              y_pos + 12)
           else (drawn, y_pos))
        (drawn, y_pos) comments.

(** The loop of [_process_sections] over [line_items[:5]]. *)
Definition add_item_texts (line_items : list LineItem)
    (drawn : list drawing) (doc_len page_num y_pos : Z)
    : list drawing * Z * Z * Z :=
  foldl (fun '(drawn, doc_len, page_num, y_pos) item =>
           let '(drawn, doc_len, page_num, y_pos) :=
             if 730 <? y_pos then
               (append drawn new_page, doc_len + 1, doc_len + 1 - 1, 50)
             else (drawn, doc_len, page_num, y_pos) in
           let item_name := default "Unknown" (item_name item) in
           let status :=
             DataMapper.get_status_label (item_inspectionStatus item) in
           let status_str :=
             if bool_decide (item_inspectionStatus item = Some "D") then
               "  • " +:+ item_name +:+ ": " +:+ status +:+ " ⚠"
             else "  • " +:+ item_name +:+ ": " +:+ status in
           let drawn := _add_text drawn page_num status_str 60 y_pos 9 false in
           let y_pos := y_pos + 15 in
           let comments := DataMapper.get_comments_for_line_item item in
           let '(drawn, y_pos) :=
             add_comment_texts (take 1 comments) drawn page_num y_pos in
           (drawn, doc_len, page_num, y_pos))
        (drawn, doc_len, page_num, y_pos) line_items.

(** The loop of [_process_sections] over the sections, with its
    [break]. *)
Fixpoint add_section_texts (sections : list SectionT)
    (drawn : list drawing) (doc_len page_num y_pos section_count : Z)
    : list drawing * Z :=
  match sections with
  | [] => (drawn, section_count)
  | section :: sections' =>
      let '(drawn, doc_len, page_num, y_pos) :=
        if 720 <? y_pos then
          (append drawn new_page, doc_len + 1, doc_len + 1 - 1, 50)
        else (drawn, doc_len, page_num, y_pos) in
      let section_name := default "Unknown Section" (section_name section) in
      let drawn := _add_text drawn page_num section_name 50 y_pos 12 true in
      let y_pos := y_pos + 20 in
      let line_items := DataMapper.get_line_items_for_section section in
      let '(drawn, doc_len, page_num, y_pos) :=
        add_item_texts (take 5 line_items) drawn doc_len page_num y_pos in
      let y_pos := y_pos + 10 in
      let section_count := section_count + 1 in
      if 10 <=? section_count then (drawn, section_count)
      else add_section_texts sections' drawn doc_len page_num y_pos
                             section_count
  end.

(** [_process_sections] on a document of [doc_len] pages: what it draws,
    and the number of sections it prints.  The two totals it prints
    before are not part of the result. *)
Definition _process_sections (inspection : Inspection) (doc_len : Z)
    : list drawing * Z :=
  let sections := DataMapper.get_sections inspection in
  let drawn := [new_page] in
  let doc_len := doc_len + 1 in
  let page_num := doc_len - 1 in
  let y_pos := 50 in
  let drawn :=
    _add_text drawn page_num "INSPECTION DETAILS" 50 y_pos 16 true in
  let y_pos := y_pos + 40 in
  add_section_texts sections drawn doc_len page_num y_pos 0.

End Report.

End TRECReportGenerator.

(** * The vocabulary of the properties *)

Import DataMapper.
Import TRECFieldMapper.
Import TRECReportGenerator.
Import VideoHandler.
Import ImageHandler.

(** ** Status codes *)

(** The four status codes, in the order of a checkbox group. *)
Definition status_codes : list string := ["I"; "NI"; "NP"; "D"].

(** The keys of the four whose checkbox is true. *)
Definition true_keys (states : gmap string bool) : list string :=
  filter (fun k => states !! k = Some true) status_codes.

(** ** Sorting *)

(** Ascending keys. *)
Definition key_le {A} (key : A -> Z) (x y : A) : Prop := key x <= key y.

(** What a sort by the order key owes its input: an ascending
    rearrangement in which each key keeps its elements in order. *)
Definition stable_ascending {A} `{HasOrder A} (input output : list A) : Prop :=
  output ≡ₚ input /\
  StronglySorted (key_le order_key) output /\
  (forall k : Z, filter (fun x => order_key x = k) output =
                 filter (fun x => order_key x = k) input) /\
  (forall x y : A, order_key x = order_key y ->
     [x; y] `sublist_of` input -> [x; y] `sublist_of` output).

(** What the default key 0 means for an entity without an order: it is
    kept, it comes before every sibling of positive order, and the
    siblings of key 0 keep their order. *)
Definition missing_order_first {A} `{HasOrder A} (input output : list A)
    : Prop :=
  (forall x : A, get_order x = None -> order_key x = 0) /\
  (forall x : A, x ∈ input -> x ∈ output) /\
  (forall (i j : nat) (x y : A) (k : Z),
     output !! i = Some x -> output !! j = Some y ->
     get_order x = None -> get_order y = Some k -> 0 < k -> (i < j)%nat) /\
  filter (fun x => order_key x = 0) output =
  filter (fun x => order_key x = 0) input.

(** ** Field lookup and dates *)

(** The value a path leads to: each key is looked up in a mapping; a step
    from a non-mapping or to a missing key leads nowhere. *)
Fixpoint path_value (obj : json) (path : list string) : option json :=
  match path with
  | [] => Some obj
  | key :: path' =>
      match obj with
      | JObj m => v ← m !! key; path_value v path'
      | _ => None
      end
  end.

(** The date [format_timestamp] asks the library for. *)
Definition timestamp_date (utcoffset : Z -> Z) (t : Z) : result datetime :=
  x ← true_div t 1000; fromtimestamp utcoffset x.

(** A valid calendar date of the years [datetime] supports. *)
Definition valid_date (dt : datetime) : Prop :=
  1 <= year dt <= 9999 /\ 1 <= month dt <= 12 /\ 1 <= day dt <= 31.

(** A decimal digit. *)
Definition is_digit (c : ascii) : bool :=
  (48 <=? nat_of_ascii c)%nat && (nat_of_ascii c <=? 57)%nat.

(** The number a run of decimal digits denotes. *)
Definition digits_value (s : string) : Z :=
  foldl (fun n c => 10 * n + (Z.of_nat (nat_of_ascii c) - 48)) 0
        (list_ascii_of_string s).

(** Ten characters: two digits, a slash, two digits, a slash, four
    digits. *)
Definition mm_dd_yyyy (s : string) : bool :=
  match s with
  | String m1 (String m0 (String "/" (String d1 (String d0 (String "/"
    (String y3 (String y2 (String y1 (String y0 EmptyString))))))))) =>
      is_digit m1 && is_digit m0 && is_digit d1 && is_digit d0 &&
      is_digit y3 && is_digit y2 && is_digit y1 && is_digit y0
  | _ => false
  end.

(** ** Form fields *)

(** The checkbox names [_analyze_fields] recorded for a page, in the
    order of discovery. *)
Definition page_checkbox_names (field_info : field_info_t) (page_num : Z)
    : list string :=
  match by_page field_info !! page_num with
  | Some fields => name <$> checkboxes fields
  | None => []
  end.

(** The entry [_analyze_fields] makes for a widget. *)
Definition field_of (page_num : Z) (w : widget) : field :=
  {| name := field_name w; type := field_type w; page_of := page_num |}.

(** The position in a group that a status selects: a status that is
    absent or not a code counts as I. *)
Definition selected_index (status : option string) : nat :=
  if decide (status = Some "NI") then 1
  else if decide (status = Some "NP") then 2
  else if decide (status = Some "D") then 3
  else 0.

(** A widget after [field_value = True]. *)
Definition checked (w : widget) : widget :=
  {| field_name := field_name w; field_type := field_type w;
     field_value := JBool true |}.

(** A widget that does not bear a name. *)
Definition not_named (checkbox_name : string) (w : widget) : Prop :=
  field_name w <> checkbox_name.

(** ** Media and counts *)

(** The comments of the tree in the three-level sort order, each with its
    section and line item. *)
Definition comments_in_order (inspection : Inspection)
    : list (SectionT * LineItem * Comment) :=
  section ← get_sections inspection;
  line_item ← get_line_items_for_section section;
  comment ← get_comments_for_line_item line_item;
  [(section, line_item, comment)].

(** The records of one kind, in that order, each with its context. *)
Definition flat_media (select : Comment -> list media)
    (inspection : Inspection) : list media :=
  '(section, line_item, comment) ← comments_in_order inspection;
  with_context section line_item comment <$> select comment.

(** Sum of a count over a list. *)
Definition sum_with {X} (count : X -> Z) (l : list X) : Z :=
  foldr (fun x total => count x + total) 0 l.

(** What an entry of the collector carries: the owner's names, an excerpt
    of the comment of at most 100 characters, and every other key as in
    the record it copies. *)
Definition carries_context (section : SectionT) (line_item : LineItem)
    (comment : Comment) (record entry : media) : Prop :=
  entry !! "section_name" =
    Some (JStr (default "Unknown" (section_name section))) /\
  entry !! "line_item_name" =
    Some (JStr (default "Unknown" (item_name line_item))) /\
  (exists excerpt rest : string,
     entry !! "comment_text" = Some (JStr excerpt) /\
     (String.length excerpt <= 100)%nat /\
     default "" (comment_text comment) = String.append excerpt rest /\
     (rest <> "" -> String.length excerpt = 100%nat)) /\
  (forall k : string,
     k <> "section_name" -> k <> "line_item_name" -> k <> "comment_text" ->
     entry !! k = record !! k).

(** The owners of an entry are in the tree. *)
Definition owned_in (inspection : Inspection)
    (select : Comment -> list media) (entry : media) : Prop :=
  exists (section : SectionT) (line_item : LineItem) (comment : Comment)
         (record : media),
    section ∈ default [] (inspection_sections inspection) /\
    line_item ∈ default [] (section_lineItems section) /\
    comment ∈ default [] (item_comments line_item) /\
    record ∈ select comment /\
    carries_context section line_item comment record entry.

(** ** Pages and slots *)

(** All line items in the flattened order: sections by order, then each
    section's line items by order. *)
Definition flattened_line_items (inspection : Inspection) : list form_item :=
  section ← get_sections inspection;
  make_entry section <$> get_line_items_for_section section.

(** The slots a page fills: the [i]-th checkbox group with the [i]-th of
    the line items it is given, while both last. *)
Definition page_slots (groups : list (list string))
    (line_items : list form_item) : list (nat * (list string * form_item)) :=
  enumerate (zip groups line_items).

Section Slots.
Variable field_info : field_info_t.
Variable update_raises : widget -> bool.

(** Filling a list of slots in turn. *)
Fixpoint fill_slots (doc : document)
    (slots : list (nat * (list string * form_item)))
    (text_fields : list string) (checkboxes_filled items_processed : Z)
    : result (document * (Z * Z)) :=
  match slots with
  | [] => Return (doc, (checkboxes_filled, items_processed))
  | (i, (checkbox_group, line_item)) :: slots' =>
      '(doc, filled) ←
        fill_checkbox_for_status update_raises doc checkbox_group
          (entry_inspectionStatus line_item);
      doc ← fill_slot_text update_raises doc text_fields i line_item;
      fill_slots doc slots' text_fields (checkboxes_filled + filled)
                 (items_processed + 1)
  end.

(** The driver, page range by page range. *)
Fixpoint fill_ranges (doc : document) (mappings : list (Z * (nat * nat)))
    (all_line_items : list form_item)
    (total_checkboxes_filled total_items_processed : Z)
    : result (document * (Z * Z)) :=
  match mappings with
  | [] => Return (doc, (total_checkboxes_filled, total_items_processed))
  | (page_idx, (start_idx, end_idx)) :: mappings' =>
      '(doc, (filled, processed)) ←
        fill_slots doc
          (page_slots (get_checkbox_groups field_info page_idx)
                      (slice start_idx end_idx all_line_items))
          (get_text_fields_for_page field_info page_idx) 0 0;
      fill_ranges doc mappings' all_line_items
                  (total_checkboxes_filled + filled)
                  (total_items_processed + processed)
  end.

End Slots.

(** ** Sample data *)

(** A comment and a line item by their text, name and order. *)
Definition comment_of (text : string) (order : option Z) : Comment :=
  {| comment_text := Some text; comment_order := order;
     comment_photos := None; comment_videos := None |}.

Definition item_of (name : string) (order : option Z)
    (status : option string) (comments : list Comment) : LineItem :=
  {| item_name := Some name; item_order := order;
     item_inspectionStatus := status; item_comments := Some comments |}.

(** A loaded tree whose client name is empty and whose schedule is not a
    mapping. *)
Definition client_tree : json :=
  JObj (<["clientInfo" := JObj (<["name" := JStr ""]> ∅)]>
       (<["schedule" := JInt 7]> ∅)).

(** A checkbox and a text field by name, and a page with one group of
    four checkboxes and a text field. *)
Definition checkbox (checkbox_name : string) : widget :=
  {| field_name := checkbox_name; field_type := 2; field_value := JBool false |}.

Definition text_field (text_name : string) : widget :=
  {| field_name := text_name; field_type := 7; field_value := JStr "" |}.

Definition one_group_doc : document :=
  [[checkbox "cb_I"; checkbox "cb_NI"; checkbox "cb_NP"; checkbox "cb_D";
    text_field "notes"]].

(** A report of one section with fourteen line items, listed in reverse
    order, and a form whose third page has twelve checkbox groups and
    whose fourth has two and a lone checkbox. *)
Definition letter (k : nat) : string := String (ascii_of_nat (65 + k)) "".

Definition lettered_items (n : nat) : list LineItem :=
  (fun k => item_of (letter k) (Some (Z.of_nat k)) (Some "D") [])
    <$> reverse (seq 0 n).

Definition roof_inspection : Inspection :=
  {| inspection_sections :=
       Some [{| section_name := Some "Roof"; section_order := Some 1;
                section_lineItems := Some (lettered_items 14) |}] |}.

Definition checkbox_row (prefix : string) (k : nat) : page :=
  (fun code =>
     checkbox (String.append prefix (String.append (letter k) code)))
    <$> ["_I"; "_NI"; "_NP"; "_D"].

Definition form_page (prefix : string) (rows : nat) : page :=
  seq 0 rows ≫= checkbox_row prefix.

Definition form_template : document :=
  [[text_field "Name of Client"]; []; form_page "p3" 12;
   form_page "p4" 2 ++ [checkbox "p4_lone"]; form_page "p5" 12;
   form_page "p6" 7].

(** Three sections of two line items each: one item is deficient and
    has a comment with a photo, one has no status. *)
Definition leak_photo : media :=
  <["url" := JStr "https://example.org/leak.jpg"]> ∅.

Definition leak_comment : Comment :=
  {| comment_text := Some "Active leak under the sink";
     comment_order := Some 1;
     comment_photos := Some [leak_photo]; comment_videos := None |}.

Definition section_of (name : string) (order : Z) (items : list LineItem)
    : SectionT :=
  {| section_name := Some name; section_order := Some order;
     section_lineItems := Some items |}.

Definition three_sections : Inspection :=
  {| inspection_sections := Some
       [section_of "Plumbing" 2
          [item_of "Sinks" (Some 1) (Some "D") [leak_comment];
           item_of "Drains" (Some 2) (Some "I") []];
        section_of "Roof" 1
          [item_of "Covering" (Some 1) (Some "I") [];
           item_of "Flashing" (Some 2) None []];
        section_of "Electrical" 3
          [item_of "Panel" (Some 1) (Some "I") [];
           item_of "Outlets" (Some 2) (Some "I") []]] |}.

(** ** The shape of a form *)

(** The name and the type of a widget: what [_analyze_fields] reads. *)
Definition widget_shape (w : widget) : string * Z :=
  (field_name w, field_type w).

(** The names and types of all widgets of a document, page by page. *)
Definition doc_shape (doc : document) : list (list (string * Z)) :=
  (fun widgets : page => widget_shape <$> widgets) <$> doc.

(** The names of all widgets of a document. *)
Definition doc_names (doc : document) : list string :=
  concat ((fun widgets : page => field_name <$> widgets) <$> doc).

(** A widget after [field_value = str(value)]. *)
Definition with_text (value : string) (w : widget) : widget :=
  {| field_name := field_name w; field_type := field_type w;
     field_value := JStr value |}.

(** A widget that is not the text field of a name. *)
Definition not_text_named (text_name : string) (w : widget) : Prop :=
  ~ (field_name w = text_name /\ field_type w = 7).

(** The widgets of a document that are not text fields, page by page. *)
Definition non_text_widgets (doc : document) : list (list widget) :=
  (fun widgets : page => filter (fun w => field_type w <> 7) widgets) <$> doc.

(** ** What the driver places *)

(** The items a page takes: as many as it has checkbox groups and its
    range has items. *)
Definition range_capacity (field_info : field_info_t)
    (all_line_items : list form_item) (mapping : Z * (nat * nat)) : Z :=
  Z.of_nat (Nat.min
    (length (get_checkbox_groups field_info (fst mapping)))
    (length (slice (fst (snd mapping)) (snd (snd mapping)) all_line_items))).

(** The items the four pages take together. *)
Definition placed_count (field_info : field_info_t)
    (all_line_items : list form_item) : Z :=
  sum_with (range_capacity field_info all_line_items) page_mappings.

(** A report of one section with [n] line items, for the driver. *)
Definition long_inspection (n : nat) : Inspection :=
  {| inspection_sections :=
       Some [{| section_name := Some "Roof"; section_order := Some 1;
                section_lineItems := Some (lettered_items n) |}] |}.

(** The entries of one type that a page of the template yields. *)
Definition page_entries (type_code : Z) (numbered : nat * page)
    : list field :=
  field_of (Z.of_nat (fst numbered)) <$>
    filter (fun w => field_type w = type_code) (snd numbered).

(** ** The tree as loaded *)

(** The sections of the tree and all its line items, as the file lists
    them. *)
Definition tree_sections (inspection : Inspection) : list SectionT :=
  default [] (inspection_sections inspection).

Definition tree_line_items (inspection : Inspection) : list LineItem :=
  tree_sections inspection ≫= fun section =>
    default [] (section_lineItems section).

(** The line items of one status code. *)
Definition with_status (code : string) (items : list LineItem)
    : list LineItem :=
  filter (fun item => item_inspectionStatus item = Some code) items.

(** The line items whose status is absent or not a code. *)
Definition without_code (items : list LineItem) : list LineItem :=
  filter (fun item =>
            Forall (fun code => item_inspectionStatus item <> Some code)
                   status_codes) items.

(** What [d[k'] += n] adds to the entry of [k]. *)
Definition tally (k k' : string) (n : Z) : Z :=
  if decide (k' = k) then n else 0.

(** What the status branch of the aggregator adds to the entry of [k]. *)
Definition tally_status (k : string) (status : option string) : Z :=
  if decide (status = Some "I") then tally k "inspected" 1
  else if decide (status = Some "NI") then tally k "not_inspected" 1
  else if decide (status = Some "NP") then tally k "not_present" 1
  else if decide (status = Some "D") then tally k "deficient" 1
  else 0.

(** The eight keys of the summary. *)
Definition summary_keys : list string :=
  ["total_sections"; "total_line_items"; "inspected"; "not_inspected";
   "not_present"; "deficient"; "total_photos"; "total_videos"].

(** ** Header fields *)

(** The seven keys of the header. *)
Definition header_keys : list string :=
  ["Name of Client"; "Date of Inspection"; "Address of Inspected Property";
   "Name of Inspector"; "TREC License"; "Name of Sponsor if applicable";
   "TREC License_2"].

(** The value under a key of a mapping, or the empty mapping. *)
Definition sub_or_empty (m : gmap string json) (key : string) : json :=
  match m !! key with
  | Some v => v
  | None => JObj ∅
  end.

(** The value under a key of a mapping, or a default. *)
Definition lookup_or (obj : json) (key : string) (default : json) : json :=
  match obj with
  | JObj m => match m !! key with Some v => v | None => default end
  | _ => default
  end.

(** The inspection is a mapping and each of the listed entries is a
    mapping or absent. *)
Definition entries_ready (keys : list string) (inspection : json) : bool :=
  match inspection with
  | JObj m => forallb (fun key => isinstance_dict (sub_or_empty m key)) keys
  | _ => false
  end.

Definition header_ready : json -> bool :=
  entries_ready ["clientInfo"; "inspector"; "address"; "schedule"].

(** The address is a mapping or absent, and so is its [propertyInfo]. *)
Definition property_ready (inspection : json) : bool :=
  match inspection with
  | JObj m =>
      match sub_or_empty m "address" with
      | JObj a => isinstance_dict (sub_or_empty a "propertyInfo")
      | _ => false
      end
  | _ => false
  end.

(** The five keys of the property information. *)
Definition property_keys : list string :=
  ["street"; "city"; "state"; "zipcode"; "square_footage"].

(** The text [format_timestamp] returns. *)
Definition timestamp_text (utcoffset : Z -> Z)
    (float_date : Z -> result datetime) (timestamp : json) : string :=
  match format_timestamp_any utcoffset float_date timestamp with
  | Return text => text
  | Raise _ => NOT_FOUND
  end.

(** A tree with an empty client name, a null address line and a schedule
    that is a mapping. *)
Definition sparse_tree : json :=
  JObj (<["clientInfo" := JObj (<["name" := JStr ""]> ∅)]>
       (<["address" := JObj (<["fullAddress" := JNull]> ∅)]>
       (<["schedule" := JObj (<["date" := JInt 1700000000000]> ∅)]> ∅))).

(** ** Videos *)

(** The URL of a video is a string, or a value that counts as false. *)
Definition url_is_text (video : media) : bool :=
  match get_video_url video with
  | JStr _ => true
  | url => negb (truthy url)
  end.

(** The URL of a video is a string that starts with [http://] or
    [https://]. *)
Definition http_url (video : media) : bool :=
  match get_video_url video with
  | JStr s => startswith s ["http://"; "https://"]
  | _ => false
  end.

(** The number of lines of the heading of a video section. *)
Definition heading_lines (section_name item_name : string) : nat :=
  if negb (bool_decide (section_name = ""))
     && negb (bool_decide (item_name = "")) then 1 else 0.

(** A video with a URL. *)
Definition video_at (url : json) : media := <["url" := url]> ∅.

(** The videos [_add_videos] links: those with an [http://] or
    [https://] URL, numbered from one as they come in the list, and of
    these the first fifteen. *)
Definition linked_videos (videos : list media) : list (nat * media) :=
  take 15 (filter (fun entry : nat * media => http_url entry.2)
                  (enumerate_from 1 videos)).

(** The text and the link of the linked video of rank [k], 25 points
    below the one before. *)
Definition video_entry (py_str : json -> string) (page_num : Z) (k : nat)
    (entry : nat * media) : list drawing :=
  let y := 90 + 25 * Z.of_nat k in
  [insert_text page_num
     ("Video " +:+ py_str (JInt (Z.of_nat entry.1)) +:+ ": "
      +:+ py_str (default (JStr "") (entry.2 !! "section_name"))
      +:+ " - "
      +:+ py_str (default (JStr "") (entry.2 !! "line_item_name")))
     50 y 10 "Helvetica";
   insert_link page_num 50 (y - 10) 400 (y + 5) (get_video_url entry.2)].

(** One page of video links, added after the [doc_len] pages of the
    document. *)
Definition video_page (py_str : json -> string) (doc_len : Z)
    (videos : list media) : list drawing :=
  new_page
  :: insert_text doc_len "INSPECTION VIDEOS" 50 50 16 "Helvetica-Bold"
  :: concat (imap (video_entry py_str doc_len) (linked_videos videos)).

(** An inspection of one comment with the given videos. *)
Definition inspection_with_videos (videos : list media) : Inspection :=
  {| inspection_sections :=
       Some [section_of "Roof" 1
               [item_of "Covering" (Some 1) (Some "D")
                  [{| comment_text := Some "Leak";
                      comment_order := Some 1;
                      comment_photos := None;
                      comment_videos := Some videos |}]]] |}.

(** ** The header of the form *)

(** A widget whose name is one of the header keys. *)
Definition header_named (w : widget) : bool :=
  bool_decide (field_name w ∈ header_keys).

(** What the header loop owes a widget [w] of the first page, [w'] being
    the widget after it: name and type are kept, a widget without a
    header name is left alone, and a widget that changed holds the header
    field of its name. *)
Definition header_filled (fields : gmap string json) (w w' : widget)
    : Prop :=
  widget_shape w' = widget_shape w /\
  (header_named w = false -> w' = w) /\
  (w' = w \/ fields !! field_name w = Some (field_value w')).

(** A first page with a header field, a checkbox of a header name and a
    field the header does not know. *)
Definition cover_page : page :=
  [text_field "Name of Client"; checkbox "TREC License";
   text_field "Buyer"].

(** ** The download cache *)

(** A run of downloads, one URL after the other: the handler after the
    run, and what each download returned. *)
Fixpoint download_run {image : Type} (fetch : nat -> string -> option image)
    (self : image_handler image) (urls : list string)
    : image_handler image * list (option image) :=
  match urls with
  | [] => (self, [])
  | url :: urls' =>
      let '(self, img) := download_image fetch self url in
      let '(self, imgs) := download_run fetch self urls' in
      (self, img :: imgs)
  end.

(** The cache holds exactly the images of the requests that succeeded,
    and a URL was requested again only after requests that failed. *)
Definition cache_sound {image : Type} (fetch : nat -> string -> option image)
    (self : image_handler image) : Prop :=
  (forall (url : string) (img : image),
     cache self !! url = Some img <->
     exists k : nat, requests self !! k = Some url /\
                     fetch k url = Some img) /\
  (forall (j k : nat) (url : string),
     (j < k)%nat -> requests self !! j = Some url ->
     requests self !! k = Some url -> fetch j url = None).

(** A network whose second request fails; an image is the number of the
    request that fetched it and its URL. *)
Definition flaky_fetch (k : nat) (url : string) : option (nat * string) :=
  if (k =? 1)%nat then None else Some (k, url).

(** ** Drawing on added pages *)

(** The number of pages of a document of [pages] pages after the
    drawings. *)
Definition is_new_page (d : drawing) : bool :=
  match d with
  | new_page => true
  | _ => false
  end.

Definition pages_after (pages : Z) (drawn : list drawing) : Z :=
  pages + Z.of_nat (length (filter is_new_page drawn)).

(** Every text and every link is drawn on the page that is the last one
    when it is drawn. *)
Fixpoint on_last_page (pages : Z) (drawn : list drawing) : Prop :=
  match drawn with
  | [] => True
  | new_page :: drawn' => on_last_page (pages + 1) drawn'
  | insert_text page_num _ _ _ _ _ :: drawn' =>
      page_num = pages - 1 /\ on_last_page pages drawn'
  | insert_link page_num _ _ _ _ _ :: drawn' =>
      page_num = pages - 1 /\ on_last_page pages drawn'
  end.

(** The base line of a text is between two heights. *)
Definition text_within (low high : Z) (d : drawing) : Prop :=
  match d with
  | insert_text _ _ _ y _ _ => low <= y <= high
  | _ => True
  end.

(** The state of a drawing loop is in order: the texts drawn so far are
    on the page that was the last one and between 50 and 745, the page
    number is the one of the last page, and [y_pos] is between 50 and
    [high]. *)
Definition page_state (pages high : Z) (drawn : list drawing)
    (doc_len page_num y_pos : Z) : Prop :=
  on_last_page pages drawn /\
  doc_len = pages_after pages drawn /\
  page_num = doc_len - 1 /\
  Forall (text_within 50 745) drawn /\
  50 <= y_pos <= high.

(** * Properties *)

(** ** Status normalizer *)

Lemma not_status_code (s : string) :
  s ∉ status_codes -> s <> "I" /\ s <> "NI" /\ s <> "NP" /\ s <> "D".
Proof.
  unfold status_codes. intros Hs.
  repeat split; intros ->; apply Hs; set_solver.
Qed.

Lemma STATUS_MAP_unknown (s : string) :
  s ∉ status_codes -> STATUS_MAP !! s = None.
Proof.
  intros (? & ? & ? & ?)%not_status_code. unfold STATUS_MAP.
  by rewrite !lookup_insert_ne, lookup_empty.
Qed.

Lemma str_falsy_Some (s : string) : s <> "" -> str_falsy (Some s) = false.
Proof. by destruct s. Qed.

Example label_of_deficient : get_status_label (Some "D") = "Deficient".
Proof. reflexivity. Qed.

(** C1, as the code has it: the four codes I, NI, NP and D give the labels
    Inspected, Not Inspected, Not Present and Deficient; an absent code and
    the empty string give the sentinel; every other string is returned
    unchanged. *)
Theorem get_status_label_spec (status_code : option string) :
  (status_code = Some "I" -> get_status_label status_code = "Inspected") /\
  (status_code = Some "NI" -> get_status_label status_code = "Not Inspected") /\
  (status_code = Some "NP" -> get_status_label status_code = "Not Present") /\
  (status_code = Some "D" -> get_status_label status_code = "Deficient") /\
  (status_code = None \/ status_code = Some "" ->
     get_status_label status_code = NOT_FOUND) /\
  (forall s, status_code = Some s -> s <> "" -> s ∉ status_codes ->
     get_status_label status_code = s).
Proof.
  repeat split.
  - by intros ->.
  - by intros ->.
  - by intros ->.
  - by intros ->.
  - by intros [-> | ->].
  - intros s -> Hne Hs. unfold get_status_label.
    rewrite str_falsy_Some by done. by rewrite STATUS_MAP_unknown.
Qed.

Lemma get_status_label_spec_witness :
  get_status_label (Some "D") = "Deficient" /\
  get_status_label None = NOT_FOUND /\
  get_status_label (Some "X") = "X".
Proof.
  split; [| split].
  - destruct (get_status_label_spec (Some "D")) as (_ & _ & _ & H & _).
    apply H. reflexivity.
  - destruct (get_status_label_spec None) as (_ & _ & _ & _ & H & _).
    apply H. left. reflexivity.
  - destruct (get_status_label_spec (Some "X")) as (_ & _ & _ & _ & _ & H).
    apply H; [reflexivity | discriminate |].
    unfold status_codes. intros Hin.
    repeat (apply elem_of_cons in Hin as [Hin | Hin]; [discriminate |]).
    by apply elem_of_nil in Hin.
Defined.

(** C1 as stated fails: an unknown code is not turned into the sentinel,
    it is passed through. *)
Lemma get_status_label_unknown_not_sentinel :
  ("X" ∉ status_codes) /\ get_status_label (Some "X") = "X" /\
  get_status_label (Some "X") <> NOT_FOUND.
Proof.
  split; [| split; [reflexivity | discriminate]].
  unfold status_codes. intros H.
  repeat (apply elem_of_cons in H as [H | H]; [discriminate |]).
  by apply elem_of_nil in H.
Qed.

(** C2: [get_checkbox_states] has the four keys I, NI, NP, D; for an absent
    status exactly I is true, for one of the four codes exactly that code
    is true, and for any other status string all four are false. *)
Theorem get_checkbox_states_one_hot (status_code : option string) :
  dom (get_checkbox_states status_code) = list_to_set status_codes /\
  (status_code = None -> true_keys (get_checkbox_states status_code) = ["I"]) /\
  (forall s, status_code = Some s -> s ∈ status_codes ->
     true_keys (get_checkbox_states status_code) = [s]) /\
  (forall s, status_code = Some s -> s ∉ status_codes ->
     forall k, k ∈ status_codes ->
       get_checkbox_states status_code !! k = Some false).
Proof.
  assert (Hunk : forall s, s ∉ status_codes ->
            get_checkbox_states (Some s) =
            <["I" := false]> (<["NI" := false]>
            (<["NP" := false]> (<["D" := false]> ∅)))).
  { intros s Hs. destruct (not_status_code s Hs) as (? & ? & ? & ?).
    unfold get_checkbox_states, key_in.
    rewrite !lookup_insert_ne, lookup_empty by done.
    rewrite bool_decide_eq_false_2 by (by intros [? ?]).
    rewrite andb_false_r. by rewrite bool_decide_eq_false_2. }
  assert (Hknown : forall s, s ∈ status_codes ->
            s = "I" \/ s = "NI" \/ s = "NP" \/ s = "D").
  { unfold status_codes. intros s Hs.
    repeat (apply elem_of_cons in Hs as [Hs | Hs]; [tauto |]).
    by apply elem_of_nil in Hs. }
  repeat split.
  - destruct status_code as [s |]; [| by vm_compute].
    destruct (decide (s ∈ status_codes)) as [Hs | Hs].
    + destruct (Hknown s Hs) as [-> | [-> | [-> | ->]]]; by vm_compute.
    + rewrite Hunk by done. by vm_compute.
  - by intros ->.
  - intros s -> Hs.
    destruct (Hknown s Hs) as [-> | [-> | [-> | ->]]]; by vm_compute.
  - intros s -> Hs k Hk. rewrite Hunk by done.
    destruct (Hknown k Hk) as [-> | [-> | [-> | ->]]]; by vm_compute.
Qed.

Lemma get_checkbox_states_one_hot_witness :
  true_keys (get_checkbox_states None) = ["I"] /\
  true_keys (get_checkbox_states (Some "NP")) = ["NP"] /\
  get_checkbox_states (Some "X") !! "D" = Some false.
Proof.
  split; [| split].
  - destruct (get_checkbox_states_one_hot None) as (_ & H & _).
    apply H. reflexivity.
  - destruct (get_checkbox_states_one_hot (Some "NP")) as (_ & _ & H & _).
    apply H; [reflexivity |].
    unfold status_codes. set_solver.
  - destruct (get_checkbox_states_one_hot (Some "X")) as (_ & _ & _ & H).
    apply (H "X"); [reflexivity | |].
    + unfold status_codes. intros Hin.
      repeat (apply elem_of_cons in Hin as [Hin | Hin]; [discriminate |]).
      by apply elem_of_nil in Hin.
    + unfold status_codes. set_solver.
Defined.

(** ** The stable sort *)

Section SortedFacts.
Context {A : Type} (key : A -> Z).

Lemma sorted_insert_perm (x : A) (l : list A) :
  sorted_insert key x l ≡ₚ x :: l.
Proof.
  induction l as [| y l IH]; simpl; [done |].
  destruct (key y <? key x); [| done].
  rewrite IH. apply Permutation_swap.
Qed.

Lemma sorted_perm (l : list A) : sorted key l ≡ₚ l.
Proof.
  induction l as [| x l IH]; simpl; [done |].
  by rewrite sorted_insert_perm, IH.
Qed.

Lemma sorted_length (l : list A) : length (sorted key l) = length l.
Proof. by rewrite sorted_perm. Qed.

Lemma sorted_elem_of (x : A) (l : list A) : x ∈ sorted key l <-> x ∈ l.
Proof. by rewrite sorted_perm. Qed.

Lemma sorted_insert_ascending (x : A) (l : list A) :
  StronglySorted (key_le key) l -> StronglySorted (key_le key) (sorted_insert key x l).
Proof.
  induction l as [| y l IH]; simpl; intros Hl.
  - repeat constructor.
  - apply StronglySorted_inv in Hl as [Hl Hy].
    destruct (Z.ltb_spec (key y) (key x)) as [Hlt | Hge].
    + constructor; [by apply IH |].
      rewrite Forall_forall. intros z Hz.
      apply (elem_of_Permutation_proper _ _ _ (sorted_insert_perm x l)) in Hz.
      apply elem_of_cons in Hz as [-> | Hz].
      * unfold key_le. lia.
      * rewrite Forall_forall in Hy. by apply Hy.
    + constructor; [by constructor |].
      constructor; [done |].
      rewrite Forall_forall in Hy |- *. intros z Hz.
      specialize (Hy z Hz). unfold key_le in *. lia.
Qed.

Lemma sorted_ascending (l : list A) : StronglySorted (key_le key) (sorted key l).
Proof.
  induction l as [| x l IH]; simpl; [constructor |].
  by apply sorted_insert_ascending.
Qed.

(** In an ascending list a later position has no smaller key. *)
Lemma ascending_lookup (l : list A) (i j : nat) (x y : A) :
  StronglySorted (key_le key) l ->
  l !! i = Some x -> l !! j = Some y -> (i <= j)%nat -> key x <= key y.
Proof.
  intros Hl. revert i j.
  induction Hl as [| z l Hl IH Hz]; intros i j Hi Hj Hij; [done |].
  destruct i as [| i], j as [| j]; simpl in *; simplify_eq.
  - lia.
  - rewrite Forall_forall in Hz. apply Hz. by eapply list_elem_of_lookup_2.
  - lia.
  - apply (IH i j); [done | done | lia].
Qed.

Lemma sorted_insert_filter (k : Z) (x : A) (l : list A) :
  filter (fun y => key y = k) (sorted_insert key x l) =
  filter (fun y => key y = k) (x :: l).
Proof.
  induction l as [| y l IH]; simpl; [done |].
  destruct (Z.ltb_spec (key y) (key x)) as [Hlt | Hge]; [| done].
  rewrite (filter_cons _ y), IH, !filter_cons.
  repeat case_decide; try done; lia.
Qed.

(** Stability: the elements of any one key keep their order. *)
Lemma sorted_stable (k : Z) (l : list A) :
  filter (fun y => key y = k) (sorted key l) =
  filter (fun y => key y = k) l.
Proof.
  induction l as [| x l IH]; simpl; [done |].
  by rewrite sorted_insert_filter, !filter_cons, IH.
Qed.

Lemma filter_sublist_mono (P : A -> Prop) `{!forall x, Decision (P x)}
    (l1 l2 : list A) :
  l1 `sublist_of` l2 -> filter P l1 `sublist_of` filter P l2.
Proof.
  induction 1 as [| x l1 l2 _ IH | x l1 l2 _ IH]; [done | |].
  - rewrite !filter_cons. case_decide; [by constructor | done].
  - rewrite filter_cons. case_decide; [by constructor | done].
Qed.

(** Stability, pairwise: two elements of one key that follow each other
    in the input follow each other in the output. *)
Lemma sorted_stable_pair (x y : A) (l : list A) :
  key x = key y -> [x; y] `sublist_of` l -> [x; y] `sublist_of` sorted key l.
Proof.
  intros Hxy Hsub.
  apply (filter_sublist_mono (fun z => key z = key x)) in Hsub.
  rewrite !filter_cons, filter_nil in Hsub.
  rewrite !decide_True in Hsub by done.
  rewrite <- (sorted_stable (key x) l) in Hsub.
  etrans; [exact Hsub | apply sublist_filter].
Qed.

(** The documented contract fixes the result: any stable ascending
    rearrangement of [l] is [sorted key l]. *)
Lemma stable_ascending_unique (l l' : list A) :
  StronglySorted (key_le key) l' ->
  (forall k, filter (fun y => key y = k) l' = filter (fun y => key y = k) l) ->
  l' = sorted key l.
Proof.
  intros Hasc Hst.
  assert (Hgen : forall l1 l2 : list A,
    StronglySorted (key_le key) l1 -> StronglySorted (key_le key) l2 ->
    (forall k, filter (fun y => key y = k) l1 = filter (fun y => key y = k) l2) ->
    l1 = l2).
  { clear. induction l1 as [| a l1 IH]; intros l2 H1 H2 Hf.
    - destruct l2 as [| b l2]; [done |].
      specialize (Hf (key b)). rewrite filter_nil, filter_cons in Hf.
      by rewrite decide_True in Hf.
    - destruct l2 as [| b l2].
      { specialize (Hf (key a)). rewrite filter_nil, filter_cons in Hf.
        by rewrite decide_True in Hf. }
      apply StronglySorted_inv in H1 as [H1 Ha].
      apply StronglySorted_inv in H2 as [H2 Hb].
      rewrite Forall_forall in Ha, Hb.
      assert (Hka : key b <= key a).
      { pose proof (Hf (key a)) as Hfa. rewrite filter_cons in Hfa.
        rewrite decide_True in Hfa by done.
        assert (Hin : a ∈ filter (fun y => key y = key a) (b :: l2))
          by (rewrite <- Hfa; left).
        apply list_elem_of_filter in Hin as [_ Hin].
        apply elem_of_cons in Hin as [-> | Hin]; [lia | by apply Hb]. }
      assert (Hkb : key a <= key b).
      { pose proof (Hf (key b)) as Hfb. rewrite (filter_cons _ b) in Hfb.
        rewrite decide_True in Hfb by done.
        assert (Hin : b ∈ filter (fun y => key y = key b) (a :: l1))
          by (rewrite Hfb; left).
        apply list_elem_of_filter in Hin as [_ Hin].
        apply elem_of_cons in Hin as [-> | Hin]; [lia | by apply Ha]. }
      assert (a = b) as ->.
      { pose proof (Hf (key a)) as Hfa. rewrite !filter_cons in Hfa.
        rewrite !decide_True in Hfa by lia. by simplify_eq. }
      f_equal. apply IH; [done | done |].
      intros k. specialize (Hf k). rewrite !filter_cons in Hf.
      case_decide; by simplify_eq. }
  apply Hgen; [done | apply sorted_ascending |].
  intros k. by rewrite Hst, sorted_stable.
Qed.
End SortedFacts.

(** ** Record loader: the three sorts *)

Lemma sorted_stable_ascending {A} `{HasOrder A} (l : list A) :
  stable_ascending l (sorted order_key l).
Proof.
  split; [apply sorted_perm |].
  split; [apply sorted_ascending |].
  split; [intros k; apply sorted_stable |].
  intros x y. apply sorted_stable_pair.
Qed.


Example sorted_comments_example :
  get_comments_for_line_item
    (item_of "Roof" None None
       [comment_of "late" (Some 2); comment_of "first" (Some 1);
        comment_of "unordered" None; comment_of "second" (Some 1)]) =
  [comment_of "unordered" None; comment_of "first" (Some 1);
   comment_of "second" (Some 1); comment_of "late" (Some 2)].
Proof. reflexivity. Qed.


Lemma sorted_missing_order_first {A} `{HasOrder A} (l : list A) :
  missing_order_first l (sorted order_key l).
Proof.
  split; [| split; [| split]].
  - intros x Hx. unfold order_key. by rewrite Hx.
  - intros x. by rewrite sorted_elem_of.
  - intros i j x y k Hi Hj Hx Hy Hk.
    destruct (decide (i < j)%nat) as [| Hge]; [done |].
    pose proof (ascending_lookup order_key _ j i y x
                  (sorted_ascending order_key l) Hj Hi ltac:(lia)) as Hle.
    unfold order_key in Hle. rewrite Hx, Hy in Hle. simpl in Hle. lia.
  - apply sorted_stable.
Qed.

(** C10: in each of the three sorts an entity whose order key is missing
    sorts with key 0: it is kept, placed before every sibling of positive
    order, and stably among the siblings of key 0. *)
Theorem missing_order_sorts_as_zero :
  (forall inspection : Inspection,
     missing_order_first (default [] (inspection_sections inspection))
                         (get_sections inspection)) /\
  (forall section : SectionT,
     missing_order_first (default [] (section_lineItems section))
                         (get_line_items_for_section section)) /\
  (forall line_item : LineItem,
     missing_order_first (default [] (item_comments line_item))
                         (get_comments_for_line_item line_item)).
Proof.
  split; [| split]; intros; apply sorted_missing_order_first.
Qed.

Lemma missing_order_sorts_as_zero_witness :
  get_comments_for_line_item
    (item_of "Roof" None None
       [comment_of "late" (Some 2); comment_of "unordered" None]) !! 0%nat =
    Some (comment_of "unordered" None) /\
  get_comments_for_line_item
    (item_of "Roof" None None
       [comment_of "late" (Some 2); comment_of "unordered" None]) !! 1%nat =
    Some (comment_of "late" (Some 2)) /\
  (0 < 1)%nat.
Proof.
  split; [reflexivity |]. split; [reflexivity |].
  destruct missing_order_sorts_as_zero as (_ & _ & H).
  destruct (H (item_of "Roof" None None
         [comment_of "late" (Some 2); comment_of "unordered" None]))
    as (_ & _ & Hbefore & _).
  apply (Hbefore 0%nat 1%nat (comment_of "unordered" None)
                 (comment_of "late" (Some 2)) 2);
    [reflexivity | reflexivity | reflexivity | reflexivity | lia].
Defined.

(** ** Record loader: field lookup and timestamps *)

Section FieldValue.
Variable py_str : json -> string.

Lemma get_field_value_path (obj : json) (path : list string)
    (default : string) :
  get_field_value py_str obj path default =
  Return match path_value obj path with
         | Some v => if negb (is_None v) && ne_empty_str v
                     then py_str v else default
         | None => default
         end.
Proof.
  revert obj. induction path as [| key path IH]; intros obj; [done |].
  destruct obj as [| | | | | | m]; try done. simpl.
  destruct (m !! key) as [v |] eqn:Hv; simpl; [| done].
  destruct (is_None v) eqn:Hnone; [| apply IH].
  destruct v; try done. by destruct path.
Qed.

Lemma get_field_value_returns (obj : json) (path : list string)
    (default : string) :
  returns (get_field_value py_str obj path default).
Proof. rewrite get_field_value_path. by eexists. Qed.
End FieldValue.

Lemma day_of_era_bounds (doe : Z) :
  0 <= doe <= 146096 ->
  let yoe := (doe - doe / 1460 + doe / 36524 - doe / 146096) / 365 in
  let doy := doe - (365 * yoe + yoe / 4 - yoe / 100) in
  0 <= yoe <= 399 /\ 0 <= doy <= 365.
Proof. intros Hdoe yoe doy. subst doy yoe. Z.div_mod_to_equations. lia. Qed.

Lemma day_of_year_bounds (doy : Z) :
  0 <= doy <= 365 ->
  let mp := (5 * doy + 2) / 153 in
  0 <= mp <= 11 /\ 1 <= doy - (153 * mp + 2) / 5 + 1 <= 31.
Proof. intros Hdoy mp. subst mp. Z.div_mod_to_equations. lia. Qed.

Lemma civil_from_days_bounds (days : Z) :
  1 <= month (civil_from_days days) <= 12 /\
  1 <= day (civil_from_days days) <= 31.
Proof.
  unfold civil_from_days. cbv zeta. cbn [month day].
  set (z := days + 719468).
  set (doe := z - z / 146097 * 146097).
  assert (Hdoe : 0 <= doe <= 146096).
  { subst doe. pose proof (Z.div_mod z 146097 ltac:(lia)).
    pose proof (Z.mod_pos_bound z 146097 ltac:(lia)). lia. }
  destruct (day_of_era_bounds doe Hdoe) as [_ Hdoy]. cbv zeta in Hdoy.
  set (doy := doe - _) in *.
  destruct (day_of_year_bounds doy Hdoy) as [Hmp Hd]. cbv zeta in Hmp, Hd.
  set (mp := (5 * doy + 2) / 153) in *.
  split; [| exact Hd].
  destruct (Z.ltb_spec mp 10); lia.
Qed.

Lemma fromtimestamp_valid (utcoffset : Z -> Z) (x : Q) (dt : datetime) :
  fromtimestamp utcoffset x = Return dt -> valid_date dt.
Proof.
  unfold fromtimestamp.
  destruct (_ || _); [done |].
  set (d := civil_from_days _).
  destruct (Z.ltb_spec (year d) 1); [done |].
  destruct (Z.ltb_spec 9999 (year d)); [done |].
  simpl. intros [= <-].
  split; [lia | apply civil_from_days_bounds].
Qed.

Lemma digit_is_digit (n : Z) (k : nat) : is_digit (digit n k) = true.
Proof.
  unfold is_digit, digit.
  pose proof (Z.mod_pos_bound (n / 10 ^ Z.of_nat k) 10 ltac:(lia)) as Hr.
  rewrite nat_ascii_embedding by lia.
  apply andb_true_intro. split; apply Nat.leb_le; lia.
Qed.

Lemma strftime_mdY_shape (dt : datetime) : mm_dd_yyyy (strftime_mdY dt) = true.
Proof.
  unfold strftime_mdY, mm_dd_yyyy. by rewrite !digit_is_digit.
Qed.

(** The text reads back as the date. *)
Lemma strftime_mdY_reads_back (dt : datetime) :
  valid_date dt ->
  digits_value (substring 0 2 (strftime_mdY dt)) = month dt /\
  digits_value (substring 3 2 (strftime_mdY dt)) = day dt /\
  digits_value (substring 6 4 (strftime_mdY dt)) = year dt.
Proof.
  intros (Hy & Hm & Hd).
  assert (Hval : forall n k, Z.of_nat (nat_of_ascii (digit n k)) - 48 =
                   (n / 10 ^ Z.of_nat k) mod 10).
  { intros n k. unfold digit.
    pose proof (Z.mod_pos_bound (n / 10 ^ Z.of_nat k) 10 ltac:(lia)).
    rewrite nat_ascii_embedding by lia. lia. }
  unfold strftime_mdY, digits_value.
  cbn [substring list_ascii_of_string foldl].
  rewrite !Hval.
  change (10 ^ Z.of_nat 0) with 1. change (10 ^ Z.of_nat 1) with 10.
  change (10 ^ Z.of_nat 2) with 100. change (10 ^ Z.of_nat 3) with 1000.
  repeat split; Z.div_mod_to_equations; lia.
Qed.

Example format_timestamp_example :
  format_timestamp (fun _ => 0) (Some 1700000000000) = Return "11/14/2023".
Proof. vm_compute. reflexivity. Qed.

Example format_timestamp_leap_day :
  format_timestamp (fun _ => 0) (Some 951782400000) = Return "02/29/2000".
Proof. vm_compute. reflexivity. Qed.

Example format_timestamp_west_of_utc :
  format_timestamp (fun _ => -18000) (Some 1704067200000)
  = Return "12/31/2023".
Proof. vm_compute. reflexivity. Qed.

Example format_timestamp_year_10000 :
  format_timestamp (fun _ => 0) (Some 253402300800000) = Return NOT_FOUND.
Proof. vm_compute. reflexivity. Qed.



(** ** Checkbox groups *)

Lemma slice_length {A} (i : nat) (l : list A) :
  length (slice i (i + 4) l) = Nat.min 4 (length l - i).
Proof.
  unfold slice. rewrite length_take, length_drop.
  by replace (i + 4 - i)%nat with 4%nat by lia.
Qed.

Lemma slice_four {A} (i : nat) (l : list A) :
  slice i (i + 4) l = take 4 (drop i l).
Proof. unfold slice. by replace (i + 4 - i)%nat with 4%nat by lia. Qed.

Lemma div4_lt (m n : nat) : (m < n / 4)%nat <-> (m * 4 + 4 <= n)%nat.
Proof.
  pose proof (Nat.div_mod_eq n 4) as Hn.
  pose proof (Nat.mod_upper_bound n 4 ltac:(lia)) as Hr.
  lia.
Qed.

(** The loop of [get_checkbox_groups] after its first [m] rounds. *)
Lemma group_loop (names : list string) (m : nat) :
  foldl (fun groups i =>
           let group := slice i (i + 4) names in
           if (length group =? 4)%nat then append groups group else groups)
        [] ((fun k => 0 + k * 4)%nat <$> seq 0 m) =
  (fun k => take 4 (drop (k * 4) names)) <$>
    seq 0 (Nat.min m (length names / 4)).
Proof.
  induction m as [| m IH]; [done |].
  rewrite seq_S, fmap_app, foldl_app, IH.
  set (q := (length names / 4)%nat).
  set (done_before := Nat.min m q). set (done_after := Nat.min (S m) q).
  simpl. rewrite slice_length, slice_four.
  destruct (decide (m < q)%nat) as [Hlt | Hge].
  - pose proof (proj1 (div4_lt _ _) Hlt).
    rewrite (proj2 (Nat.eqb_eq _ _)) by lia.
    replace done_after with (S m) by lia.
    replace done_before with m by lia.
    unfold append. by rewrite seq_S, fmap_app.
  - assert (~ (m * 4 + 4 <= length names)%nat) by (by rewrite <- div4_lt).
    rewrite (proj2 (Nat.eqb_neq _ _)) by lia.
    by replace done_after with done_before by lia.
Qed.

Lemma concat_chunks {A} (l : list A) (q : nat) :
  concat ((fun k => take 4 (drop (k * 4) l)) <$> seq 0 q) = take (q * 4) l.
Proof.
  induction q as [| q IH]; [done |].
  rewrite seq_S, fmap_app, concat_app, IH. simpl.
  rewrite app_nil_r, take_take_drop. f_equal. lia.
Qed.

Lemma get_checkbox_groups_chunks (field_info : field_info_t) (page_num : Z) :
  get_checkbox_groups field_info page_num =
  (fun k => take 4 (drop (k * 4) (page_checkbox_names field_info page_num)))
    <$> seq 0 (length (page_checkbox_names field_info page_num) / 4).
Proof.
  unfold get_checkbox_groups, page_checkbox_names.
  destruct (by_page field_info !! page_num) as [fields |]; [| done].
  unfold py_range. rewrite group_loop. f_equal. f_equal.
  set (n := length (name <$> checkboxes fields)).
  replace (n - 0 + (4 - 1))%nat with (n + 3)%nat by lia.
  pose proof (Nat.div_mod_eq n 4). pose proof (Nat.mod_upper_bound n 4 ltac:(lia)).
  pose proof (Nat.div_mod_eq (n + 3) 4).
  pose proof (Nat.mod_upper_bound (n + 3) 4 ltac:(lia)).
  lia.
Qed.

(** *** What [_analyze_fields] records for a page *)

Lemma analyze_page_by_page (page_num : Z) (widgets : page)
    (fields : field_info_t) :
  by_page (analyze_page page_num widgets fields) =
  <[page_num :=
      {| checkboxes :=
           field_of page_num <$> filter (fun w => field_type w = 2) widgets;
         text_fields :=
           field_of page_num <$> filter (fun w => field_type w = 7) widgets |}]>
    (by_page fields).
Proof.
  unfold analyze_page.
  set (step := fun '(fields, page_checkboxes, page_text) w => _).
  assert (Hloop : forall (ws : page) (fs : field_info_t) (cbs txts : list field),
    exists fs' : field_info_t,
      foldl step (fs, cbs, txts) ws =
        (fs',
         cbs ++ (field_of page_num <$> filter (fun w => field_type w = 2) ws),
         txts ++ (field_of page_num <$> filter (fun w => field_type w = 7) ws))
      /\ by_page fs' = by_page fs).
  { induction ws as [| w ws IH]; intros fs cbs txts.
    - exists fs. simpl. by rewrite !app_nil_r.
    - cbn [foldl]. rewrite !filter_cons.
      unfold step at 2. fold (field_of page_num w).
      destruct (Z.eqb_spec (field_type w) 2) as [H2 | H2].
      + destruct (IH {| all_checkboxes :=
                          append (all_checkboxes fs) (field_of page_num w);
                        all_text_fields := all_text_fields fs;
                        by_page := by_page fs |}
                     (append cbs (field_of page_num w)) txts)
          as (fs' & -> & Hby).
        exists fs'. split; [| done].
        rewrite decide_True by done. rewrite decide_False by lia.
        unfold append. by rewrite fmap_cons, <- app_assoc.
      + destruct (Z.eqb_spec (field_type w) 7) as [H7 | H7].
        * destruct (IH {| all_checkboxes := all_checkboxes fs;
                          all_text_fields :=
                            append (all_text_fields fs) (field_of page_num w);
                          by_page := by_page fs |}
                       cbs (append txts (field_of page_num w)))
            as (fs' & -> & Hby).
          exists fs'. split; [| done].
          rewrite decide_False by done. rewrite decide_True by done.
          unfold append. by rewrite fmap_cons, <- app_assoc.
        * destruct (IH fs cbs txts) as (fs' & -> & Hby).
          exists fs'. split; [| done].
          by rewrite !decide_False by done. }
  destruct (Hloop widgets fields [] []) as (fs' & -> & Hby).
  simpl. by rewrite Hby.
Qed.

Lemma enumerate_snoc {A} (l : list A) (x : A) :
  enumerate (l ++ [x]) = enumerate l ++ [(length l, x)].
Proof.
  unfold enumerate. rewrite length_app, seq_app. simpl.
  rewrite zip_with_app by (by rewrite length_seq). done.
Qed.

(** Every page of the template gets its entry, with its checkboxes and
    its text fields in the order [page.widgets()] lists them. *)
Lemma analyze_fields_by_page (doc : document) (i : nat) (widgets : page) :
  doc !! i = Some widgets ->
  by_page (_analyze_fields doc) !! Z.of_nat i =
  Some {| checkboxes :=
            field_of (Z.of_nat i) <$>
              filter (fun w => field_type w = 2) widgets;
          text_fields :=
            field_of (Z.of_nat i) <$>
              filter (fun w => field_type w = 7) widgets |}.
Proof.
  unfold _analyze_fields. revert i widgets.
  induction doc as [| p doc IH] using rev_ind; intros i widgets Hi; [done |].
  rewrite enumerate_snoc, foldl_app. simpl.
  rewrite analyze_page_by_page.
  destruct (decide (i = length doc)) as [-> | Hne].
  - rewrite list_lookup_middle in Hi by done. injection Hi as ->.
    by rewrite lookup_insert_eq.
  - rewrite lookup_insert_ne by lia.
    apply IH. rewrite lookup_app_l in Hi; [done |].
    apply lookup_lt_Some in Hi. rewrite length_app in Hi. simpl in Hi. lia.
Qed.

Lemma page_checkbox_names_template (doc : document) (i : nat)
    (widgets : page) :
  doc !! i = Some widgets ->
  page_checkbox_names (_analyze_fields doc) (Z.of_nat i) =
  field_name <$> filter (fun w => field_type w = 2) widgets.
Proof.
  intros Hi. unfold page_checkbox_names.
  rewrite (analyze_fields_by_page doc i widgets Hi). simpl.
  rewrite <- list_fmap_compose. done.
Qed.

(** C9: a page's checkbox names are cut, in discovery order, into
    consecutive groups of exactly four; a remainder of one to three names
    is dropped. *)
Theorem get_checkbox_groups_by_four (field_info : field_info_t)
    (page_num : Z) :
  let names := page_checkbox_names field_info page_num in
  let groups := get_checkbox_groups field_info page_num in
  length groups = (length names / 4)%nat /\
  Forall (fun group => length group = 4%nat) groups /\
  concat groups = take (length names / 4 * 4) names /\
  (length names - length (concat groups) = length names mod 4)%nat.
Proof.
  intros names groups. subst groups. rewrite get_checkbox_groups_chunks.
  fold names.
  pose proof (Nat.div_mod_eq (length names) 4) as Hn.
  pose proof (Nat.mod_upper_bound (length names) 4 ltac:(lia)) as Hr.
  split; [by rewrite length_fmap, length_seq |].
  split.
  - rewrite Forall_fmap, Forall_forall. intros k Hk. simpl.
    apply elem_of_seq in Hk. rewrite length_take, length_drop. lia.
  - rewrite concat_chunks. split; [done |].
    rewrite length_take. lia.
Qed.

(** Nine checkboxes on the fourth page: two groups, the last one is
    dropped. *)
Example groups_of_fourth_page :
  get_checkbox_groups (_analyze_fields form_template) 3 =
  [["p4A_I"; "p4A_NI"; "p4A_NP"; "p4A_D"];
   ["p4B_I"; "p4B_NI"; "p4B_NP"; "p4B_D"]].
Proof. vm_compute. reflexivity. Qed.

Example groups_of_unknown_page :
  get_checkbox_groups (_analyze_fields form_template) 6 = [] /\
  get_checkbox_groups (_analyze_fields form_template) (-1) = [].
Proof. split; vm_compute; reflexivity. Qed.

(** ** Filling one checkbox group *)

Lemma STATUS_TO_CHECKBOX_INDEX_unknown (s : string) :
  s ∉ status_codes -> STATUS_TO_CHECKBOX_INDEX !! s = None.
Proof.
  intros (? & ? & ? & ?)%not_status_code. unfold STATUS_TO_CHECKBOX_INDEX.
  by rewrite !lookup_insert_ne, lookup_empty.
Qed.

Section FillCheckbox.
Variable update_raises : widget -> bool.

Lemma check_in_widgets_absent (widgets : page) (checkbox_name : string) :
  Forall (not_named checkbox_name) widgets ->
  check_in_widgets update_raises widgets checkbox_name = None.
Proof.
  induction 1 as [| w widgets Hw _ IH]; [done |]. simpl.
  rewrite bool_decide_eq_false_2 by done. by rewrite IH.
Qed.

Lemma check_in_widgets_first (before after : page) (w : widget)
    (checkbox_name : string) :
  Forall (not_named checkbox_name) before ->
  field_name w = checkbox_name ->
  check_in_widgets update_raises (before ++ w :: after) checkbox_name =
  Some (if update_raises (checked w) then (before ++ w :: after, 0)
        else (before ++ checked w :: after, 1)).
Proof.
  intros Hbefore Hw.
  induction Hbefore as [| u before Hu _ IH]; simpl.
  - rewrite bool_decide_eq_true_2 by done. unfold set_and_update.
    fold (checked w). by destruct (update_raises (checked w)).
  - rewrite bool_decide_eq_false_2 by done. rewrite IH.
    by destruct (update_raises (checked w)).
Qed.

Lemma check_in_pages_absent (doc : document) (checkbox_name : string) :
  Forall (Forall (not_named checkbox_name)) doc ->
  check_in_pages update_raises doc checkbox_name = None.
Proof.
  induction 1 as [| p doc Hp _ IH]; [done |]. simpl.
  by rewrite check_in_widgets_absent, IH.
Qed.

Lemma check_in_pages_first (pages_before pages_after : document)
    (before after : page) (w : widget) (checkbox_name : string) :
  Forall (Forall (not_named checkbox_name)) pages_before ->
  Forall (not_named checkbox_name) before ->
  field_name w = checkbox_name ->
  check_in_pages update_raises
    (pages_before ++ (before ++ w :: after) :: pages_after) checkbox_name =
  Some (if update_raises (checked w)
        then (pages_before ++ (before ++ w :: after) :: pages_after, 0)
        else (pages_before ++ (before ++ checked w :: after) :: pages_after,
              1)).
Proof.
  intros Hpages Hbefore Hw.
  induction Hpages as [| p pages_before Hp _ IH]; simpl.
  - rewrite check_in_widgets_first by done.
    by destruct (update_raises (checked w)).
  - rewrite check_in_widgets_absent by done. rewrite IH.
    by destruct (update_raises (checked w)).
Qed.

(** The dictionary lookup and the list index of
    [fill_checkbox_for_status] never fail: the function is the search
    for the selected name, when the group is long enough. *)
Lemma fill_checkbox_for_status_unfold (doc : document)
    (checkbox_group : list string) (status : option string) :
  fill_checkbox_for_status update_raises doc checkbox_group status =
  Return match checkbox_group !! selected_index status with
         | None => (doc, 0)
         | Some checkbox_name =>
             default (doc, 0)
               (check_in_pages update_raises doc checkbox_name)
         end.
Proof.
  assert (Hidx : forall s : string,
    dict_index STATUS_TO_CHECKBOX_INDEX
      (if str_falsy (Some s) || negb (key_in (Some s) STATUS_TO_CHECKBOX_INDEX)
       then "I" else s) = Return (selected_index (Some s))).
  { intros s. destruct (decide (s ∈ status_codes)) as [Hs | Hs].
    - unfold status_codes in Hs.
      repeat (apply elem_of_cons in Hs as [-> | Hs]; [by vm_compute |]).
      by apply elem_of_nil in Hs.
    - unfold key_in. rewrite STATUS_TO_CHECKBOX_INDEX_unknown by done.
      rewrite bool_decide_eq_false_2 by (by intros [? ?]).
      rewrite orb_true_r.
      destruct (not_status_code s Hs) as (? & ? & ? & ?).
      unfold selected_index.
      rewrite !decide_False by congruence. by vm_compute. }
  unfold fill_checkbox_for_status.
  assert (Hsel : dict_index STATUS_TO_CHECKBOX_INDEX
      (if str_falsy status || negb (key_in status STATUS_TO_CHECKBOX_INDEX)
       then "I" else default "I" status) = Return (selected_index status)).
  { destruct status as [s |]; [apply Hidx | by vm_compute]. }
  rewrite Hsel. simpl.
  destruct (Nat.leb_spec (length checkbox_group) (selected_index status))
    as [Hle | Hlt].
  - by rewrite lookup_ge_None_2.
  - destruct (lookup_lt_is_Some_2 checkbox_group _ Hlt) as [nm Hnm].
    unfold list_index. rewrite Hnm. simpl.
    by destruct (check_in_pages update_raises doc nm) as [[? ?] |].
Qed.
End FillCheckbox.


(** A group of four and status D: the fourth field alone is marked. *)
Example fill_fourth_of_four :
  fill_checkbox_for_status (fun _ => false) one_group_doc
    ["cb_I"; "cb_NI"; "cb_NP"; "cb_D"] (Some "D") =
  Return ([[checkbox "cb_I"; checkbox "cb_NI"; checkbox "cb_NP";
            checked (checkbox "cb_D"); text_field "notes"]], 1).
Proof. reflexivity. Qed.

(** A group of two and a status that needs the third field. *)
Example fill_short_group :
  fill_checkbox_for_status (fun _ => false) one_group_doc
    ["cb_I"; "cb_NI"] (Some "NP") = Return (one_group_doc, 0).
Proof. reflexivity. Qed.

Example fill_unknown_status_marks_first :
  fill_checkbox_for_status (fun _ => false) one_group_doc
    ["cb_I"; "cb_NI"; "cb_NP"; "cb_D"] (Some "pending") =
  Return ([[checked (checkbox "cb_I"); checkbox "cb_NI"; checkbox "cb_NP";
            checkbox "cb_D"; text_field "notes"]], 1).
Proof. reflexivity. Qed.



(** ** Media collector and summary aggregator *)

Lemma foldl_append_fmap {X Y} (f : X -> Y) (l : list X) (acc : list Y) :
  foldl (fun acc x => append acc (f x)) acc l = acc ++ (f <$> l).
Proof.
  revert acc. induction l as [| x l IH]; intros acc; simpl.
  - by rewrite app_nil_r.
  - rewrite IH. unfold append. by rewrite <- app_assoc.
Qed.

(** A loop that extends two accumulators by what each element yields. *)
Lemma foldl_pair_bind {X Y} (f g : X -> list Y)
    (step : list Y * list Y -> X -> list Y * list Y) (l : list X)
    (acc : list Y * list Y) :
  (forall acc x, step acc x = (fst acc ++ f x, snd acc ++ g x)) ->
  foldl step acc l = (fst acc ++ (l ≫= f), snd acc ++ (l ≫= g)).
Proof.
  intros Hstep. revert acc. induction l as [| x l IH]; intros acc; simpl.
  - rewrite !app_nil_r. by destruct acc.
  - rewrite IH, Hstep. simpl. by rewrite <- !app_assoc.
Qed.

Lemma flat_media_nested (select : Comment -> list media)
    (inspection : Inspection) :
  flat_media select inspection =
  get_sections inspection ≫= fun section =>
  get_line_items_for_section section ≫= fun line_item =>
  get_comments_for_line_item line_item ≫= fun comment =>
  with_context section line_item comment <$> select comment.
Proof.
  unfold flat_media, comments_in_order.
  induction (get_sections inspection) as [| section sections IHs]; [done |].
  rewrite !bind_cons, bind_app, IHs. f_equal.
  induction (get_line_items_for_section section) as [| item items IHi];
    [done |].
  rewrite !bind_cons, bind_app, IHi. f_equal.
  induction (get_comments_for_line_item item) as [| comment comments IHc];
    [done |].
  rewrite !bind_cons, bind_app, IHc. f_equal. simpl. by rewrite app_nil_r.
Qed.

(** The four loops of [get_all_media] yield the two flattened lists. *)
Lemma get_all_media_flat (inspection : Inspection) :
  get_all_media inspection =
  (flat_media get_photos_for_comment inspection,
   flat_media get_videos_for_comment inspection).
Proof.
  rewrite !flat_media_nested. unfold get_all_media.
  erewrite foldl_pair_bind; [done |].
  intros acc section. simpl.
  erewrite foldl_pair_bind; [done |].
  intros acc1 line_item. simpl.
  erewrite foldl_pair_bind; [done |].
  intros acc2 comment. simpl.
  by rewrite !foldl_append_fmap.
Qed.

Lemma sum_with_ext {X} (count count' : X -> Z) (l : list X) :
  (forall x, count x = count' x) -> sum_with count l = sum_with count' l.
Proof. intros Heq. induction l as [| x l IH]; simpl; [done |]. by rewrite Heq, IH. Qed.

Lemma length_bind_sum {X Y} (f : X -> list Y) (l : list X) :
  Z.of_nat (length (l ≫= f)) = sum_with (fun x => Z.of_nat (length (f x))) l.
Proof.
  induction l as [| x l IH]; [done |].
  rewrite bind_cons, length_app. simpl. lia.
Qed.

Lemma add_item_lookup_eq (k : string) (n : Z) (d : gmap string Z) :
  add_item k n d !! k = (fun v => v + n) <$> d !! k.
Proof. unfold add_item. by rewrite lookup_alter_eq. Qed.

Lemma add_item_lookup_ne (k k' : string) (n : Z) (d : gmap string Z) :
  k <> k' -> add_item k n d !! k' = d !! k'.
Proof. intros Hne. unfold add_item. by rewrite lookup_alter_ne. Qed.

Lemma count_status_lookup_media (status : option string) (k : string)
    (stats : gmap string Z) :
  k = "total_photos" \/ k = "total_videos" ->
  count_status status stats !! k = stats !! k.
Proof.
  intros Hk. unfold count_status.
  repeat case_bool_decide; try done;
    apply add_item_lookup_ne; destruct Hk as [-> | ->]; discriminate.
Qed.

(** A loop that adds a count to one entry of a dictionary. *)
Lemma foldl_lookup_add {X} (k : string) (count : X -> Z)
    (step : gmap string Z -> X -> gmap string Z) (l : list X)
    (stats : gmap string Z) :
  (forall stats x, step stats x !! k = (fun v => v + count x) <$> stats !! k) ->
  foldl step stats l !! k = (fun v => v + sum_with count l) <$> stats !! k.
Proof.
  intros Hstep. revert stats. induction l as [| x l IH]; intros stats; simpl.
  - destruct (stats !! k); simpl; [f_equal; lia | done].
  - rewrite IH, Hstep. destruct (stats !! k); simpl; [f_equal; lia | done].
Qed.

(** The entry of [get_summary_stats] that counts the records of one
    kind. *)
Lemma get_summary_stats_media (k : string) (select : Comment -> list media)
    (inspection : Inspection) :
  (k = "total_photos" /\ select = get_photos_for_comment) \/
  (k = "total_videos" /\ select = get_videos_for_comment) ->
  get_summary_stats inspection !! k =
  Some (Z.of_nat (length (flat_media select inspection))).
Proof.
  intros Hk.
  set (in_comment := fun comment : Comment => Z.of_nat (length (select comment))).
  set (in_item := fun line_item : LineItem =>
         sum_with in_comment (get_comments_for_line_item line_item)).
  set (in_section := fun section : SectionT =>
         sum_with in_item (get_line_items_for_section section)).
  assert (Hne : k <> "total_line_items" /\ k <> "total_sections").
  { destruct Hk as [[-> _] | [-> _]]; split; discriminate. }
  assert (Hmedia : k = "total_photos" \/ k = "total_videos") by tauto.
  transitivity (Some (sum_with in_section (get_sections inspection))).
  - unfold get_summary_stats.
    rewrite (foldl_lookup_add k in_section).
    + destruct Hk as [[-> _] | [-> _]];
        repeat (rewrite lookup_insert_ne by discriminate);
        rewrite lookup_insert_eq; simpl; f_equal; lia.
    + intros stats section. simpl.
      rewrite (foldl_lookup_add k in_item).
      { rewrite add_item_lookup_ne; [done |]. by destruct Hne. }
      intros stats1 line_item. simpl.
      rewrite (foldl_lookup_add k in_comment).
      { by rewrite count_status_lookup_media. }
      intros stats2 comment. unfold in_comment.
      destruct Hk as [[-> ->] | [-> ->]].
      * rewrite add_item_lookup_ne by discriminate. apply add_item_lookup_eq.
      * rewrite add_item_lookup_eq.
        by rewrite add_item_lookup_ne by discriminate.
  - f_equal. rewrite flat_media_nested, length_bind_sum.
    apply sum_with_ext. intros section. rewrite length_bind_sum.
    apply sum_with_ext. intros line_item. rewrite length_bind_sum.
    apply sum_with_ext. intros comment. by rewrite length_fmap.
Qed.

Example three_sections_summary :
  get_summary_stats three_sections =
  <["total_sections" := 3]> (<["total_line_items" := 6]>
  (<["inspected" := 4]> (<["not_inspected" := 0]> (<["not_present" := 0]>
  (<["deficient" := 1]> (<["total_photos" := 1]>
  (<["total_videos" := 0]> ∅))))))).
Proof. vm_compute. reflexivity. Qed.

Example three_sections_media :
  get_all_media three_sections =
  ([<["comment_text" := JStr "Active leak under the sink"]>
      (<["line_item_name" := JStr "Sinks"]>
      (<["section_name" := JStr "Plumbing"]> leak_photo))], []).
Proof. vm_compute. reflexivity. Qed.

(** C6: the photos the media collector returns are as many as
    [total_photos] of the summary, and its videos as many as
    [total_videos]. *)
Theorem media_counts_agree (inspection : Inspection) :
  get_summary_stats inspection !! "total_photos" =
    Some (Z.of_nat (length (fst (get_all_media inspection)))) /\
  get_summary_stats inspection !! "total_videos" =
    Some (Z.of_nat (length (snd (get_all_media inspection)))).
Proof.
  rewrite get_all_media_flat. simpl.
  split; apply get_summary_stats_media; auto.
Qed.

Lemma str_slice_to_length (n : nat) (s : string) :
  (String.length (str_slice_to n s) <= n)%nat.
Proof.
  unfold str_slice_to. revert s.
  induction n as [| n IH]; intros [| c s]; simpl; try lia.
  specialize (IH s). lia.
Qed.

Lemma str_slice_to_prefix (n : nat) (s : string) :
  exists rest : string, s = String.append (str_slice_to n s) rest.
Proof.
  unfold str_slice_to. revert s.
  induction n as [| n IH]; intros [| c s]; simpl.
  - by exists "".
  - by exists (String c s).
  - by exists "".
  - destruct (IH s) as [rest Hrest]. exists rest.
    change (String c s = String c (String.append (substring 0 n s) rest)).
    by f_equal.
Qed.

Lemma str_slice_to_full (n : nat) (s rest : string) :
  s = String.append (str_slice_to n s) rest -> rest <> "" ->
  String.length (str_slice_to n s) = n.
Proof.
  unfold str_slice_to. revert s.
  induction n as [| n IH]; intros [| c s]; simpl; intros Hs Hrest; try done.
  f_equal. apply IH; [| done].
    change (String c s = String c (String.append (substring 0 n s) rest))
      in Hs.
    congruence.
Qed.

Lemma with_context_carries (section : SectionT) (line_item : LineItem)
    (comment : Comment) (record : media) :
  carries_context section line_item comment record
    (with_context section line_item comment record).
Proof.
  unfold with_context. split; [| split; [| split]].
  - by rewrite !lookup_insert_ne, lookup_insert_eq by discriminate.
  - by rewrite lookup_insert_ne, lookup_insert_eq by discriminate.
  - destruct (str_slice_to_prefix 100 (default "" (comment_text comment)))
      as [rest Hrest].
    exists (str_slice_to 100 (default "" (comment_text comment))), rest.
    split; [by rewrite lookup_insert_eq |].
    split; [apply str_slice_to_length |].
    split; [done |].
    by apply str_slice_to_full.
  - intros k ? ? ?. by rewrite !lookup_insert_ne.
Qed.

Lemma flat_media_owned (select : Comment -> list media)
    (inspection : Inspection) (entry : media) :
  entry ∈ flat_media select inspection -> owned_in inspection select entry.
Proof.
  rewrite flat_media_nested.
  intros (section & Hentry & Hs)%list_elem_of_bind.
  apply list_elem_of_bind in Hentry as (line_item & Hentry & Hi).
  apply list_elem_of_bind in Hentry as (comment & Hentry & Hc).
  apply list_elem_of_fmap in Hentry as (record & -> & Hr).
  exists section, line_item, comment, record.
  unfold get_sections in Hs. unfold get_line_items_for_section in Hi.
  unfold get_comments_for_line_item in Hc.
  apply sorted_elem_of in Hs. apply sorted_elem_of in Hi.
  apply sorted_elem_of in Hc.
  repeat (split; [done |]). apply with_context_carries.
Qed.

(** C8: the collector's output is the flattening of the tree in the
    three-level sort order, so it is a function of the tree alone; each
    entry copies a photo or video record of the tree and carries the
    owning section's name, the owning line item's name and the owning
    comment's text cut to at most 100 characters. *)
Theorem get_all_media_entries (inspection : Inspection) :
  get_all_media inspection =
    (flat_media get_photos_for_comment inspection,
     flat_media get_videos_for_comment inspection) /\
  Forall (owned_in inspection get_photos_for_comment)
         (fst (get_all_media inspection)) /\
  Forall (owned_in inspection get_videos_for_comment)
         (snd (get_all_media inspection)).
Proof.
  rewrite get_all_media_flat. simpl.
  split; [done |].
  split; apply Forall_forall; intros entry; apply flat_media_owned.
Qed.

Lemma get_all_media_entries_witness :
  owned_in three_sections get_photos_for_comment
    (<["comment_text" := JStr "Active leak under the sink"]>
       (<["line_item_name" := JStr "Sinks"]>
       (<["section_name" := JStr "Plumbing"]> leak_photo))).
Proof.
  destruct (get_all_media_entries three_sections) as (_ & Hphotos & _).
  apply (proj1 (Forall_forall _ _) Hphotos).
  rewrite three_sections_media. left.
Defined.

(** ** Form field paginator *)

Lemma collect_line_items_flat (inspection : Inspection) :
  collect_line_items inspection = flattened_line_items inspection.
Proof.
  unfold collect_line_items, flattened_line_items.
  assert (Hgen : forall (sections : list SectionT) (acc : list form_item),
    foldl (fun all_line_items section =>
             foldl (fun all_line_items item =>
                      append all_line_items (make_entry section item))
                   all_line_items (get_line_items_for_section section))
          acc sections =
    acc ++ (sections ≫= fun section =>
              make_entry section <$> get_line_items_for_section section)).
  { induction sections as [| section sections IH]; intros acc; simpl.
    - by rewrite app_nil_r.
    - rewrite IH, foldl_append_fmap. by rewrite <- app_assoc. }
  apply Hgen.
Qed.

Lemma slice_lookup {A} (i j k : nat) (l : list A) (x : A) :
  slice i j l !! k = Some x <-> (i + k < j)%nat /\ l !! (i + k)%nat = Some x.
Proof.
  unfold slice. rewrite lookup_take_Some, lookup_drop.
  split; intros [? ?]; split; try done; lia.
Qed.

Section Paginator.
Variable field_info : field_info_t.
Variable update_raises : widget -> bool.

Lemma fill_groups_slots (groups : list (list string))
    (line_items : list form_item) (start_idx k : nat) (doc : document)
    (text_fields : list string) (checkboxes_filled items_processed : Z) :
  fill_groups update_raises doc (zip (seq k (length groups)) groups)
    line_items start_idx text_fields checkboxes_filled items_processed =
  fill_slots update_raises doc
    (zip (seq k (length (zip groups (drop (start_idx + k) line_items))))
         (zip groups (drop (start_idx + k) line_items)))
    text_fields checkboxes_filled items_processed.
Proof.
  revert k doc checkboxes_filled items_processed.
  induction groups as [| group groups IH];
    intros k doc checkboxes_filled items_processed; [done |].
  cbn [length seq zip zip_with fill_groups].
  destruct (Nat.leb_spec (length line_items) (start_idx + k)) as [Hle | Hlt].
  - by rewrite drop_ge.
  - destruct (lookup_lt_is_Some_2 line_items _ Hlt) as [line_item Hitem].
    rewrite (drop_S _ _ _ Hitem).
    cbn [length seq zip zip_with fill_slots].
    unfold list_index. rewrite Hitem.
    change (Return line_item ≫= ?f) with (f line_item). cbv beta.
    destruct (fill_checkbox_for_status update_raises doc group
                (entry_inspectionStatus line_item)) as [[doc1 filled] | e];
      [| done].
    change (Return (doc1, filled) ≫= ?f) with (f (doc1, filled)). cbv beta iota.
    destruct (fill_slot_text update_raises doc1 text_fields k line_item)
      as [doc2 | e]; [| done].
    change (Return doc2 ≫= ?f) with (f doc2). cbv beta.
    rewrite IH. by replace (start_idx + S k)%nat with (S (start_idx + k)) by lia.
Qed.

(** A page's call fills its slots: group [i] with item [i]. *)
Lemma fill_line_items_on_page_slots (doc : document) (page_num : Z)
    (line_items : list form_item) :
  fill_line_items_on_page field_info update_raises doc page_num line_items 0 =
  fill_slots update_raises doc
    (page_slots (get_checkbox_groups field_info page_num) line_items)
    (get_text_fields_for_page field_info page_num) 0 0.
Proof.
  unfold fill_line_items_on_page, page_slots, enumerate.
  by rewrite fill_groups_slots.
Qed.

Lemma fill_pages_ranges (doc : document) (mappings : list (Z * (nat * nat)))
    (all_line_items : list form_item)
    (total_checkboxes_filled total_items_processed : Z) :
  fill_pages field_info update_raises doc mappings all_line_items
             total_checkboxes_filled total_items_processed =
  fill_ranges field_info update_raises doc mappings all_line_items
              total_checkboxes_filled total_items_processed.
Proof.
  revert doc total_checkboxes_filled total_items_processed.
  induction mappings as [| [page_idx [start_idx end_idx]] mappings IH];
    intros doc total_checkboxes_filled total_items_processed; [done |].
  cbn [fill_pages fill_ranges].
  destruct (slice start_idx end_idx all_line_items) as [| item items] eqn:Hs.
  - unfold page_slots. rewrite zip_with_nil_r. simpl.
    rewrite IH. by rewrite !Z.add_0_r.
  - rewrite fill_line_items_on_page_slots.
    destruct (fill_slots _ _ _ _ _ _) as [[doc1 [filled processed]] | e];
      [| done].
    simpl. apply IH.
Qed.

(** The slot [i] of a page holds the page's group [i] and the item at
    offset [i] of the page's range. *)
Lemma page_slots_lookup (groups : list (list string))
    (all_line_items : list form_item) (start_idx end_idx i j : nat)
    (group : list string) (item : form_item) :
  page_slots groups (slice start_idx end_idx all_line_items) !! i =
    Some (j, (group, item)) ->
  j = i /\ groups !! i = Some group /\
  (start_idx + i < end_idx)%nat /\
  all_line_items !! (start_idx + i)%nat = Some item.
Proof.
  unfold page_slots, enumerate. intros Hslot.
  apply lookup_zip_with_Some in Hslot as (j' & [g it] & [= <- <- <-] & Hj & Hz).
  apply lookup_seq in Hj as [-> _].
  apply lookup_zip_with_Some in Hz as (g' & it' & [= <- <-] & Hg & Hit).
  apply slice_lookup in Hit as [? ?]. done.
Qed.
End Paginator.


Example fill_roof_inspection :
  match _fill_inspection_checkboxes (_analyze_fields form_template)
          (fun _ => false) roof_inspection form_template with
  | Return (_, totals) => totals = (14, 14)
  | Raise _ => False
  end.
Proof. vm_compute. reflexivity. Qed.


(** * Further properties *)

(** ** Writing one checkbox *)

Section CheckboxWrites.
Variable update_raises : widget -> bool.

Lemma check_in_widgets_result (widgets widgets' : page)
    (checkbox_name : string) (n : Z) :
  check_in_widgets update_raises widgets checkbox_name = Some (widgets', n) ->
  widget_shape <$> widgets' = widget_shape <$> widgets /\
  (n = 0 \/ n = 1) /\ (n = 0 -> widgets' = widgets).
Proof.
  revert widgets' n. induction widgets as [| w widgets IH];
    intros widgets' n; [done |]. simpl.
  case_bool_decide as Hname.
  - unfold set_and_update. destruct (update_raises _); intros [= <- <-].
    + auto.
    + split; [done |]. split; [auto | done].
  - destruct (check_in_widgets update_raises widgets checkbox_name)
      as [[ws m] |]; [| done].
    simpl. intros [= <- <-]. destruct (IH ws m eq_refl) as (Hs & Hn & Hz).
    split; [by rewrite !fmap_cons, Hs |]. split; [done |].
    intros Hm. by rewrite Hz.
Qed.

Lemma check_in_pages_result (doc doc' : document) (checkbox_name : string)
    (n : Z) :
  check_in_pages update_raises doc checkbox_name = Some (doc', n) ->
  doc_shape doc' = doc_shape doc /\
  (n = 0 \/ n = 1) /\ (n = 0 -> doc' = doc).
Proof.
  unfold doc_shape. revert doc' n. induction doc as [| p doc IH];
    intros doc' n; [done |]. simpl.
  destruct (check_in_widgets update_raises p checkbox_name)
    as [[p' m] |] eqn:Hp.
  - intros [= <- <-]. destruct (check_in_widgets_result _ _ _ _ Hp)
      as (Hs & Hn & Hz).
    split; [by rewrite !fmap_cons, Hs |]. split; [done |].
    intros Hm. by rewrite Hz.
  - destruct (check_in_pages update_raises doc checkbox_name)
      as [[d m] |]; [| done].
    simpl. intros [= <- <-]. destruct (IH d m eq_refl) as (Hs & Hn & Hz).
    split; [by rewrite !fmap_cons, Hs |]. split; [done |].
    intros Hm. by rewrite Hz.
Qed.

Lemma check_in_widgets_again (widgets widgets' : page)
    (checkbox_name : string) (n : Z) :
  check_in_widgets update_raises widgets checkbox_name = Some (widgets', n) ->
  check_in_widgets update_raises widgets' checkbox_name = Some (widgets', n).
Proof.
  revert widgets' n. induction widgets as [| w widgets IH];
    intros widgets' n; [done |]. simpl.
  case_bool_decide as Hname.
  - unfold set_and_update. destruct (update_raises _) eqn:Hup;
      intros [= <- <-]; simpl.
    + rewrite bool_decide_eq_true_2 by done. unfold set_and_update.
      by rewrite Hup.
    + rewrite bool_decide_eq_true_2 by done. unfold set_and_update.
      simpl. by rewrite Hup.
  - destruct (check_in_widgets update_raises widgets checkbox_name)
      as [[ws m] |]; [| done].
    simpl. intros [= <- <-]. simpl.
    rewrite bool_decide_eq_false_2 by done. by rewrite (IH ws m eq_refl).
Qed.

Lemma check_in_widgets_none_again (widgets : page) (checkbox_name : string) :
  check_in_widgets update_raises widgets checkbox_name = None ->
  Forall (not_named checkbox_name) widgets.
Proof.
  induction widgets as [| w widgets IH]; [by constructor |]. simpl.
  case_bool_decide as Hname.
  - unfold set_and_update. by destruct (update_raises _).
  - destruct (check_in_widgets update_raises widgets checkbox_name)
      as [[ws m] |]; [done |].
    intros _. constructor; [done | by apply IH].
Qed.

Lemma check_in_pages_again (doc doc' : document) (checkbox_name : string)
    (n : Z) :
  check_in_pages update_raises doc checkbox_name = Some (doc', n) ->
  check_in_pages update_raises doc' checkbox_name = Some (doc', n).
Proof.
  revert doc' n. induction doc as [| p doc IH]; intros doc' n; [done |].
  simpl.
  destruct (check_in_widgets update_raises p checkbox_name)
    as [[p' m] |] eqn:Hp.
  - intros [= <- <-]. simpl. by rewrite (check_in_widgets_again _ _ _ _ Hp).
  - destruct (check_in_pages update_raises doc checkbox_name)
      as [[d m] |]; [| done].
    simpl. intros [= <- <-]. simpl. rewrite Hp. by rewrite (IH d m eq_refl).
Qed.
End CheckboxWrites.

Lemma fill_checkbox_result (update_raises : widget -> bool)
    (doc : document) (checkbox_group : list string) (status : option string) :
  exists (doc' : document) (n : Z),
    fill_checkbox_for_status update_raises doc checkbox_group status =
      Return (doc', n) /\
    doc_shape doc' = doc_shape doc /\
    (n = 0 \/ n = 1) /\
    (n = 0 -> doc' = doc).
Proof.
  rewrite fill_checkbox_for_status_unfold.
  destruct (checkbox_group !! selected_index status) as [checkbox_name |].
  - destruct (check_in_pages update_raises doc checkbox_name)
      as [[doc' n] |] eqn:Hc; simpl.
    + exists doc', n. split; [done |]. by eapply check_in_pages_result.
    + exists doc, 0. auto.
  - exists doc, 0. auto.
Qed.

(** X1: [fill_checkbox_for_status] always returns, and returns 0 or 1.
    It never adds, removes, renames or retypes a widget, and when it
    returns 0 the document is exactly as before. *)
Theorem fill_checkbox_keeps_form (update_raises : widget -> bool)
    (doc : document) (checkbox_group : list string) (status : option string) :
  exists (doc' : document) (n : Z),
    fill_checkbox_for_status update_raises doc checkbox_group status =
      Return (doc', n) /\
    doc_shape doc' = doc_shape doc /\
    (n = 0 \/ n = 1) /\
    (n = 0 -> doc' = doc).
Proof. apply fill_checkbox_result. Qed.

Lemma fill_checkbox_keeps_form_witness :
  fill_checkbox_for_status (fun _ => false) one_group_doc
    ["cb_I"; "cb_NI"; "cb_NP"] (Some "D") = Return (one_group_doc, 0).
Proof.
  destruct (fill_checkbox_keeps_form (fun _ => false) one_group_doc
              ["cb_I"; "cb_NI"; "cb_NP"] (Some "D"))
    as (doc' & n & Hfill & _ & _ & Hzero).
  assert (Hn : n = 0).
  { pose proof Hfill as Hrun. vm_compute in Hrun. by injection Hrun. }
  subst n. rewrite Hfill, (Hzero eq_refl). reflexivity.
Defined.

(** X2: [fill_checkbox_for_status] is idempotent: a second call with the
    same group and status on the document the first call left gives that
    document again, and the same number. *)
Theorem fill_checkbox_twice (update_raises : widget -> bool)
    (doc doc' : document) (checkbox_group : list string)
    (status : option string) (n : Z) :
  fill_checkbox_for_status update_raises doc checkbox_group status =
    Return (doc', n) ->
  fill_checkbox_for_status update_raises doc' checkbox_group status =
    Return (doc', n).
Proof.
  rewrite !fill_checkbox_for_status_unfold.
  destruct (checkbox_group !! selected_index status) as [checkbox_name |];
    [| by intros [= <- <-]].
  destruct (check_in_pages update_raises doc checkbox_name)
    as [[d m] |] eqn:Hc; simpl.
  - intros [= <- <-]. by rewrite (check_in_pages_again _ _ _ _ _ Hc).
  - intros [= <- <-]. by rewrite Hc.
Qed.

Lemma fill_checkbox_twice_witness :
  fill_checkbox_for_status (fun _ => false) one_group_doc
    ["cb_I"; "cb_NI"; "cb_NP"; "cb_D"] (Some "NP") =
  Return ([[checkbox "cb_I"; checkbox "cb_NI"; checked (checkbox "cb_NP");
            checkbox "cb_D"; text_field "notes"]], 1) /\
  fill_checkbox_for_status (fun _ => false)
    [[checkbox "cb_I"; checkbox "cb_NI"; checked (checkbox "cb_NP");
      checkbox "cb_D"; text_field "notes"]]
    ["cb_I"; "cb_NI"; "cb_NP"; "cb_D"] (Some "NP") =
  Return ([[checkbox "cb_I"; checkbox "cb_NI"; checked (checkbox "cb_NP");
            checkbox "cb_D"; text_field "notes"]], 1).
Proof.
  split; [reflexivity |].
  apply (fill_checkbox_twice (fun _ => false) one_group_doc).
  reflexivity.
Defined.

(** ** Writing one text field *)

Section TextWrites.
Variable update_raises : widget -> bool.

Lemma text_in_widgets_absent (widgets : page) (text_name value : string) :
  Forall (not_text_named text_name) widgets ->
  text_in_widgets update_raises widgets text_name value = None.
Proof.
  induction 1 as [| w widgets Hw _ IH]; [done |]. simpl.
  destruct (bool_decide (field_name w = text_name) && (field_type w =? 7))
    eqn:Hm.
  - apply andb_prop in Hm as [Hn Ht]. apply bool_decide_eq_true in Hn.
    apply Z.eqb_eq in Ht. by destruct Hw.
  - by rewrite IH.
Qed.

Lemma text_in_widgets_first (before after : page) (w : widget)
    (text_name value : string) :
  Forall (not_text_named text_name) before ->
  field_name w = text_name -> field_type w = 7 ->
  text_in_widgets update_raises (before ++ w :: after) text_name value =
  Some (if update_raises (with_text value w)
        then (before ++ w :: after, false)
        else (before ++ with_text value w :: after, true)).
Proof.
  intros Hbefore Hn Ht.
  induction Hbefore as [| u before Hu _ IH]; simpl.
  - rewrite bool_decide_eq_true_2 by done. rewrite (proj2 (Z.eqb_eq _ _) Ht).
    simpl. unfold set_and_update. fold (with_text value w).
    by destruct (update_raises (with_text value w)).
  - destruct (bool_decide (field_name u = text_name) && (field_type u =? 7))
      eqn:Hm.
    { apply andb_prop in Hm as [Hun Hut]. apply bool_decide_eq_true in Hun.
      apply Z.eqb_eq in Hut. by destruct Hu. }
    rewrite IH. by destruct (update_raises (with_text value w)).
Qed.

Lemma text_in_widgets_result (widgets widgets' : page)
    (text_name value : string) (ok : bool) :
  text_in_widgets update_raises widgets text_name value = Some (widgets', ok) ->
  widget_shape <$> widgets' = widget_shape <$> widgets /\
  filter (fun w => field_type w <> 7) widgets' =
    filter (fun w => field_type w <> 7) widgets /\
  (ok = false -> widgets' = widgets).
Proof.
  revert widgets' ok. induction widgets as [| w widgets IH];
    intros widgets' ok; [done |]. simpl.
  destruct (bool_decide (field_name w = text_name) && (field_type w =? 7))
    eqn:Hm.
  - apply andb_prop in Hm as [_ Ht]. apply Z.eqb_eq in Ht.
    unfold set_and_update. destruct (update_raises _); intros [= <- <-].
    + auto.
    + split; [done |]. split; [| done].
      rewrite !filter_cons. simpl. by rewrite !decide_False by (simpl; lia).
  - destruct (text_in_widgets update_raises widgets text_name value)
      as [[ws b] |]; [| done].
    simpl. intros [= <- <-]. destruct (IH ws b eq_refl) as (Hs & Hf & Hz).
    split; [by rewrite !fmap_cons, Hs |].
    split; [by rewrite !filter_cons, Hf |].
    intros Hb. by rewrite Hz.
Qed.

Lemma text_in_pages_absent (doc : document) (text_name value : string) :
  Forall (Forall (not_text_named text_name)) doc ->
  text_in_pages update_raises doc text_name value = None.
Proof.
  induction 1 as [| p doc Hp _ IH]; [done |]. simpl.
  by rewrite text_in_widgets_absent, IH.
Qed.

Lemma text_in_pages_first (pages_before pages_after : document)
    (before after : page) (w : widget) (text_name value : string) :
  Forall (Forall (not_text_named text_name)) pages_before ->
  Forall (not_text_named text_name) before ->
  field_name w = text_name -> field_type w = 7 ->
  text_in_pages update_raises
    (pages_before ++ (before ++ w :: after) :: pages_after) text_name value =
  Some (if update_raises (with_text value w)
        then (pages_before ++ (before ++ w :: after) :: pages_after, false)
        else (pages_before ++ (before ++ with_text value w :: after)
                :: pages_after, true)).
Proof.
  intros Hpages Hbefore Hn Ht.
  induction Hpages as [| p pages_before Hp _ IH]; simpl.
  - rewrite text_in_widgets_first by done.
    by destruct (update_raises (with_text value w)).
  - rewrite text_in_widgets_absent by done. rewrite IH.
    by destruct (update_raises (with_text value w)).
Qed.

Lemma text_in_pages_result (doc doc' : document) (text_name value : string)
    (ok : bool) :
  text_in_pages update_raises doc text_name value = Some (doc', ok) ->
  doc_shape doc' = doc_shape doc /\
  non_text_widgets doc' = non_text_widgets doc /\
  (ok = false -> doc' = doc).
Proof.
  unfold doc_shape, non_text_widgets. revert doc' ok.
  induction doc as [| p doc IH]; intros doc' ok; [done |]. simpl.
  destruct (text_in_widgets update_raises p text_name value)
    as [[p' b] |] eqn:Hp.
  - intros [= <- <-]. destruct (text_in_widgets_result _ _ _ _ _ Hp)
      as (Hs & Hf & Hz).
    split; [by rewrite !fmap_cons, Hs |].
    split; [by rewrite !fmap_cons, Hf |].
    intros Hb. by rewrite Hz.
  - destruct (text_in_pages update_raises doc text_name value)
      as [[d b] |]; [| done].
    simpl. intros [= <- <-]. destruct (IH d b eq_refl) as (Hs & Hf & Hz).
    split; [by rewrite !fmap_cons, Hs |].
    split; [by rewrite !fmap_cons, Hf |].
    intros Hb. by rewrite Hz.
Qed.

Lemma fill_text_field_result (doc : document) (text_name value : string) :
  doc_shape (fst (fill_text_field update_raises doc text_name value)) =
    doc_shape doc /\
  non_text_widgets (fst (fill_text_field update_raises doc text_name value)) =
    non_text_widgets doc /\
  (snd (fill_text_field update_raises doc text_name value) = false ->
   fst (fill_text_field update_raises doc text_name value) = doc).
Proof.
  unfold fill_text_field.
  destruct (text_in_pages update_raises doc text_name value)
    as [[d b] |] eqn:Ht; simpl; [| done].
  by eapply text_in_pages_result.
Qed.
End TextWrites.



(** ** Filling the slots of a page *)

Section SlotWrites.
Variable update_raises : widget -> bool.

Lemma fill_slot_text_result (doc : document) (text_fields : list string)
    (i : nat) (line_item : form_item) :
  exists doc' : document,
    fill_slot_text update_raises doc text_fields i line_item = Return doc' /\
    doc_shape doc' = doc_shape doc /\
    non_text_widgets doc' = non_text_widgets doc.
Proof.
  unfold fill_slot_text.
  destruct (Nat.ltb_spec i (length text_fields)) as [Hlt | Hge];
    [| by exists doc].
  destruct (lookup_lt_is_Some_2 text_fields i Hlt) as [text_name Hname].
  unfold list_index. rewrite Hname. simpl.
  destruct (entry_comments line_item) as [| c comments]; [by exists doc |].
  destruct (str_falsy (comment_text c)); simpl; [by exists doc |].
  eexists. split; [done |].
  destruct (fill_text_field_result update_raises doc text_name
              (str_slice_to 200 (default "" (comment_text c))))
    as (Hs & Hf & _).
  done.
Qed.

Lemma fill_slots_result (slots : list (nat * (list string * form_item)))
    (doc : document) (text_fields : list string)
    (checkboxes_filled items_processed : Z) :
  exists (doc' : document) (filled : Z),
    fill_slots update_raises doc slots text_fields
               checkboxes_filled items_processed =
      Return (doc', (filled, items_processed + Z.of_nat (length slots))) /\
    checkboxes_filled <= filled <= checkboxes_filled + Z.of_nat (length slots) /\
    doc_shape doc' = doc_shape doc.
Proof.
  revert doc checkboxes_filled items_processed.
  induction slots as [| [i [group item]] slots IH];
    intros doc checkboxes_filled items_processed.
  - exists doc, checkboxes_filled. simpl.
    split; [by rewrite Z.add_0_r |]. split; [lia | done].
  - cbn [fill_slots].
    destruct (fill_checkbox_result update_raises doc group
                (entry_inspectionStatus item)) as (doc1 & n & -> & Hs1 & Hn & _).
    simpl.
    destruct (fill_slot_text_result doc1 text_fields i item)
      as (doc2 & -> & Hs2 & _).
    simpl.
    destruct (IH doc2 (checkboxes_filled + n) (items_processed + 1))
      as (doc' & filled & -> & Hf & Hs).
    exists doc', filled.
    split; [do 3 f_equal; simpl; lia |].
    split; [simpl; lia | by rewrite Hs, Hs2, Hs1].
Qed.
End SlotWrites.

(** X4: [fill_line_items_on_page] always returns.  It processes as many
    items as there are checkbox groups on the page and line items from
    [start_idx] on, whichever is fewer; the checkboxes it reports filled
    are at most the items processed; and it leaves the names and types of
    all widgets as they were. *)
Theorem fill_line_items_on_page_counts (field_info : field_info_t)
    (update_raises : widget -> bool) (doc : document) (page_num : Z)
    (line_items : list form_item) (start_idx : nat) :
  exists (doc' : document) (checkboxes_filled : Z),
    fill_line_items_on_page field_info update_raises doc page_num
                            line_items start_idx =
      Return (doc',
              (checkboxes_filled,
               Z.of_nat (Nat.min
                 (length (get_checkbox_groups field_info page_num))
                 (length line_items - start_idx)))) /\
    0 <= checkboxes_filled <=
      Z.of_nat (Nat.min (length (get_checkbox_groups field_info page_num))
                        (length line_items - start_idx)) /\
    doc_shape doc' = doc_shape doc.
Proof.
  unfold fill_line_items_on_page, enumerate.
  rewrite fill_groups_slots.
  destruct (fill_slots_result update_raises
    (zip (seq 0 (length (zip (get_checkbox_groups field_info page_num)
                             (drop (start_idx + 0) line_items))))
         (zip (get_checkbox_groups field_info page_num)
              (drop (start_idx + 0) line_items)))
    doc (get_text_fields_for_page field_info page_num) 0 0)
    as (doc' & filled & -> & Hf & Hs).
  rewrite length_zip_with, length_seq, length_zip_with, length_drop,
    Nat.add_0_r, Nat.min_id in *.
  exists doc', filled. split; [done |]. split; [lia | done].
Qed.

(** ** The driver over the four pages *)

Lemma slice_length_general {A} (i j : nat) (l : list A) :
  length (slice i j l) = Nat.min (j - i) (length l - i).
Proof. unfold slice. by rewrite length_take, length_drop. Qed.

Lemma slice_take {A} (i j n : nat) (l : list A) :
  (j <= n)%nat -> slice i j (take n l) = slice i j l.
Proof.
  intros Hj. unfold slice.
  destruct (decide (i <= n)%nat) as [Hi | Hi].
  - replace n with (i + (n - i))%nat at 1 by lia.
    rewrite <- take_drop_commute, take_take. f_equal. lia.
  - rewrite !(proj2 (Nat.sub_0_le j i)) by lia. by rewrite !take_0.
Qed.

Section DriverWrites.
Variable field_info : field_info_t.
Variable update_raises : widget -> bool.

Lemma fill_ranges_result (mappings : list (Z * (nat * nat)))
    (all_line_items : list form_item) (doc : document)
    (total_checkboxes_filled total_items_processed : Z) :
  exists (doc' : document) (filled : Z),
    fill_ranges field_info update_raises doc mappings all_line_items
                total_checkboxes_filled total_items_processed =
      Return (doc',
              (filled,
               total_items_processed +
               sum_with (range_capacity field_info all_line_items) mappings))
    /\
    total_checkboxes_filled <= filled <=
      total_checkboxes_filled +
      sum_with (range_capacity field_info all_line_items) mappings /\
    doc_shape doc' = doc_shape doc.
Proof.
  revert doc total_checkboxes_filled total_items_processed.
  induction mappings as [| [page_idx [start_idx end_idx]] mappings IH];
    intros doc total_checkboxes_filled total_items_processed.
  - exists doc, total_checkboxes_filled. simpl.
    split; [by rewrite Z.add_0_r |]. split; [lia | done].
  - cbn [fill_ranges sum_with foldr].
    destruct (fill_slots_result update_raises
      (page_slots (get_checkbox_groups field_info page_idx)
                  (slice start_idx end_idx all_line_items))
      doc (get_text_fields_for_page field_info page_idx) 0 0)
      as (doc1 & filled1 & -> & Hf1 & Hs1).
    simpl.
    destruct (IH doc1 (total_checkboxes_filled + filled1)
                (total_items_processed +
                 (0 + Z.of_nat (length
                    (page_slots (get_checkbox_groups field_info page_idx)
                       (slice start_idx end_idx all_line_items))))))
      as (doc' & filled & -> & Hf & Hs).
    assert (Hlen : Z.of_nat (length
        (page_slots (get_checkbox_groups field_info page_idx)
           (slice start_idx end_idx all_line_items))) =
      range_capacity field_info all_line_items
        (page_idx, (start_idx, end_idx))).
    { unfold page_slots, enumerate, range_capacity. simpl.
      by rewrite length_zip_with, length_seq, Nat.min_id, length_zip_with. }
    exists doc', filled.
    split; [do 3 f_equal; fold (sum_with (range_capacity field_info
              all_line_items) mappings); lia |].
    split; [| by rewrite Hs, Hs1].
    fold (sum_with (range_capacity field_info all_line_items) mappings).
    lia.
Qed.

Lemma fill_pages_take (n : nat) (mappings : list (Z * (nat * nat)))
    (all_line_items : list form_item) (doc : document)
    (total_checkboxes_filled total_items_processed : Z) :
  Forall (fun mapping => (snd (snd mapping) <= n)%nat) mappings ->
  fill_pages field_info update_raises doc mappings (take n all_line_items)
             total_checkboxes_filled total_items_processed =
  fill_pages field_info update_raises doc mappings all_line_items
             total_checkboxes_filled total_items_processed.
Proof.
  intros Hm. revert doc total_checkboxes_filled total_items_processed.
  induction Hm as [| [page_idx [start_idx end_idx]] mappings Hle _ IH];
    intros doc total_checkboxes_filled total_items_processed; [done |].
  cbn [fill_pages]. simpl in Hle. rewrite (slice_take _ _ _ _ Hle).
  destruct (slice start_idx end_idx all_line_items) as [| item items];
    [apply IH |].
  destruct (fill_line_items_on_page _ _ _ _ _ _)
    as [[doc1 [filled processed]] | e]; [| done].
  simpl. apply IH.
Qed.
End DriverWrites.

Lemma placed_count_bound (field_info : field_info_t)
    (all_line_items : list form_item) :
  0 <= placed_count field_info all_line_items <=
    Z.of_nat (Nat.min 41 (length all_line_items)).
Proof.
  unfold placed_count, page_mappings, sum_with, range_capacity.
  cbn [foldr fst snd]. rewrite !slice_length_general.
  generalize (length (get_checkbox_groups field_info 2)),
    (length (get_checkbox_groups field_info 3)),
    (length (get_checkbox_groups field_info 4)),
    (length (get_checkbox_groups field_info 5)).
  intros g2 g3 g4 g5. lia.
Qed.

(** X5: [_fill_inspection_checkboxes] always returns.  The items it
    reports processed are, page by page, as many as the page has checkbox
    groups and its range has items: never more than 41 and never more
    than the report has line items.  The checkboxes it reports filled are
    at most that number, and the names and types of all widgets of the
    form are as before. *)
Theorem fill_inspection_checkboxes_totals (field_info : field_info_t)
    (update_raises : widget -> bool) (inspection : Inspection)
    (doc : document) :
  exists (doc' : document) (total_checkboxes_filled : Z),
    _fill_inspection_checkboxes field_info update_raises inspection doc =
      Return (doc',
              (total_checkboxes_filled,
               placed_count field_info (flattened_line_items inspection))) /\
    0 <= total_checkboxes_filled <=
      placed_count field_info (flattened_line_items inspection) /\
    placed_count field_info (flattened_line_items inspection) <=
      Z.of_nat (Nat.min 41 (length (flattened_line_items inspection))) /\
    doc_shape doc' = doc_shape doc.
Proof.
  unfold _fill_inspection_checkboxes.
  rewrite fill_pages_ranges, collect_line_items_flat.
  destruct (fill_ranges_result field_info update_raises page_mappings
              (flattened_line_items inspection) doc 0 0)
    as (doc' & filled & -> & Hf & Hs).
  exists doc', filled. fold (placed_count field_info
    (flattened_line_items inspection)) in *.
  split; [done |]. split; [lia |].
  split; [apply placed_count_bound | done].
Qed.

(** X6: only the first 41 line items of the flattened order reach the
    form: two reports that agree on them are filled in alike, whatever
    follows. *)
Theorem fill_inspection_checkboxes_first_41 (field_info : field_info_t)
    (update_raises : widget -> bool) (inspection inspection' : Inspection)
    (doc : document) :
  take 41 (flattened_line_items inspection) =
    take 41 (flattened_line_items inspection') ->
  _fill_inspection_checkboxes field_info update_raises inspection doc =
  _fill_inspection_checkboxes field_info update_raises inspection' doc.
Proof.
  intros Htake. unfold _fill_inspection_checkboxes.
  rewrite !collect_line_items_flat.
  assert (Hm : Forall (fun mapping : Z * (nat * nat) =>
                         (snd (snd mapping) <= 41)%nat) page_mappings).
  { unfold page_mappings. repeat constructor; simpl; lia. }
  rewrite <- (fill_pages_take field_info update_raises 41 page_mappings
                (flattened_line_items inspection) doc 0 0 Hm).
  rewrite <- (fill_pages_take field_info update_raises 41 page_mappings
                (flattened_line_items inspection') doc 0 0 Hm).
  by rewrite Htake.
Qed.

Lemma fill_inspection_checkboxes_first_41_witness :
  take 41 (flattened_line_items (long_inspection 42)) =
    take 41 (flattened_line_items (long_inspection 45)) /\
  _fill_inspection_checkboxes (_analyze_fields form_template)
    (fun _ => false) (long_inspection 42) form_template =
  _fill_inspection_checkboxes (_analyze_fields form_template)
    (fun _ => false) (long_inspection 45) form_template.
Proof.
  assert (Htake : take 41 (flattened_line_items (long_inspection 42)) =
                  take 41 (flattened_line_items (long_inspection 45))).
  { vm_compute. reflexivity. }
  split; [exact Htake |].
  apply (fill_inspection_checkboxes_first_41 _ _ _ _ _ Htake).
Defined.

(** ** The fields of the template *)

Lemma analyze_fields_by_page_inv (doc : document) (page_num : Z)
    (fields : page_fields) :
  by_page (_analyze_fields doc) !! page_num = Some fields ->
  exists (i : nat) (widgets : page),
    page_num = Z.of_nat i /\ doc !! i = Some widgets /\
    fields =
      {| checkboxes :=
           field_of (Z.of_nat i) <$>
             filter (fun w => field_type w = 2) widgets;
         text_fields :=
           field_of (Z.of_nat i) <$>
             filter (fun w => field_type w = 7) widgets |}.
Proof.
  unfold _analyze_fields. revert page_num fields.
  induction doc as [| p doc IH] using rev_ind; intros page_num fields.
  - simpl. by rewrite lookup_empty.
  - rewrite enumerate_snoc, foldl_app. simpl.
    rewrite analyze_page_by_page.
    destruct (decide (Z.of_nat (length doc) = page_num)) as [<- | Hne].
    + rewrite lookup_insert_eq. intros [= <-].
      exists (length doc), p. split; [done |].
      split; [by apply list_lookup_middle | done].
    + rewrite lookup_insert_ne by done. intros Hf.
      destruct (IH _ _ Hf) as (i & widgets & -> & Hi & ->).
      exists i, widgets. split; [done |].
      split; [| done]. by apply lookup_app_l_Some.
Qed.

(** X7: [_analyze_fields] gives every page of the template one entry,
    under its index: the page's checkboxes (type 2) and text fields
    (type 7), each list in the order the page lists its widgets and
    other widgets left out.  No other page number has an entry. *)
Theorem analyze_fields_pages (doc : document) (page_num : Z) :
  (forall (i : nat) (widgets : page),
     page_num = Z.of_nat i -> doc !! i = Some widgets ->
     by_page (_analyze_fields doc) !! page_num =
     Some {| checkboxes :=
               field_of page_num <$>
                 filter (fun w => field_type w = 2) widgets;
             text_fields :=
               field_of page_num <$>
                 filter (fun w => field_type w = 7) widgets |}) /\
  (page_num < 0 \/ Z.of_nat (length doc) <= page_num ->
     by_page (_analyze_fields doc) !! page_num = None).
Proof.
  split.
  - intros i widgets -> Hi. by apply analyze_fields_by_page.
  - intros Hout.
    destruct (by_page (_analyze_fields doc) !! page_num) as [fields |] eqn:Hf;
      [| done].
    apply analyze_fields_by_page_inv in Hf as (i & widgets & -> & Hi & _).
    apply lookup_lt_Some in Hi. lia.
Qed.

Lemma analyze_fields_pages_witness :
  by_page (_analyze_fields one_group_doc) !! 0 =
    Some {| checkboxes :=
              field_of 0 <$> [checkbox "cb_I"; checkbox "cb_NI";
                              checkbox "cb_NP"; checkbox "cb_D"];
            text_fields := field_of 0 <$> [text_field "notes"] |} /\
  by_page (_analyze_fields one_group_doc) !! 1 = None.
Proof.
  destruct (analyze_fields_pages one_group_doc 0) as [Hin _].
  destruct (analyze_fields_pages one_group_doc 1) as [_ Hout].
  split.
  - apply (Hin 0%nat
      [checkbox "cb_I"; checkbox "cb_NI"; checkbox "cb_NP"; checkbox "cb_D";
       text_field "notes"]); reflexivity.
  - apply Hout. right. simpl. lia.
Defined.

Lemma analyze_page_lists (page_num : Z) (widgets : page)
    (fields : field_info_t) :
  all_checkboxes (analyze_page page_num widgets fields) =
    all_checkboxes fields ++
    (field_of page_num <$> filter (fun w => field_type w = 2) widgets) /\
  all_text_fields (analyze_page page_num widgets fields) =
    all_text_fields fields ++
    (field_of page_num <$> filter (fun w => field_type w = 7) widgets).
Proof.
  unfold analyze_page.
  set (step := fun '(fields, page_checkboxes, page_text) w => _).
  assert (Hloop : forall (ws : page) (fs : field_info_t) (cbs txts : list field),
    exists (fs' : field_info_t) (cbs' txts' : list field),
      foldl step (fs, cbs, txts) ws = (fs', cbs', txts') /\
      all_checkboxes fs' =
        all_checkboxes fs ++
        (field_of page_num <$> filter (fun w => field_type w = 2) ws) /\
      all_text_fields fs' =
        all_text_fields fs ++
        (field_of page_num <$> filter (fun w => field_type w = 7) ws)).
  { induction ws as [| w ws IH]; intros fs cbs txts.
    - exists fs, cbs, txts. simpl. by rewrite !app_nil_r.
    - cbn [foldl]. rewrite !filter_cons.
      unfold step at 2. fold (field_of page_num w).
      destruct (Z.eqb_spec (field_type w) 2) as [H2 | H2].
      + destruct (IH {| all_checkboxes :=
                          append (all_checkboxes fs) (field_of page_num w);
                        all_text_fields := all_text_fields fs;
                        by_page := by_page fs |}
                     (append cbs (field_of page_num w)) txts)
          as (fs' & cbs' & txts' & -> & Hc & Ht).
        exists fs', cbs', txts'. split; [done |].
        rewrite decide_True by done. rewrite decide_False by lia.
        rewrite Hc, Ht. simpl. unfold append.
        by rewrite <- ?app_assoc.
      + destruct (Z.eqb_spec (field_type w) 7) as [H7 | H7].
        * destruct (IH {| all_checkboxes := all_checkboxes fs;
                          all_text_fields :=
                            append (all_text_fields fs) (field_of page_num w);
                          by_page := by_page fs |}
                       cbs (append txts (field_of page_num w)))
            as (fs' & cbs' & txts' & -> & Hc & Ht).
          exists fs', cbs', txts'. split; [done |].
          rewrite decide_False by done. rewrite decide_True by done.
          rewrite Hc, Ht. simpl. unfold append.
          by rewrite <- ?app_assoc.
        * destruct (IH fs cbs txts) as (fs' & cbs' & txts' & -> & Hc & Ht).
          exists fs', cbs', txts'. split; [done |].
          by rewrite !decide_False by done. }
  destruct (Hloop widgets fields [] []) as (fs' & cbs' & txts' & -> & Hc & Ht).
  done.
Qed.

(** X8: the two global lists of [_analyze_fields] are the per-page lists
    one after the other, in page order: all checkboxes of the template
    and all its text fields, none twice and none left out. *)
Theorem analyze_fields_global_lists (doc : document) :
  all_checkboxes (_analyze_fields doc) = enumerate doc ≫= page_entries 2 /\
  all_text_fields (_analyze_fields doc) = enumerate doc ≫= page_entries 7.
Proof.
  unfold _analyze_fields.
  induction doc as [| p doc [IHc IHt]] using rev_ind; [done |].
  rewrite enumerate_snoc, foldl_app, !bind_app. simpl.
  destruct (analyze_page_lists (Z.of_nat (length doc)) p
    (foldl (fun fields '(page_num, widgets) =>
              analyze_page (Z.of_nat page_num) widgets fields)
           {| all_checkboxes := []; all_text_fields := []; by_page := ∅ |}
           (enumerate doc))) as [Hc Ht].
  rewrite Hc, Ht, IHc, IHt. unfold page_entries. simpl.
  by rewrite !app_nil_r.
Qed.

Lemma get_checkbox_groups_length (field_info : field_info_t)
    (page_num : Z) :
  length (get_checkbox_groups field_info page_num) =
  (length (page_checkbox_names field_info page_num) / 4)%nat.
Proof. by rewrite get_checkbox_groups_chunks, length_fmap, length_seq. Qed.

Lemma get_checkbox_groups_four (field_info : field_info_t) (page_num : Z)
    (group : list string) :
  group ∈ get_checkbox_groups field_info page_num -> length group = 4%nat.
Proof.
  rewrite get_checkbox_groups_chunks.
  intros (k & -> & Hk)%list_elem_of_fmap. apply elem_of_seq in Hk.
  pose proof (Nat.div_mod_eq
    (length (page_checkbox_names field_info page_num)) 4).
  rewrite length_take, length_drop. lia.
Qed.

(** X9: [get_checkbox_count_for_page] counts the checkbox names of the
    page: four for each group [get_checkbox_groups] returns, and the
    fewer than four it drops.  A page the template does not have counts
    0 and has no groups and no text fields. *)
Theorem checkbox_count_and_groups (field_info : field_info_t) (page_num : Z) :
  get_checkbox_count_for_page field_info page_num =
    Z.of_nat (length (page_checkbox_names field_info page_num)) /\
  get_checkbox_count_for_page field_info page_num =
    4 * Z.of_nat (length (get_checkbox_groups field_info page_num)) +
    get_checkbox_count_for_page field_info page_num mod 4 /\
  (by_page field_info !! page_num = None ->
     get_checkbox_count_for_page field_info page_num = 0 /\
     get_checkbox_groups field_info page_num = [] /\
     get_text_fields_for_page field_info page_num = []).
Proof.
  assert (Hcount : get_checkbox_count_for_page field_info page_num =
    Z.of_nat (length (page_checkbox_names field_info page_num))).
  { unfold get_checkbox_count_for_page, page_checkbox_names.
    destruct (by_page field_info !! page_num); [| done].
    by rewrite length_fmap. }
  split; [done |]. split.
  - rewrite Hcount.
    rewrite get_checkbox_groups_length.
    set (n := length (page_checkbox_names field_info page_num)).
    pose proof (Nat.div_mod_eq n 4).
    rewrite Nat2Z.inj_div. pose proof (Z.div_mod (Z.of_nat n) 4 ltac:(lia)).
    change (Z.of_nat 4) with 4. lia.
  - intros Hnone. unfold get_checkbox_count_for_page, get_checkbox_groups,
      get_text_fields_for_page. by rewrite Hnone.
Qed.

Lemma checkbox_count_and_groups_witness :
  by_page (_analyze_fields one_group_doc) !! 5 = None /\
  get_checkbox_count_for_page (_analyze_fields one_group_doc) 5 = 0 /\
  get_checkbox_groups (_analyze_fields one_group_doc) 5 = [].
Proof.
  assert (Hnone : by_page (_analyze_fields one_group_doc) !! 5 = None)
    by reflexivity.
  split; [exact Hnone |].
  destruct (checkbox_count_and_groups (_analyze_fields one_group_doc) 5)
    as (_ & _ & Hpage).
  destruct (Hpage Hnone) as (Hcount & Hgroups & _).
  split; [exact Hcount | exact Hgroups].
Defined.

(** ** Filling a form from its own template *)

Lemma doc_shape_names (doc doc' : document) :
  doc_shape doc' = doc_shape doc -> doc_names doc' = doc_names doc.
Proof.
  unfold doc_shape, doc_names. intros Hs. f_equal.
  assert (Hfst : forall d : document,
    (fun widgets : page => field_name <$> widgets) <$> d =
    (fun shapes : list (string * Z) => fst <$> shapes) <$>
      ((fun widgets : page => widget_shape <$> widgets) <$> d)).
  { intros d. rewrite <- list_fmap_compose. apply list_fmap_ext.
    intros _ widgets _. simpl. by rewrite <- list_fmap_compose. }
  by rewrite !Hfst, Hs.
Qed.

Lemma selected_index_lt (status : option string) :
  (selected_index status < 4)%nat.
Proof. unfold selected_index. repeat case_decide; lia. Qed.

Section OwnTemplate.
Variable update_raises : widget -> bool.
Hypothesis update_succeeds : forall w : widget, update_raises w = false.

Lemma check_in_widgets_one (widgets widgets' : page) (checkbox_name : string)
    (n : Z) :
  check_in_widgets update_raises widgets checkbox_name = Some (widgets', n) ->
  n = 1.
Proof.
  revert widgets' n. induction widgets as [| w widgets IH];
    intros widgets' n; [done |]. simpl.
  case_bool_decide.
  - unfold set_and_update. rewrite update_succeeds. by intros [= <- <-].
  - destruct (check_in_widgets update_raises widgets checkbox_name)
      as [[ws m] |]; [| done].
    simpl. intros [= <- <-]. by apply (IH ws).
Qed.

Lemma check_in_pages_one (doc doc' : document) (checkbox_name : string)
    (n : Z) :
  check_in_pages update_raises doc checkbox_name = Some (doc', n) -> n = 1.
Proof.
  revert doc' n. induction doc as [| p doc IH]; intros doc' n; [done |].
  simpl.
  destruct (check_in_widgets update_raises p checkbox_name)
    as [[p' m] |] eqn:Hp.
  - intros [= <- <-]. by eapply check_in_widgets_one.
  - destruct (check_in_pages update_raises doc checkbox_name)
      as [[d m] |]; [| done].
    simpl. intros [= <- <-]. by apply (IH d).
Qed.

Lemma check_in_pages_named (doc : document) (checkbox_name : string) :
  checkbox_name ∈ doc_names doc ->
  is_Some (check_in_pages update_raises doc checkbox_name).
Proof.
  unfold doc_names. induction doc as [| p doc IH]; simpl.
  - by intros ?%elem_of_nil.
  - intros [Hp | Hd]%elem_of_app.
    + destruct (check_in_widgets update_raises p checkbox_name)
        as [[p' m] |] eqn:Hc; [done |].
      apply check_in_widgets_none_again in Hc.
      apply list_elem_of_fmap in Hp as (w & -> & Hw).
      rewrite Forall_forall in Hc. by destruct (Hc w Hw).
    + destruct (check_in_widgets update_raises p checkbox_name)
        as [[p' m] |]; [done |].
      destruct (IH Hd) as [[d m] ->]. done.
Qed.

(** A group of four whose names the document has is always marked. *)
Lemma fill_checkbox_marks (doc : document) (checkbox_group : list string)
    (status : option string) :
  length checkbox_group = 4%nat ->
  (forall checkbox_name, checkbox_name ∈ checkbox_group ->
     checkbox_name ∈ doc_names doc) ->
  exists doc' : document,
    fill_checkbox_for_status update_raises doc checkbox_group status =
      Return (doc', 1) /\
    doc_shape doc' = doc_shape doc.
Proof.
  intros Hlen Hnames. rewrite fill_checkbox_for_status_unfold.
  pose proof (selected_index_lt status) as Hlt.
  destruct (lookup_lt_is_Some_2 checkbox_group (selected_index status)
              ltac:(lia)) as [checkbox_name Hname].
  rewrite Hname.
  destruct (check_in_pages_named doc checkbox_name) as [[doc' n] Hc].
  { apply Hnames. by eapply list_elem_of_lookup_2. }
  rewrite Hc. simpl. exists doc'.
  rewrite (check_in_pages_one _ _ _ _ Hc).
  split; [done |]. by eapply check_in_pages_result.
Qed.

Lemma fill_slots_marks (names : list string)
    (slots : list (nat * (list string * form_item))) (doc : document)
    (text_fields : list string) (checkboxes_filled items_processed : Z) :
  doc_names doc = names ->
  Forall (fun slot : nat * (list string * form_item) =>
            length (fst (snd slot)) = 4%nat /\
            forall checkbox_name, checkbox_name ∈ fst (snd slot) ->
              checkbox_name ∈ names) slots ->
  exists doc' : document,
    fill_slots update_raises doc slots text_fields
               checkboxes_filled items_processed =
      Return (doc', (checkboxes_filled + Z.of_nat (length slots),
                     items_processed + Z.of_nat (length slots))) /\
    doc_shape doc' = doc_shape doc.
Proof.
  intros Hnames Hslots.
  revert doc Hnames checkboxes_filled items_processed.
  induction Hslots as [| [i [group item]] slots [Hlen Hin] _ IH];
    intros doc Hnames checkboxes_filled items_processed.
  - exists doc. simpl. by rewrite !Z.add_0_r.
  - cbn [fill_slots]. simpl in Hlen, Hin.
    destruct (fill_checkbox_marks doc group (entry_inspectionStatus item) Hlen)
      as (doc1 & -> & Hs1).
    { intros nm Hnm. rewrite Hnames. by apply Hin. }
    simpl.
    destruct (fill_slot_text_result update_raises doc1 text_fields i item)
      as (doc2 & -> & Hs2 & _).
    simpl.
    destruct (IH doc2) with (checkboxes_filled := checkboxes_filled + 1)
      (items_processed := items_processed + 1) as (doc' & -> & Hs).
    { rewrite <- Hnames. apply doc_shape_names. by rewrite Hs2, Hs1. }
    exists doc'. split; [do 3 f_equal; simpl; lia |].
    by rewrite Hs, Hs2, Hs1.
Qed.
End OwnTemplate.

Lemma elem_of_concat_2 {A} (x : A) (l : list A) (ls : list (list A)) :
  x ∈ l -> l ∈ ls -> x ∈ concat ls.
Proof.
  intros Hx Hl. induction Hl as [l ls | l l' ls _ IH]; simpl;
    apply elem_of_app; auto.
Qed.

Lemma template_group_names (template : document) (page_num : Z)
    (group : list string) (checkbox_name : string) :
  group ∈ get_checkbox_groups (_analyze_fields template) page_num ->
  checkbox_name ∈ group -> checkbox_name ∈ doc_names template.
Proof.
  rewrite get_checkbox_groups_chunks.
  intros (k & -> & _)%list_elem_of_fmap Hname.
  apply subseteq_take, subseteq_drop in Hname.
  unfold page_checkbox_names in Hname.
  destruct (by_page (_analyze_fields template) !! page_num)
    as [fields |] eqn:Hf; [| by apply elem_of_nil in Hname].
  apply analyze_fields_by_page_inv in Hf as (i & widgets & -> & Hi & ->).
  simpl in Hname.
  apply list_elem_of_fmap in Hname as (f & -> & Hfield).
  apply list_elem_of_fmap in Hfield as (w & -> & Hw).
  apply list_elem_of_filter in Hw as [_ Hw]. simpl.
  unfold doc_names.
  apply (elem_of_concat_2 _ (field_name <$> widgets));
    [by apply list_elem_of_fmap_2 |].
  apply list_elem_of_fmap. exists widgets. split; [done |].
  by eapply list_elem_of_lookup_2.
Qed.

Lemma template_page_slots (template : document) (page_num : Z)
    (line_items : list form_item) :
  Forall (fun slot : nat * (list string * form_item) =>
            length (fst (snd slot)) = 4%nat /\
            forall checkbox_name, checkbox_name ∈ fst (snd slot) ->
              checkbox_name ∈ doc_names template)
         (page_slots (get_checkbox_groups (_analyze_fields template) page_num)
                     line_items).
Proof.
  apply Forall_forall. intros [i [group item]] Hslot. simpl.
  unfold page_slots, enumerate in Hslot.
  apply elem_of_zip_r, elem_of_zip_l in Hslot.
  split.
  - by apply (get_checkbox_groups_four (_analyze_fields template) page_num).
  - intros checkbox_name.
    by apply (template_group_names template page_num group).
Qed.

Lemma fill_ranges_marks (template : document)
    (update_raises : widget -> bool) (mappings : list (Z * (nat * nat)))
    (all_line_items : list form_item) (doc : document)
    (total_checkboxes_filled total_items_processed : Z) :
  (forall w : widget, update_raises w = false) ->
  doc_names doc = doc_names template ->
  exists doc' : document,
    fill_ranges (_analyze_fields template) update_raises doc mappings
                all_line_items total_checkboxes_filled total_items_processed =
      Return (doc',
        (total_checkboxes_filled +
           sum_with (range_capacity (_analyze_fields template) all_line_items)
                    mappings,
         total_items_processed +
           sum_with (range_capacity (_analyze_fields template) all_line_items)
                    mappings)) /\
    doc_shape doc' = doc_shape doc.
Proof.
  intros Hup. revert doc total_checkboxes_filled total_items_processed.
  induction mappings as [| [page_idx [start_idx end_idx]] mappings IH];
    intros doc total_checkboxes_filled total_items_processed Hnames.
  - exists doc. simpl. by rewrite !Z.add_0_r.
  - cbn [fill_ranges].
    destruct (fill_slots_marks update_raises Hup (doc_names template)
      (page_slots (get_checkbox_groups (_analyze_fields template) page_idx)
                  (slice start_idx end_idx all_line_items))
      doc (get_text_fields_for_page (_analyze_fields template) page_idx) 0 0
      Hnames (template_page_slots template page_idx _))
      as (doc1 & -> & Hs1).
    simpl.
    destruct (IH doc1
      (total_checkboxes_filled + (0 + Z.of_nat (length
         (page_slots (get_checkbox_groups (_analyze_fields template) page_idx)
            (slice start_idx end_idx all_line_items)))))
      (total_items_processed + (0 + Z.of_nat (length
         (page_slots (get_checkbox_groups (_analyze_fields template) page_idx)
            (slice start_idx end_idx all_line_items))))))
      as (doc' & -> & Hs).
    { rewrite <- Hnames. by apply doc_shape_names. }
    assert (Hlen : Z.of_nat (length
        (page_slots (get_checkbox_groups (_analyze_fields template) page_idx)
           (slice start_idx end_idx all_line_items))) =
      range_capacity (_analyze_fields template) all_line_items
        (page_idx, (start_idx, end_idx))).
    { unfold page_slots, enumerate, range_capacity. simpl.
      by rewrite length_zip_with, length_seq, Nat.min_id, length_zip_with. }
    exists doc'. split; [| by rewrite Hs, Hs1].
    cbn [sum_with foldr].
    fold (sum_with (range_capacity (_analyze_fields template) all_line_items)
            mappings).
    do 3 f_equal; lia.
Qed.

(** X10: on a form with the widgets of the template that was analysed,
    and when no widget update fails, every line item the driver places
    gets its checkbox: the checkboxes filled are as many as the items
    processed. *)
Theorem fill_own_template_marks_all (template : document)
    (update_raises : widget -> bool) (inspection : Inspection)
    (doc : document) :
  (forall w : widget, update_raises w = false) ->
  doc_shape doc = doc_shape template ->
  exists doc' : document,
    _fill_inspection_checkboxes (_analyze_fields template) update_raises
                                inspection doc =
      Return (doc',
        (placed_count (_analyze_fields template)
                      (flattened_line_items inspection),
         placed_count (_analyze_fields template)
                      (flattened_line_items inspection))) /\
    doc_shape doc' = doc_shape template.
Proof.
  intros Hup Hshape. unfold _fill_inspection_checkboxes.
  rewrite fill_pages_ranges, collect_line_items_flat.
  destruct (fill_ranges_marks template update_raises page_mappings
              (flattened_line_items inspection) doc 0 0 Hup
              (doc_shape_names _ _ Hshape)) as (doc' & -> & Hs).
  exists doc'. split; [done | by rewrite Hs].
Qed.

Lemma fill_own_template_marks_all_witness :
  doc_shape form_template = doc_shape form_template /\
  exists doc' : document,
    _fill_inspection_checkboxes (_analyze_fields form_template)
      (fun _ => false) roof_inspection form_template =
    Return (doc', (14, 14)).
Proof.
  split; [reflexivity |].
  destruct (fill_own_template_marks_all form_template (fun _ => false)
              roof_inspection form_template (fun _ => eq_refl) eq_refl)
    as (doc' & Hfill & _).
  exists doc'. rewrite Hfill.
  replace (placed_count (_analyze_fields form_template)
             (flattened_line_items roof_inspection)) with 14
    by (vm_compute; reflexivity).
  reflexivity.
Defined.

(** ** The summary aggregator, entry by entry *)

Lemma add_item_lookup (k k' : string) (n : Z) (d : gmap string Z) :
  add_item k' n d !! k = (fun v => v + tally k k' n) <$> d !! k.
Proof.
  unfold add_item, tally. rewrite lookup_alter.
  case_decide as Hk; [by subst |].
  destruct (d !! k); simpl; [f_equal; lia | done].
Qed.

Lemma count_status_lookup (k : string) (status : option string)
    (stats : gmap string Z) :
  count_status status stats !! k =
  (fun v => v + tally_status k status) <$> stats !! k.
Proof.
  unfold count_status, tally_status.
  repeat (case_bool_decide; [rewrite decide_True by done;
                             apply add_item_lookup |
                             rewrite decide_False by done]).
  destruct (stats !! k); simpl; [f_equal; lia | done].
Qed.

Lemma fmap_add_add (a b : Z) (x : option Z) :
  (fun v => v + b) <$> ((fun v => v + a) <$> x) = (fun v => v + (a + b)) <$> x.
Proof. destruct x; simpl; [f_equal; lia | done]. Qed.

Lemma sum_with_zero {X} (l : list X) : sum_with (fun _ => 0) l = 0.
Proof. induction l as [| x l IH]; simpl; [done | lia]. Qed.

Lemma sum_with_app {X} (count : X -> Z) (l1 l2 : list X) :
  sum_with count (l1 ++ l2) = sum_with count l1 + sum_with count l2.
Proof. induction l1 as [| x l1 IH]; simpl; [done | rewrite IH; lia]. Qed.

Lemma sum_with_perm {X} (count : X -> Z) (l1 l2 : list X) :
  l1 ≡ₚ l2 -> sum_with count l1 = sum_with count l2.
Proof. induction 1; simpl; lia. Qed.

Lemma sum_with_bind {X Y} (count : Y -> Z) (f : X -> list Y) (l : list X) :
  sum_with count (l ≫= f) = sum_with (fun x => sum_with count (f x)) l.
Proof.
  induction l as [| x l IH]; [done |].
  rewrite bind_cons, sum_with_app, IH. done.
Qed.

Lemma sum_with_indicator {X} (P : X -> Prop) `{!forall x, Decision (P x)}
    (l : list X) :
  sum_with (fun x => if decide (P x) then 1 else 0) l =
  Z.of_nat (length (filter P l)).
Proof.
  induction l as [| x l IH]; [done |]. simpl. rewrite filter_cons.
  case_decide; simpl; lia.
Qed.

(** Every entry of the summary is its initial value plus what the loops
    add to it. *)
Lemma get_summary_stats_lookup (k : string) (inspection : Inspection) :
  get_summary_stats inspection !! k =
  (fun v => v +
     sum_with (fun section =>
       tally k "total_line_items"
         (Z.of_nat (length (get_line_items_for_section section))) +
       sum_with (fun line_item =>
         tally_status k (item_inspectionStatus line_item) +
         sum_with (fun comment =>
           tally k "total_photos"
             (Z.of_nat (length (get_photos_for_comment comment))) +
           tally k "total_videos"
             (Z.of_nat (length (get_videos_for_comment comment))))
           (get_comments_for_line_item line_item))
         (get_line_items_for_section section))
       (get_sections inspection))
  <$> (<["total_sections" := Z.of_nat (length (get_sections inspection))]>
       (<["total_line_items" := 0]> (<["inspected" := 0]>
       (<["not_inspected" := 0]> (<["not_present" := 0]>
       (<["deficient" := 0]> (<["total_photos" := 0]>
       (<["total_videos" := 0]> (∅ : gmap string Z)))))))))
      !! k.
Proof.
  unfold get_summary_stats.
  apply (foldl_lookup_add k). intros stats section. simpl.
  rewrite (foldl_lookup_add k (fun line_item =>
    tally_status k (item_inspectionStatus line_item) +
    sum_with (fun comment =>
      tally k "total_photos"
        (Z.of_nat (length (get_photos_for_comment comment))) +
      tally k "total_videos"
        (Z.of_nat (length (get_videos_for_comment comment))))
      (get_comments_for_line_item line_item))).
  { by rewrite add_item_lookup, fmap_add_add. }
  intros stats1 line_item. simpl.
  rewrite (foldl_lookup_add k (fun comment =>
    tally k "total_photos"
      (Z.of_nat (length (get_photos_for_comment comment))) +
    tally k "total_videos"
      (Z.of_nat (length (get_videos_for_comment comment))))).
  { by rewrite count_status_lookup, fmap_add_add. }
  intros stats2 comment.
  by rewrite !add_item_lookup, fmap_add_add.
Qed.

Lemma sorted_sum_with {X} (key : X -> Z) (count : X -> Z) (l : list X) :
  sum_with count (sorted key l) = sum_with count l.
Proof. apply sum_with_perm, sorted_perm. Qed.

(** The tally of one status code. *)
Lemma get_summary_stats_status (k code : string) (inspection : Inspection) :
  (k, code) ∈ [("inspected", "I"); ("not_inspected", "NI");
               ("not_present", "NP"); ("deficient", "D")] ->
  get_summary_stats inspection !! k =
  Some (Z.of_nat (length (with_status code (tree_line_items inspection)))).
Proof.
  intros Hk. rewrite get_summary_stats_lookup.
  assert (Hinit :
    (<["total_sections" := Z.of_nat (length (get_sections inspection))]>
     (<["total_line_items" := 0]> (<["inspected" := 0]>
     (<["not_inspected" := 0]> (<["not_present" := 0]>
     (<["deficient" := 0]> (<["total_photos" := 0]>
     (<["total_videos" := 0]> (∅ : gmap string Z)))))))))
      !! k = Some 0).
  { repeat (apply elem_of_cons in Hk as [[= -> ->] | Hk];
      [repeat (rewrite lookup_insert_ne by discriminate);
       by rewrite lookup_insert_eq |]).
    by apply elem_of_nil in Hk. }
  rewrite Hinit. simpl. f_equal.
  unfold with_status, tree_line_items, tree_sections.
  rewrite <- sum_with_indicator, sum_with_bind.
  unfold get_sections. rewrite sorted_sum_with.
  apply sum_with_ext. intros section.
  unfold get_line_items_for_section. rewrite sorted_sum_with.
  assert (Hline : tally k "total_line_items"
            (Z.of_nat (length (sorted order_key
               (default [] (section_lineItems section))))) = 0).
  { repeat (apply elem_of_cons in Hk as [[= -> ->] | Hk]; [done |]).
    by apply elem_of_nil in Hk. }
  rewrite Hline, Z.add_0_l.
  apply sum_with_ext. intros line_item.
  rewrite (sum_with_ext _ (fun _ => 0)), sum_with_zero, Z.add_0_r.
  - unfold tally_status.
    repeat (apply elem_of_cons in Hk as [[= -> ->] | Hk];
      [repeat case_decide; try done; congruence |]).
    by apply elem_of_nil in Hk.
  - intros comment.
    repeat (apply elem_of_cons in Hk as [[= -> ->] | Hk]; [done |]).
    by apply elem_of_nil in Hk.
Qed.

(** X11: the summary has exactly its eight keys.  [total_sections] is the
    number of sections of the tree, [total_line_items] the number of line
    items over all sections, and each of [inspected], [not_inspected],
    [not_present], [deficient] the number of line items whose status is
    I, NI, NP, D. *)
Theorem summary_counts (inspection : Inspection) :
  dom (get_summary_stats inspection) = list_to_set summary_keys /\
  get_summary_stats inspection !! "total_sections" =
    Some (Z.of_nat (length (tree_sections inspection))) /\
  get_summary_stats inspection !! "total_line_items" =
    Some (Z.of_nat (length (tree_line_items inspection))) /\
  get_summary_stats inspection !! "inspected" =
    Some (Z.of_nat (length (with_status "I" (tree_line_items inspection)))) /\
  get_summary_stats inspection !! "not_inspected" =
    Some (Z.of_nat (length (with_status "NI" (tree_line_items inspection)))) /\
  get_summary_stats inspection !! "not_present" =
    Some (Z.of_nat (length (with_status "NP" (tree_line_items inspection)))) /\
  get_summary_stats inspection !! "deficient" =
    Some (Z.of_nat (length (with_status "D" (tree_line_items inspection)))).
Proof.
  split; [| split; [| split; [| repeat split]]].
  - apply set_eq. intros k.
    rewrite elem_of_dom, get_summary_stats_lookup, fmap_is_Some,
      <- elem_of_dom.
    rewrite !dom_insert_L, dom_empty_L. unfold summary_keys. simpl.
    set_solver.
  - rewrite get_summary_stats_lookup, lookup_insert_eq. simpl. f_equal.
    rewrite (sum_with_ext _ (fun _ => 0)), sum_with_zero.
    + unfold get_sections, tree_sections. rewrite sorted_length. lia.
    + intros section. change (tally "total_sections" "total_line_items" _)
        with 0.
      rewrite (sum_with_ext _ (fun _ => 0)), sum_with_zero; [done |].
      intros line_item.
      rewrite (sum_with_ext _ (fun _ => 0)), sum_with_zero, Z.add_0_r.
      * unfold tally_status. by repeat case_decide.
      * done.
  - rewrite get_summary_stats_lookup.
    rewrite lookup_insert_ne, lookup_insert_eq by discriminate.
    simpl. f_equal.
    unfold tree_line_items, tree_sections.
    rewrite length_bind_sum. unfold get_sections. rewrite sorted_sum_with.
    apply sum_with_ext. intros section.
    change (tally "total_line_items" "total_line_items" ?n) with n.
    unfold get_line_items_for_section at 1. rewrite sorted_length.
    rewrite (sum_with_ext _ (fun _ => 0)), sum_with_zero; [lia |].
    intros line_item.
    rewrite (sum_with_ext _ (fun _ => 0)), sum_with_zero, Z.add_0_r.
    + unfold tally_status. by repeat case_decide.
    + done.
  - apply get_summary_stats_status. set_solver.
  - apply get_summary_stats_status. set_solver.
  - apply get_summary_stats_status. set_solver.
  - apply get_summary_stats_status. set_solver.
Qed.

Lemma status_partition (items : list LineItem) :
  (length (with_status "I" items) + length (with_status "NI" items) +
   length (with_status "NP" items) + length (with_status "D" items) +
   length (without_code items) = length items)%nat.
Proof.
  unfold with_status, without_code, status_codes.
  induction items as [| item items IH]; [done |].
  rewrite !filter_cons.
  destruct (decide (item_inspectionStatus item = Some "I")) as [HI | HI];
  destruct (decide (item_inspectionStatus item = Some "NI")) as [HNI | HNI];
  destruct (decide (item_inspectionStatus item = Some "NP")) as [HNP | HNP];
  destruct (decide (item_inspectionStatus item = Some "D")) as [HD | HD];
  try congruence;
  (case_decide as Hall;
   [try (exfalso; repeat (apply Forall_cons in Hall as [? Hall]); done) |
    try (exfalso; apply Hall; repeat constructor; done)]);
  simpl; lia.
Qed.

(** X12: the four status tallies of the summary leave out exactly the
    line items whose status is absent or not one of the four codes:
    together with their number they add up to [total_line_items]. *)
Theorem summary_tallies_partition (inspection : Inspection) :
  exists inspected not_inspected not_present deficient total : Z,
    get_summary_stats inspection !! "inspected" = Some inspected /\
    get_summary_stats inspection !! "not_inspected" = Some not_inspected /\
    get_summary_stats inspection !! "not_present" = Some not_present /\
    get_summary_stats inspection !! "deficient" = Some deficient /\
    get_summary_stats inspection !! "total_line_items" = Some total /\
    inspected + not_inspected + not_present + deficient +
      Z.of_nat (length (without_code (tree_line_items inspection))) = total.
Proof.
  exists (Z.of_nat (length (with_status "I" (tree_line_items inspection)))),
    (Z.of_nat (length (with_status "NI" (tree_line_items inspection)))),
    (Z.of_nat (length (with_status "NP" (tree_line_items inspection)))),
    (Z.of_nat (length (with_status "D" (tree_line_items inspection)))),
    (Z.of_nat (length (tree_line_items inspection))).
  repeat (split; [apply get_summary_stats_status; set_solver |]).
  split.
  - rewrite get_summary_stats_lookup.
    rewrite lookup_insert_ne, lookup_insert_eq by discriminate.
    simpl. f_equal.
    unfold tree_line_items, tree_sections.
    rewrite length_bind_sum. unfold get_sections. rewrite sorted_sum_with.
    apply sum_with_ext. intros section.
    change (tally "total_line_items" "total_line_items" ?n) with n.
    unfold get_line_items_for_section at 1. rewrite sorted_length.
    rewrite (sum_with_ext _ (fun _ => 0)), sum_with_zero; [lia |].
    intros line_item.
    rewrite (sum_with_ext _ (fun _ => 0)), sum_with_zero, Z.add_0_r.
    + unfold tally_status. by repeat case_decide.
    + done.
  - pose proof (status_partition (tree_line_items inspection)). lia.
Qed.

(** ** The two defaulting rules for a status *)

Lemma get_checkbox_states_unknown (s : string) :
  s ∉ status_codes ->
  get_checkbox_states (Some s) =
  <["I" := false]> (<["NI" := false]>
  (<["NP" := false]> (<["D" := false]> ∅))).
Proof.
  intros Hs. destruct (not_status_code s Hs) as (? & ? & ? & ?).
  unfold get_checkbox_states, key_in.
  rewrite !lookup_insert_ne, lookup_empty by done.
  rewrite bool_decide_eq_false_2 by (by intros [? ?]).
  rewrite andb_false_r. by rewrite bool_decide_eq_false_2.
Qed.



(** ** Sorting what is already in order *)

Lemma sorted_ascending_id {A} (key : A -> Z) (l : list A) :
  StronglySorted (key_le key) l -> sorted key l = l.
Proof.
  intros Hl. symmetry. by apply stable_ascending_unique.
Qed.

(** X14: a list that is already ascending by the order key comes back
    from the sort as it is: [get_sections], [get_line_items_for_section]
    and [get_comments_for_line_item] return such sections, line items and
    comments in the order of the file. *)
Theorem sorts_keep_ascending_input :
  (forall inspection : Inspection,
     StronglySorted (key_le order_key) (tree_sections inspection) ->
     get_sections inspection = tree_sections inspection) /\
  (forall section : SectionT,
     StronglySorted (key_le order_key)
       (default [] (section_lineItems section)) ->
     get_line_items_for_section section =
       default [] (section_lineItems section)) /\
  (forall line_item : LineItem,
     StronglySorted (key_le order_key)
       (default [] (item_comments line_item)) ->
     get_comments_for_line_item line_item =
       default [] (item_comments line_item)).
Proof.
  split; [| split]; intros x Hx; by apply sorted_ascending_id.
Qed.

Lemma sorts_keep_ascending_input_witness :
  StronglySorted (key_le order_key)
    [comment_of "unordered" None; comment_of "first" (Some 1);
     comment_of "second" (Some 1)] /\
  get_comments_for_line_item
    (item_of "Roof" None None
       [comment_of "unordered" None; comment_of "first" (Some 1);
        comment_of "second" (Some 1)]) =
  [comment_of "unordered" None; comment_of "first" (Some 1);
   comment_of "second" (Some 1)].
Proof.
  assert (Hasc : StronglySorted (key_le order_key)
    [comment_of "unordered" None; comment_of "first" (Some 1);
     comment_of "second" (Some 1)]).
  { unfold key_le. apply (bool_decide_unpack _). vm_compute. exact I. }
  split; [exact Hasc |].
  destruct sorts_keep_ascending_input as (_ & _ & H).
  apply (H (item_of "Roof" None None
       [comment_of "unordered" None; comment_of "first" (Some 1);
        comment_of "second" (Some 1)])).
  exact Hasc.
Defined.
(** ** Timestamps of any loaded value *)

Section AnyTimestamp.
Variable utcoffset : Z -> Z.
Variable float_date : Z -> result datetime.

Lemma format_timestamp_any_returns (timestamp : json) :
  format_timestamp_any utcoffset float_date timestamp =
    Return (timestamp_text utcoffset float_date timestamp) /\
  (timestamp_text utcoffset float_date timestamp = NOT_FOUND \/
   mm_dd_yyyy (timestamp_text utcoffset float_date timestamp) = true).
Proof.
  unfold timestamp_text, format_timestamp_any.
  destruct (negb (truthy timestamp) || eq_zero timestamp); [auto |].
  destruct (date_of_timestamp utcoffset float_date timestamp) as [dt | e];
    [| auto].
  change (try_except (Return dt ≫= _) NOT_FOUND)
    with (Return (A := string) (strftime_mdY dt)).
  split; [done |]. right. apply strftime_mdY_shape.
Qed.

Lemma format_timestamp_any_int (n : Z) :
  format_timestamp_any utcoffset float_date (JInt n) =
  format_timestamp utcoffset (Some n).
Proof.
  unfold format_timestamp_any, format_timestamp.
  cbn [truthy eq_zero date_of_timestamp].
  destruct (n =? 0); [done |].
  cbn [negb orb].
  destruct (true_div n 1000) as [x | e]; [| done].
  change (Return x ≫= ?f) with (f x). cbv beta.
  by destruct (fromtimestamp utcoffset x).
Qed.
End AnyTimestamp.



(** ** Header and property fields *)

Section HeaderFacts.
Variable utcoffset : Z -> Z.
Variable float_date : Z -> result datetime.

Lemma bind_return {A B} (a : A) (f : A -> result B) :
  Return a ≫= f = f a.
Proof. done. Qed.

(** The header of a mapping, by cases on its four entries. *)
Lemma get_header_fields_mapping (m : gmap string json) :
  get_header_fields utcoffset float_date (JObj m) =
  if forallb (fun key => isinstance_dict (sub_or_empty m key))
       ["clientInfo"; "inspector"; "address"; "schedule"]
  then
    Return
      (<["Name of Client" :=
           lookup_or (sub_or_empty m "clientInfo") "name" (JStr NOT_FOUND)]>
      (<["Date of Inspection" :=
           JStr (timestamp_text utcoffset float_date
                   (lookup_or (sub_or_empty m "schedule") "date" JNull))]>
      (<["Address of Inspected Property" :=
           lookup_or (sub_or_empty m "address") "fullAddress"
                     (JStr NOT_FOUND)]>
      (<["Name of Inspector" :=
           lookup_or (sub_or_empty m "inspector") "name" (JStr NOT_FOUND)]>
      (<["TREC License" := JStr NOT_FOUND]>
      (<["Name of Sponsor if applicable" := JStr NOT_FOUND]>
      (<["TREC License_2" := JStr NOT_FOUND]> ∅)))))))
  else Raise AttributeError.
Proof.
  unfold get_header_fields. cbn [dict_get_default forallb].
  fold (sub_or_empty m "clientInfo"). fold (sub_or_empty m "inspector").
  fold (sub_or_empty m "address"). fold (sub_or_empty m "schedule").
  rewrite !bind_return.
  destruct (sub_or_empty m "clientInfo") as [| | | | | | c]; try done.
  cbn [dict_get_default]. rewrite bind_return.
  destruct (sub_or_empty m "schedule") as [| | | | | | sc];
    try (cbn [isinstance_dict andb]; by rewrite ?andb_false_r).
  cbn [dict_get]. rewrite bind_return.
  replace (default JNull (sc !! "date"))
    with (lookup_or (JObj sc) "date" JNull)
    by (simpl; by destruct (sc !! "date")).
  destruct (format_timestamp_any_returns utcoffset float_date
              (lookup_or (JObj sc) "date" JNull)) as [-> _].
  rewrite bind_return.
  destruct (sub_or_empty m "address") as [| | | | | | a];
    try (cbn [isinstance_dict andb]; by rewrite ?andb_false_r).
  cbn [dict_get_default]. rewrite bind_return.
  destruct (sub_or_empty m "inspector") as [| | | | | | i];
    cbn [isinstance_dict andb]; by rewrite ?andb_false_r.
Qed.
End HeaderFacts.



Lemma header_value_of_path (m : gmap string json) (outer inner : string)
    (default : json) :
  isinstance_dict (sub_or_empty m outer) = true ->
  lookup_or (sub_or_empty m outer) inner default =
  match path_value (JObj m) [outer; inner] with
  | Some v => v
  | None => default
  end.
Proof.
  unfold sub_or_empty. simpl.
  destruct (m !! outer) as [[| | | | | | c] |]; try done; simpl.
  by destruct (c !! inner).
Qed.

(** X17: the client name, the address and the inspector name of the
    header are the values the tree holds at their paths, whatever they
    are, and the sentinel only when the path leads nowhere.  A value that
    is [None] or the empty string is passed on as it is, where
    [get_field_value] on the same path gives the sentinel. *)
Theorem header_passes_values (utcoffset : Z -> Z)
    (float_date : Z -> result datetime) (py_str : json -> string)
    (inspection : json) (key : string) (path : list string) :
  (key, path) ∈ [("Name of Client", ["clientInfo"; "name"]);
                 ("Address of Inspected Property", ["address"; "fullAddress"]);
                 ("Name of Inspector", ["inspector"; "name"])] ->
  header_ready inspection = true ->
  exists fields : gmap string json,
    get_header_fields utcoffset float_date inspection = Return fields /\
    (forall v : json, path_value inspection path = Some v ->
       fields !! key = Some v /\
       (v = JNull \/ v = JStr "" ->
        get_field_value py_str inspection path NOT_FOUND = Return NOT_FOUND))
    /\
    (path_value inspection path = None ->
       fields !! key = Some (JStr NOT_FOUND)).
Proof.
  intros Hkey Hready.
  destruct inspection as [| | | | | | m]; try done.
  unfold header_ready, entries_ready in Hready.
  rewrite get_header_fields_mapping, Hready.
  cbn [forallb] in Hready.
  apply andb_prop in Hready as [Hc Hready].
  apply andb_prop in Hready as [Hi Hready].
  apply andb_prop in Hready as [Ha _].
  eexists. split; [done |].
  repeat (apply elem_of_cons in Hkey as [[= -> ->] | Hkey]);
    [| | | by apply elem_of_nil in Hkey];
    repeat (rewrite lookup_insert_ne by discriminate);
    rewrite lookup_insert_eq, header_value_of_path by done.
  all: split;
    [intros v Hv; rewrite Hv; split; [done |];
     intros Hempty; rewrite get_field_value_path, Hv;
     by destruct Hempty as [-> | ->]
    | by intros ->].
Qed.

Lemma header_passes_values_witness :
  header_ready sparse_tree = true /\
  path_value sparse_tree ["clientInfo"; "name"] = Some (JStr "") /\
  get_field_value (fun _ => "?") sparse_tree ["clientInfo"; "name"] NOT_FOUND
    = Return NOT_FOUND /\
  exists fields : gmap string json,
    get_header_fields (fun _ => 0) (fun _ => Raise ValueError) sparse_tree =
      Return fields /\
    fields !! "Name of Client" = Some (JStr "").
Proof.
  assert (Hready : header_ready sparse_tree = true) by reflexivity.
  assert (Hpath : path_value sparse_tree ["clientInfo"; "name"]
                  = Some (JStr "")) by reflexivity.
  destruct (header_passes_values (fun _ => 0) (fun _ => Raise ValueError)
              (fun _ => "?") sparse_tree "Name of Client"
              ["clientInfo"; "name"]) as (fields & Hf & Hsome & _).
  { apply list_elem_of_here. }
  { exact Hready. }
  destruct (Hsome (JStr "") Hpath) as [Hvalue Hfield].
  split; [exact Hready |]. split; [exact Hpath |].
  split; [apply Hfield; by right |].
  exists fields. split; [exact Hf | exact Hvalue].
Defined.

Section PropertyFacts.
Variable py_str : json -> string.

Lemma get_property_info_mapping (m : gmap string json) :
  get_property_info py_str (JObj m) =
  match sub_or_empty m "address" with
  | JObj a =>
      match sub_or_empty a "propertyInfo" with
      | JObj info =>
          Return
            (<["street" := lookup_or (JObj a) "street" (JStr NOT_FOUND)]>
            (<["city" := lookup_or (JObj a) "city" (JStr NOT_FOUND)]>
            (<["state" := lookup_or (JObj a) "state" (JStr NOT_FOUND)]>
            (<["zipcode" := lookup_or (JObj a) "zipcode" (JStr NOT_FOUND)]>
            (<["square_footage" :=
                 JStr (py_str (lookup_or (JObj info) "squareFootage"
                                 (JStr NOT_FOUND)))]> ∅)))))
      | _ => Raise AttributeError
      end
  | _ => Raise AttributeError
  end.
Proof.
  unfold get_property_info. cbn [dict_get_default].
  fold (sub_or_empty m "address"). rewrite bind_return.
  destruct (sub_or_empty m "address") as [| | | | | | a]; try done.
  cbn [dict_get_default]. fold (sub_or_empty a "propertyInfo").
  rewrite bind_return.
  by destruct (sub_or_empty a "propertyInfo") as [| | | | | | info].
Qed.
End PropertyFacts.

(** X18: [get_property_info] returns when the inspection is a mapping
    whose [address], and the [propertyInfo] in it, are mappings or
    absent, and raises [AttributeError] otherwise.  What it returns has
    exactly its five keys: street, city, state and zipcode are the values
    of the address, or the sentinel where the address has none, and the
    square footage is always a string. *)
Theorem get_property_info_returns (py_str : json -> string)
    (inspection : json) :
  (property_ready inspection = true ->
   exists (fields : gmap string json) (square_footage : string),
     get_property_info py_str inspection = Return fields /\
     dom fields = list_to_set property_keys /\
     fields !! "square_footage" = Some (JStr square_footage) /\
     (forall key : string, key ∈ ["street"; "city"; "state"; "zipcode"] ->
        fields !! key =
        Some (lookup_or (lookup_or inspection "address" (JObj ∅)) key
                        (JStr NOT_FOUND)))) /\
  (property_ready inspection = false ->
   get_property_info py_str inspection = Raise AttributeError).
Proof.
  destruct inspection as [| | | | | | m]; try (split; done).
  unfold property_ready. rewrite get_property_info_mapping.
  change (lookup_or (JObj m) "address" (JObj ∅))
    with (sub_or_empty m "address").
  destruct (sub_or_empty m "address") as [| | | | | | a]; try (split; done).
  destruct (sub_or_empty a "propertyInfo") as [| | | | | | info];
    try (split; done).
  split; [intros _ | done].
  eexists. eexists. split; [done |].
  split; [rewrite !dom_insert_L, dom_empty_L; unfold property_keys; simpl;
          set_solver |].
  split; [by repeat (rewrite lookup_insert_ne by discriminate);
             rewrite lookup_insert_eq |].
  intros key Hkey.
  repeat (apply elem_of_cons in Hkey as [-> | Hkey];
    [by repeat (rewrite lookup_insert_ne by discriminate);
        rewrite lookup_insert_eq |]).
  by apply elem_of_nil in Hkey.
Qed.

Lemma get_property_info_returns_witness :
  property_ready sparse_tree = true /\
  property_ready (JObj (<["address" := JStr "12 Elm St"]> ∅)) = false /\
  get_property_info (fun _ => "?")
    (JObj (<["address" := JStr "12 Elm St"]> ∅)) = Raise AttributeError /\
  exists fields : gmap string json,
    get_property_info (fun _ => "?") sparse_tree = Return fields /\
    fields !! "city" = Some (JStr NOT_FOUND).
Proof.
  assert (Hready : property_ready sparse_tree = true) by reflexivity.
  assert (Hnot : property_ready (JObj (<["address" := JStr "12 Elm St"]> ∅))
                 = false) by reflexivity.
  split; [exact Hready |]. split; [exact Hnot |].
  split.
  - destruct (get_property_info_returns (fun _ => "?")
                (JObj (<["address" := JStr "12 Elm St"]> ∅))) as [_ H].
    exact (H Hnot).
  - destruct (get_property_info_returns (fun _ => "?") sparse_tree) as [H _].
    destruct (H Hready) as (fields & text & Hf & _ & _ & Hkeys).
    exists fields. split; [exact Hf |].
    rewrite (Hkeys "city") by (apply list_elem_of_further, list_elem_of_here). reflexivity.
Defined.

Lemma length_append (s1 s2 : string) :
  String.length (s1 +:+ s2) = (String.length s1 + String.length s2)%nat.
Proof.
  induction s1 as [| c s1 IH]; [done |].
  change (String c s1 +:+ s2) with (String c (s1 +:+ s2)).
  simpl. by rewrite IH.
Qed.

Lemma length_str_slice_to (n : nat) (s : string) :
  String.length (str_slice_to n s) = (n `min` String.length s)%nat.
Proof.
  unfold str_slice_to. revert s.
  induction n as [| n IH]; intros [| c s]; simpl; try done.
  by rewrite IH.
Qed.

Lemma str_slice_to_append (n : nat) (s1 s2 : string) :
  (n <= String.length s1)%nat ->
  str_slice_to n (s1 +:+ s2) = str_slice_to n s1.
Proof.
  unfold str_slice_to. revert s1.
  induction n as [| n IH]; intros [| c s1] Hn; simpl in *; try lia.
  - by destruct s2.
  - done.
  - change (String c s1 +:+ s2) with (String c (s1 +:+ s2)).
    simpl. rewrite IH by lia. done.
Qed.

Lemma str_slice_to_twice (n : nat) (s : string) :
  str_slice_to n (str_slice_to n s) = str_slice_to n s.
Proof.
  unfold str_slice_to. revert s.
  induction n as [| n IH]; intros [| c s]; simpl; try done.
  by rewrite IH.
Qed.

(** X19: the text [format_video_url] displays is never longer than 80
    characters.  A URL of 1 to 80 characters is displayed as it is; a
    longer one is cut to exactly 80 characters, of which the first 77
    are the first 77 of the URL and the rest is the ellipsis. *)
Theorem format_video_url_length (url : string) :
  (String.length (format_video_url url) <= 80)%nat /\
  (url <> "" -> (String.length url <= 80)%nat ->
   format_video_url url = url) /\
  ((80 < String.length url)%nat ->
   String.length (format_video_url url) = 80%nat /\
   str_slice_to 77 (format_video_url url) = str_slice_to 77 url /\
   format_video_url url = str_slice_to 77 url +:+ "...").
Proof.
  unfold format_video_url.
  case_bool_decide as Hempty.
  - subst url. simpl. split; [lia |]. split; [done |]. lia.
  - destruct (Nat.ltb_spec 80 (String.length url)) as [Hlong | Hshort].
    + assert (Hlen : String.length (str_slice_to 77 url +:+ "...") = 80%nat).
      { rewrite length_append, length_str_slice_to.
        change (String.length "...") with 3%nat. lia. }
      split; [lia |]. split; [lia |]. intros _.
      split; [done |]. split; [| done].
      rewrite str_slice_to_append, str_slice_to_twice; [done |].
      rewrite length_str_slice_to. lia.
    + split; [done |]. split; [done |]. lia.
Qed.

Lemma format_video_url_length_witness :
  (80 < String.length
          ("https://example.com/" +:+
           "0123456789012345678901234567890123456789012345678901234567890"))%nat
  /\
  String.length
    (format_video_url
       ("https://example.com/" +:+
        "0123456789012345678901234567890123456789012345678901234567890"))
  = 80%nat.
Proof.
  assert (Hlong :
    (80 < String.length
            ("https://example.com/" +:+
             "0123456789012345678901234567890123456789012345678901234567890"))%nat).
  { vm_compute. lia. }
  split; [exact Hlong |].
  destruct (format_video_url_length
              ("https://example.com/" +:+
               "0123456789012345678901234567890123456789012345678901234567890"))
    as (_ & _ & H).
  destruct (H Hlong) as [Hlen _]. exact Hlen.
Defined.

Lemma validate_url_text (video : media) :
  url_is_text video = true ->
  validate_url (get_video_url video) = Return (http_url video).
Proof.
  unfold url_is_text, http_url, validate_url.
  destruct (get_video_url video) as [| b | n | bits | s | l | m];
    cbn [truthy]; intros H; try (by rewrite H); try done.
  case_bool_decide as Hs; [by subst s | done].
Qed.

Lemma validate_url_not_text (video : media) :
  url_is_text video = false ->
  validate_url (get_video_url video) = Raise AttributeError.
Proof.
  unfold url_is_text, validate_url.
  destruct (get_video_url video) as [| b | n | bits | s | l | m];
    cbn [truthy]; intros H; try done;
    by apply negb_false_iff in H; rewrite H.
Qed.

Lemma count_videos_raise (videos : list media) (e : exn) :
  foldl (fun (total : result Z) v =>
           total ← total;
           valid ← validate_url (get_video_url v);
           Return (if (valid : bool) then total + 1 else total))
        (Raise e) videos = Raise e.
Proof. induction videos as [| v videos IH]; [done | exact IH]. Qed.

Lemma count_videos_from (videos : list media) (total : Z) :
  foldl (fun (total : result Z) v =>
           total ← total;
           valid ← validate_url (get_video_url v);
           Return (if (valid : bool) then total + 1 else total))
        (Return total) videos =
  if forallb url_is_text videos
  then Return (total + Z.of_nat (length (filter http_url videos)))
  else Raise AttributeError.
Proof.
  revert total. induction videos as [| v videos IH]; intros total.
  - simpl. f_equal. lia.
  - cbn [foldl forallb]. rewrite bind_return.
    destruct (url_is_text v) eqn:Htext.
    + rewrite (validate_url_text v Htext), bind_return, filter_cons.
      destruct (http_url v) eqn:Hhttp; simpl.
      * rewrite IH. destruct (forallb url_is_text videos); [| done].
        f_equal. lia.
      * apply IH.
    + rewrite (validate_url_not_text v Htext). apply count_videos_raise.
Qed.

(** X20: [count_videos] returns exactly when every URL is a string or a
    value that counts as false, and the count is then the number of
    videos whose URL is a string that starts with [http://] or
    [https://], between 0 and the number of videos.  One URL that is a
    number, [True] or a non-empty list or mapping makes the whole count
    raise [AttributeError]. *)
Theorem count_videos_counts (videos : list media) :
  (forallb url_is_text videos = true ->
   count_videos videos = Return (Z.of_nat (length (filter http_url videos)))
   /\ (length (filter http_url videos) <= length videos)%nat) /\
  (forallb url_is_text videos = false ->
   count_videos videos = Raise AttributeError).
Proof.
  unfold count_videos. rewrite count_videos_from.
  split; intros ->; [| done].
  split; [done | apply length_filter].
Qed.

Lemma count_videos_counts_witness :
  forallb url_is_text
    [video_at (JStr "https://example.com/video1.mp4");
     video_at (JStr "invalid_url"); ∅] = true /\
  count_videos
    [video_at (JStr "https://example.com/video1.mp4");
     video_at (JStr "invalid_url"); ∅] = Return 1 /\
  forallb url_is_text [video_at (JInt 7)] = false /\
  count_videos [video_at (JInt 7)] = Raise AttributeError.
Proof.
  assert (H1 : forallb url_is_text
    [video_at (JStr "https://example.com/video1.mp4");
     video_at (JStr "invalid_url"); ∅] = true) by reflexivity.
  assert (H2 : forallb url_is_text [video_at (JInt 7)] = false)
    by reflexivity.
  split; [exact H1 |]. split.
  - destruct (count_videos_counts
      [video_at (JStr "https://example.com/video1.mp4");
       video_at (JStr "invalid_url"); ∅]) as [H _].
    destruct (H H1) as [Hc _]. exact Hc.
  - split; [exact H2 |].
    destruct (count_videos_counts [video_at (JInt 7)]) as [_ H].
    exact (H H2).
Defined.

Section VideoSection.
Variable py_str : json -> string.

Lemma validate_url_truthy (url : json) :
  (if truthy url then validate_url url else Return false) = validate_url url.
Proof.
  unfold validate_url. by destruct (truthy url).
Qed.

Lemma format_video_lines_raise (videos : list (nat * media)) (e : exn) :
  foldl (fun (formatted : result (list string)) '(i, video) =>
           formatted ← formatted;
           let url := get_video_url video in
           valid ← (if truthy url then validate_url url else Return false);
           if (valid : bool) then
             let link_text :=
               create_video_link_text py_str video (Z.of_nat i) in
             let formatted := append formatted ("  " +:+ link_text) in
             Return (append formatted ("  URL: " +:+ py_str url))
           else
             Return (append formatted
                       ("  Video " +:+ py_str (JInt (Z.of_nat i))
                        +:+ ": Invalid or missing URL")))
        (Raise e) videos = Raise e.
Proof.
  induction videos as [| [i v] videos IH]; [done | exact IH].
Qed.

Lemma format_video_lines (videos : list media) (start : nat)
    (before : list string) :
  forallb url_is_text videos = true ->
  exists lines : list string,
    foldl (fun (formatted : result (list string)) '(i, video) =>
           formatted ← formatted;
           let url := get_video_url video in
           valid ← (if truthy url then validate_url url else Return false);
           if (valid : bool) then
             let link_text :=
               create_video_link_text py_str video (Z.of_nat i) in
             let formatted := append formatted ("  " +:+ link_text) in
             Return (append formatted ("  URL: " +:+ py_str url))
           else
             Return (append formatted
                       ("  Video " +:+ py_str (JInt (Z.of_nat i))
                        +:+ ": Invalid or missing URL")))
        (Return before) (enumerate_from start videos) = Return lines /\
    length lines =
    (length before + length videos + length (filter http_url videos))%nat.
Proof.
  revert start before.
  induction videos as [| v videos IH]; intros start before Htext.
  - exists before. split; [done |]. simpl. lia.
  - change (enumerate_from start (v :: videos))
      with ((start, v) :: enumerate_from (S start) videos).
    cbn [forallb] in Htext. apply andb_prop in Htext as [Hv Htext].
    cbn [foldl]. rewrite validate_url_truthy, bind_return.
    rewrite (validate_url_text v Hv), bind_return, filter_cons.
    destruct (http_url v) eqn:Hhttp; cbv zeta;
      match goal with
      | |- context [foldl _ (Return ?b) _] =>
          destruct (IH (S start) b Htext) as (lines & Hlines & Hlen)
      end;
      exists lines; (split; [exact Hlines |]); rewrite Hlen;
      unfold append; rewrite ?length_app; simpl; lia.
Qed.

Lemma format_video_lines_not_text (videos : list media) (start : nat)
    (before : list string) :
  forallb url_is_text videos = false ->
  foldl (fun (formatted : result (list string)) '(i, video) =>
           formatted ← formatted;
           let url := get_video_url video in
           valid ← (if truthy url then validate_url url else Return false);
           if (valid : bool) then
             let link_text :=
               create_video_link_text py_str video (Z.of_nat i) in
             let formatted := append formatted ("  " +:+ link_text) in
             Return (append formatted ("  URL: " +:+ py_str url))
           else
             Return (append formatted
                       ("  Video " +:+ py_str (JInt (Z.of_nat i))
                        +:+ ": Invalid or missing URL")))
        (Return before) (enumerate_from start videos) = Raise AttributeError.
Proof.
  revert start before.
  induction videos as [| v videos IH]; intros start before Htext; [done |].
  change (enumerate_from start (v :: videos))
    with ((start, v) :: enumerate_from (S start) videos).
  cbn [forallb] in Htext. cbn [foldl].
  rewrite validate_url_truthy, bind_return.
  destruct (url_is_text v) eqn:Hv.
  - rewrite (validate_url_text v Hv), bind_return.
    destruct (http_url v); by apply IH.
  - rewrite (validate_url_not_text v Hv). apply format_video_lines_raise.
Qed.

End VideoSection.

(** X21: [format_video_section] gives no line at all for an empty list of
    videos, also when it is given names for a heading.  For videos whose
    URLs are strings or count as false it gives the heading, if both
    names are non-empty, then two lines for each video with an [http://]
    or [https://] URL and one line for each other video; with a URL that
    is neither it raises [AttributeError]. *)
Theorem format_video_section_lines (py_str : json -> string)
    (videos : list media) (section_name item_name : string) :
  (videos = [] ->
   format_video_section py_str videos section_name item_name = Return []) /\
  (videos <> [] -> forallb url_is_text videos = true ->
   exists lines : list string,
     format_video_section py_str videos section_name item_name
       = Return lines /\
     length lines =
     (heading_lines section_name item_name + length videos
      + length (filter http_url videos))%nat) /\
  (forallb url_is_text videos = false ->
   format_video_section py_str videos section_name item_name
     = Raise AttributeError).
Proof.
  unfold format_video_section.
  split; [by intros -> |].
  split.
  - intros Hne Htext. rewrite bool_decide_eq_false_2 by done.
    destruct (format_video_lines py_str videos 1
                (if negb (bool_decide (section_name = ""))
                    && negb (bool_decide (item_name = ""))
                 then append []
                        ("Videos for " +:+ section_name +:+ " - "
                         +:+ item_name +:+ ":")
                 else []) Htext) as (lines & Hlines & Hlen).
    exists lines. split; [exact Hlines |]. rewrite Hlen.
    unfold heading_lines.
    by destruct (negb (bool_decide (section_name = ""))
                 && negb (bool_decide (item_name = ""))).
  - intros Htext.
    rewrite bool_decide_eq_false_2 by (by intros ->).
    by apply format_video_lines_not_text.
Qed.

Lemma format_video_section_lines_witness :
  [video_at (JStr "https://example.com/video1.mp4");
   video_at (JStr "invalid_url")] <> [] /\
  forallb url_is_text
    [video_at (JStr "https://example.com/video1.mp4");
     video_at (JStr "invalid_url")] = true /\
  exists lines : list string,
    format_video_section (fun _ => "?")
      [video_at (JStr "https://example.com/video1.mp4");
       video_at (JStr "invalid_url")] "Roofing" "Roof Condition"
      = Return lines /\
    length lines = 4%nat.
Proof.
  assert (Hne : [video_at (JStr "https://example.com/video1.mp4");
                 video_at (JStr "invalid_url")] <> []) by discriminate.
  assert (Htext : forallb url_is_text
    [video_at (JStr "https://example.com/video1.mp4");
     video_at (JStr "invalid_url")] = true) by reflexivity.
  split; [exact Hne |]. split; [exact Htext |].
  destruct (format_video_section_lines (fun _ => "?")
    [video_at (JStr "https://example.com/video1.mp4");
     video_at (JStr "invalid_url")] "Roofing" "Roof Condition")
    as (_ & H & _).
  destruct (H Hne Htext) as (lines & Hlines & Hlen).
  exists lines. split; [exact Hlines |]. rewrite Hlen. reflexivity.
Defined.

Section VideoPage.
Variable py_str : json -> string.

Lemma skip_video (video : media) :
  url_is_text video = true ->
  (if negb (truthy (default (JStr "") (video !! "url"))) then Return true
   else valid ← validate_url (default (JStr "") (video !! "url"));
        Return (negb valid)) = Return (negb (http_url video)).
Proof.
  intros Htext. pose proof (validate_url_text video Htext) as Hvalid.
  unfold http_url, url_is_text, get_video_url in *.
  destruct (default (JStr "") (video !! "url")) as [| b | n | bits | s | l | m];
    cbn [truthy] in *; try (by rewrite Htext); try done.
  case_bool_decide as Hs; [by subst s |].
  cbn [negb]. by rewrite Hvalid, bind_return.
Qed.

Lemma add_video_links_result (videos : list (nat * media))
    (drawn : list drawing) (doc_len page_num : Z) (added : nat) :
  (added < 15)%nat ->
  forallb (fun entry : nat * media => url_is_text entry.2) videos = true ->
  add_video_links py_str videos drawn doc_len page_num
    (90 + 25 * Z.of_nat added) (Z.of_nat added) =
  Return
    (drawn ++
       concat (imap (fun k => video_entry py_str page_num (added + k))
                 (take (15 - added)
                    (filter (fun entry : nat * media => http_url entry.2)
                            videos))),
     Z.of_nat
       (added +
        length (take (15 - added)
                  (filter (fun entry : nat * media => http_url entry.2)
                          videos)))).
Proof.
  revert drawn added.
  induction videos as [| [i v] videos IH]; intros drawn added Hadded Htext.
  - rewrite filter_nil, take_nil. simpl. by rewrite app_nil_r, Nat.add_0_r.
  - cbn [forallb] in Htext. apply andb_prop in Htext as [Hv Htext].
    cbn [add_video_links]. cbn [snd] in Hv.
    rewrite (skip_video v Hv), bind_return.
    destruct (http_url v) eqn:Hhttp; cbn [negb];
      [rewrite filter_cons_True by (cbn [snd]; rewrite Hhttp; exact I)
      | rewrite filter_cons_False by (cbn [snd]; rewrite Hhttp; intros []);
        by apply IH].
    replace (720 <? 90 + 25 * Z.of_nat added) with false
      by (symmetry; apply Z.ltb_ge; lia).
    replace (15 - added)%nat with (S (15 - S added)) by lia.
    rewrite firstn_cons, imap_cons. cbn [concat length].
    destruct (Z.leb_spec 15 (Z.of_nat added + 1)) as [Hlast | Hmore].
    + replace (15 - S added)%nat with 0%nat by lia.
      rewrite take_0. cbn [imap concat length].
      rewrite app_nil_r, Nat.add_0_r.
      unfold _add_text, append, video_entry. cbn [fst snd].
      rewrite <- !app_assoc. cbn [app].
      unfold get_video_url.
      by replace (Z.of_nat (added + 1)) with (Z.of_nat added + 1) by lia.
    + replace (90 + 25 * Z.of_nat added + 25)
        with (90 + 25 * Z.of_nat (S added)) by lia.
      replace (Z.of_nat added + 1) with (Z.of_nat (S added)) by lia.
      rewrite IH by (done || lia).
      f_equal. f_equal.
      * unfold _add_text, append, video_entry. cbn [fst snd].
        rewrite <- !app_assoc. cbn [app]. unfold get_video_url.
        rewrite Nat.add_0_r. do 3 f_equal.
        f_equal. apply imap_ext. intros k entry _. unfold compose.
        by replace (added + S k)%nat with (S added + k)%nat by lia.
      * f_equal. lia.
Qed.

Lemma enumerate_from_forallb (P : media -> bool) (videos : list media)
    (start : nat) :
  forallb (fun entry : nat * media => P entry.2)
          (enumerate_from start videos) = forallb P videos.
Proof.
  revert start. induction videos as [| v videos IH]; intros start; [done |].
  change (enumerate_from start (v :: videos))
    with ((start, v) :: enumerate_from (S start) videos).
  cbn [forallb snd]. by rewrite IH.
Qed.

End VideoPage.

(** X22: when the URLs of the videos are strings or count as false,
    [_add_videos] draws nothing for an inspection without videos and
    otherwise exactly one new page: the title, then a text and a link
    for each of the first fifteen videos with an [http://] or [https://]
    URL, 25 points apart from 90 down.  All of it is on that one page:
    with at most fifteen links the position never passes 720, so the
    page break of the loop is never taken.  The count it prints is the
    number of links, at most 15. *)
Theorem add_videos_one_page (py_str : json -> string)
    (inspection : Inspection) (doc_len : Z) :
  forallb url_is_text (get_all_media inspection).2 = true ->
  _add_videos py_str inspection doc_len =
    Return
      (if bool_decide ((get_all_media inspection).2 = []) then []
       else video_page py_str doc_len (get_all_media inspection).2,
       Z.of_nat (length (linked_videos (get_all_media inspection).2))) /\
  (length (linked_videos (get_all_media inspection).2) <= 15)%nat /\
  (forall (k : nat) (entry : nat * media),
     linked_videos (get_all_media inspection).2 !! k = Some entry ->
     90 + 25 * Z.of_nat k <= 440 /\ http_url entry.2 = true).
Proof.
  intros Htext. unfold _add_videos.
  destruct (get_all_media inspection) as [photos videos]. cbn [snd] in *.
  split; [| split].
  - case_bool_decide as Hnil.
    + subst videos. done.
    + change 0 with (Z.of_nat 0).
      change (50 + 40) with (90 + 25 * Z.of_nat 0).
      rewrite add_video_links_result;
        [| lia | by rewrite enumerate_from_forallb].
      unfold video_page, linked_videos, _add_text, append.
      replace (doc_len + 1 - 1) with doc_len by lia.
      done.
  - unfold linked_videos. rewrite length_take. lia.
  - intros k entry Hk. unfold linked_videos in Hk.
    apply lookup_take_Some in Hk as [Hk Hlt].
    split; [lia |].
    apply list_elem_of_lookup_2, list_elem_of_filter in Hk as [Hhttp _].
    by apply Is_true_true.
Qed.

Lemma add_videos_one_page_witness :
  forallb url_is_text
    (get_all_media
       (inspection_with_videos
          [video_at (JStr "https://example.com/video1.mp4");
           video_at (JStr "invalid_url")])).2 = true /\
  exists drawn : list drawing,
    _add_videos (fun _ => "?")
      (inspection_with_videos
         [video_at (JStr "https://example.com/video1.mp4");
          video_at (JStr "invalid_url")]) 6 = Return (drawn, 1).
Proof.
  assert (Htext : forallb url_is_text
    (get_all_media
       (inspection_with_videos
          [video_at (JStr "https://example.com/video1.mp4");
           video_at (JStr "invalid_url")])).2 = true) by reflexivity.
  split; [exact Htext |].
  destruct (add_videos_one_page (fun _ => "?")
    (inspection_with_videos
       [video_at (JStr "https://example.com/video1.mp4");
        video_at (JStr "invalid_url")]) 6 Htext) as (H & _ & _).
  eexists. rewrite H. reflexivity.
Defined.

Section HeaderForm.
Variable utcoffset : Z -> Z.
Variable float_date : Z -> result datetime.
Variable update_raises : widget -> bool.

Lemma get_header_fields_ready (inspection : json) :
  if header_ready inspection then
    exists fields : gmap string json,
      get_header_fields utcoffset float_date inspection = Return fields /\
      forall key : string, is_Some (fields !! key) <-> key ∈ header_keys
  else
    get_header_fields utcoffset float_date inspection = Raise AttributeError.
Proof.
  destruct inspection as [| | | | | | m]; try done.
  unfold header_ready, entries_ready.
  rewrite get_header_fields_mapping.
  destruct (forallb _ _); [| done].
  eexists. split; [done |]. intros key.
  rewrite <- elem_of_dom, !dom_insert, dom_empty.
  unfold header_keys. set_solver.
Qed.

Lemma fill_header_widgets_result (fields : gmap string json)
    (widgets : page) (filled_count : Z) :
  (forall key : string, is_Some (fields !! key) <-> key ∈ header_keys) ->
  exists (widgets' : page) (filled : Z),
    fill_header_widgets update_raises fields widgets filled_count
      = (widgets', filled) /\
    Forall2 (header_filled fields) widgets widgets' /\
    filled_count <= filled
      <= filled_count + Z.of_nat (length (filter header_named widgets)) /\
    ((forall w : widget, update_raises w = false) ->
     filled = filled_count + Z.of_nat (length (filter header_named widgets))
     /\ Forall (fun w' : widget =>
                  header_named w' = true ->
                  fields !! field_name w' = Some (field_value w'))
               widgets').
Proof.
  intros Hkeys. revert filled_count.
  induction widgets as [| w widgets IH]; intros filled_count.
  - exists [], filled_count. split; [done |]. split; [constructor |].
    simpl. split; [lia |]. intros _. split; [lia | constructor].
  - cbn [fill_header_widgets].
    unfold set_and_update.
    destruct (fields !! field_name w) as [value |] eqn:Hvalue.
    + assert (Hnamed : header_named w = true).
      { apply bool_decide_eq_true_2, Hkeys. by rewrite Hvalue. }
      rewrite filter_cons_True by (rewrite Hnamed; exact I).
      destruct (update_raises _) eqn:Hraise.
      * destruct (IH filled_count)
          as (widgets' & filled & -> & Hall & Hcount & Hclean).
        exists (w :: widgets'), filled. split; [done |].
        split; [constructor; [| done] |].
        { split; [done |]. split; [done | by left]. }
        cbn [length]. split; [lia |].
        intros Hnever. by rewrite Hnever in Hraise.
      * destruct (IH (filled_count + 1))
          as (widgets' & filled & -> & Hall & Hcount & Hclean).
        eexists. exists filled. split; [done |].
        split; [constructor; [| done] |].
        { split; [done |]. split; [by rewrite Hnamed | by right]. }
        cbn [length]. split; [lia |].
        intros Hnever. destruct (Hclean Hnever) as [-> Hfields].
        split; [lia |]. constructor; [| done]. by intros _.
    + assert (Hnamed : header_named w = false).
      { apply bool_decide_eq_false_2. intros Hin.
        apply Hkeys in Hin. rewrite Hvalue in Hin. by destruct Hin. }
      rewrite filter_cons_False by (rewrite Hnamed; intros []).
      destruct (IH filled_count)
        as (widgets' & filled & -> & Hall & Hcount & Hclean).
      exists (w :: widgets'), filled. split; [done |].
      split; [constructor; [| done] |].
      { split; [done |]. split; [done | by left]. }
      split; [done |].
      intros Hnever. destruct (Hclean Hnever) as [-> Hfields].
      split; [done |]. constructor; [| done]. by rewrite Hnamed.
Qed.

End HeaderForm.



Section Cache.
Context {image : Type}.
Variable fetch : nat -> string -> option image.

Lemma download_image_sound (self : image_handler image) (url : string) :
  cache_sound fetch self ->
  cache_sound fetch (download_image fetch self url).1 /\
  (length (requests (download_image fetch self url).1)
   <= S (length (requests self)))%nat /\
  (forall (u : string) (img : image),
     cache self !! u = Some img ->
     cache (download_image fetch self url).1 !! u = Some img) /\
  (forall img : image,
     (download_image fetch self url).2 = Some img ->
     cache (download_image fetch self url).1 !! url = Some img).
Proof.
  intros [Hcache Honce]. unfold download_image.
  destruct (cache self !! url) as [hit |] eqn:Hhit.
  - cbn [fst snd]. split; [by split |]. split; [lia |].
    split; [done |]. by intros img [= <-].
  - assert (Hfailed : forall j : nat,
              requests self !! j = Some url ->
              fetch j url = None).
    { intros j Hj. destruct (fetch j url) as [img |] eqn:Hfetch; [| done].
      assert (cache self !! url = Some img) as Hin
        by (apply Hcache; eauto).
      by rewrite Hhit in Hin. }
    assert (Hagain : forall (j k : nat) (u : string),
              (j < k)%nat ->
              (requests self ++ [url]) !! j = Some u ->
              (requests self ++ [url]) !! k = Some u ->
              fetch j u = None).
    { intros j k u Hjk Hj Hk.
      apply lookup_snoc_Some in Hj as [[Hlt Hj] | [-> <-]];
        apply lookup_snoc_Some in Hk as [[Hlt' Hk] | [-> Heq]];
        try lia.
      - by apply (Honce j k).
      - subst u. by apply Hfailed. }
    destruct (fetch (length (requests self)) url) as [img |] eqn:Hfetch;
      unfold cache_sound; simpl; unfold append.
    + split; [split; [| exact Hagain] |].
      * intros u i. split.
        -- intros Hu. destruct (decide (u = url)) as [-> | Hne].
           ++ rewrite lookup_insert_eq in Hu. injection Hu as <-.
              exists (length (requests self)).
              split; [| done]. apply lookup_snoc_Some. by right.
           ++ rewrite lookup_insert_ne in Hu by done.
              apply Hcache in Hu as (k & Hk & Hf).
              exists k. split; [| done].
              apply lookup_snoc_Some. left.
              split; [by eapply lookup_lt_Some | done].
        -- intros (k & Hk & Hf).
           apply lookup_snoc_Some in Hk as [[Hlt Hk] | [-> <-]].
           ++ destruct (decide (u = url)) as [-> | Hne].
              ** rewrite (Hfailed k Hk) in Hf. done.
              ** rewrite lookup_insert_ne by done. apply Hcache. eauto.
           ++ rewrite lookup_insert_eq. congruence.
      * split; [rewrite length_app; simpl; lia |].
        split.
        -- intros u i Hu. destruct (decide (u = url)) as [-> | Hne].
           ++ by rewrite Hhit in Hu.
           ++ by rewrite lookup_insert_ne.
        -- intros i [= <-]. by rewrite lookup_insert_eq.
    + split; [split; [| exact Hagain] |].
      * intros u i. split.
        -- intros Hu. apply Hcache in Hu as (k & Hk & Hf).
           exists k. split; [| done].
           apply lookup_snoc_Some. left.
           split; [by eapply lookup_lt_Some | done].
        -- intros (k & Hk & Hf).
           apply lookup_snoc_Some in Hk as [[Hlt Hk] | [-> <-]].
           ++ apply Hcache. eauto.
           ++ by rewrite Hfetch in Hf.
      * split; [rewrite length_app; simpl; lia |].
        split; [done | by intros i].
Qed.

Lemma download_run_sound (urls : list string) (self : image_handler image) :
  cache_sound fetch self ->
  cache_sound fetch (download_run fetch self urls).1 /\
  (length (requests (download_run fetch self urls).1)
   <= length (requests self) + length urls)%nat /\
  length (download_run fetch self urls).2 = length urls /\
  (forall (u : string) (img : image),
     cache self !! u = Some img ->
     cache (download_run fetch self urls).1 !! u = Some img) /\
  (forall (i : nat) (url : string) (img : image),
     urls !! i = Some url ->
     (download_run fetch self urls).2 !! i = Some (Some img) ->
     cache (download_run fetch self urls).1 !! url = Some img).
Proof.
  revert self. induction urls as [| url urls IH]; intros self Hsound.
  - cbn [download_run fst snd length]. split; [done |]. split; [lia |].
    split; [done |]. split; [done |]. by intros i url img.
  - cbn [download_run].
    destruct (download_image_sound self url Hsound)
      as (Hsound' & Hlen & Hgrows & Hgot).
    destruct (download_image fetch self url) as [self' img'].
    cbn [fst snd] in *.
    destruct (IH self' Hsound') as (Hfinal & Hlen' & Hall & Hkept & Hrun).
    destruct (download_run fetch self' urls) as [self'' imgs].
    cbn [fst snd length] in *.
    split; [done |]. split; [lia |]. split; [by rewrite Hall |].
    split; [by intros u img Hu; apply Hkept, Hgrows |].
    intros [| i] u img Hu Himg; cbn in Hu, Himg.
    + injection Hu as <-. injection Himg as ->.
      by apply Hkept, Hgot.
    + by apply (Hrun i).
Qed.

End Cache.

(** X24: in a run of [download_image] calls on a fresh handler, whatever
    the network answers from one request to the next, the cache holds
    exactly the images of the requests that succeeded, a URL is
    requested again only when all earlier requests for it failed, and
    there are at most as many requests as calls.  Every image a call
    returned is the one the cache holds for its URL at the end, so two
    calls for the same URL never return different images. *)
Theorem download_cache_sound {image : Type}
    (fetch : nat -> string -> option image) (urls : list string) :
  cache_sound fetch (download_run fetch new_handler urls).1 /\
  (length (requests (download_run fetch new_handler urls).1)
   <= length urls)%nat /\
  length (download_run fetch new_handler urls).2 = length urls /\
  (forall (i : nat) (url : string) (img : image),
     urls !! i = Some url ->
     (download_run fetch new_handler urls).2 !! i = Some (Some img) ->
     cache (download_run fetch new_handler urls).1 !! url = Some img) /\
  (forall (i j : nat) (url : string) (a b : image),
     urls !! i = Some url -> urls !! j = Some url ->
     (download_run fetch new_handler urls).2 !! i = Some (Some a) ->
     (download_run fetch new_handler urls).2 !! j = Some (Some b) ->
     a = b).
Proof.
  assert (Hnew : cache_sound fetch (new_handler (image := image))).
  { split.
    - intros url img. cbn. rewrite lookup_empty. split; [done |].
      by intros (k & Hk & _).
    - by intros j k url _ Hj. }
  destruct (download_run_sound fetch urls new_handler Hnew)
    as (Hsound & Hlen & Hall & _ & Hrun).
  split; [done |]. split; [exact Hlen |]. split; [done |].
  split; [exact Hrun |].
  intros i j url a b Hi Hj Ha Hb.
  pose proof (Hrun i url a Hi Ha) as Hca.
  pose proof (Hrun j url b Hj Hb) as Hcb.
  congruence.
Qed.

Lemma download_cache_sound_witness :
  ["a"; "b"; "a"; "b"] !! 2%nat = Some "a" /\
  (download_run flaky_fetch new_handler ["a"; "b"; "a"; "b"]).2 !! 2%nat
    = Some (Some (0%nat, "a")) /\
  requests (download_run flaky_fetch new_handler ["a"; "b"; "a"; "b"]).1
    = ["a"; "b"; "b"] /\
  cache (download_run flaky_fetch new_handler ["a"; "b"; "a"; "b"]).1 !! "a"
    = Some (0%nat, "a").
Proof.
  assert (H2 : ["a"; "b"; "a"; "b"] !! 2%nat = Some "a") by reflexivity.
  assert (Hb : (download_run flaky_fetch new_handler ["a"; "b"; "a"; "b"]).2
               !! 2%nat = Some (Some (0%nat, "a"))) by reflexivity.
  split; [exact H2 |]. split; [exact Hb |].
  split; [reflexivity |].
  destruct (download_cache_sound flaky_fetch ["a"; "b"; "a"; "b"])
    as (_ & _ & _ & Hrun & _).
  exact (Hrun 2%nat "a" (0%nat, "a") H2 Hb).
Defined.

Lemma pages_after_snoc (pages : Z) (drawn : list drawing) (d : drawing) :
  pages_after pages (drawn ++ [d]) =
  pages_after pages drawn + (if is_new_page d then 1 else 0).
Proof.
  unfold pages_after. rewrite filter_app, length_app.
  destruct d; [rewrite filter_cons_True by exact I
              | rewrite filter_cons_False by (intros [])
              | rewrite filter_cons_False by (intros [])];
    rewrite filter_nil; cbn [length is_new_page]; lia.
Qed.

Lemma pages_after_nil (pages : Z) : pages_after pages [] = pages.
Proof. unfold pages_after. rewrite filter_nil. cbn [length]. lia. Qed.

Lemma pages_after_cons (pages : Z) (d : drawing) (drawn : list drawing) :
  pages_after pages (d :: drawn) =
  pages_after (pages + (if is_new_page d then 1 else 0)) drawn.
Proof.
  unfold pages_after.
  destruct d; [rewrite filter_cons_True by exact I
              | rewrite filter_cons_False by (intros [])
              | rewrite filter_cons_False by (intros [])];
    cbn [length is_new_page]; lia.
Qed.

Lemma on_last_page_snoc (pages : Z) (drawn : list drawing) (d : drawing) :
  on_last_page pages drawn ->
  match d with
  | new_page => True
  | insert_text page_num _ _ _ _ _ => page_num = pages_after pages drawn - 1
  | insert_link page_num _ _ _ _ _ => page_num = pages_after pages drawn - 1
  end ->
  on_last_page pages (drawn ++ [d]).
Proof.
  revert pages.
  induction drawn as [| d' drawn IH]; intros pages Hdrawn Hd.
  - rewrite pages_after_nil in Hd. by destruct d.
  - rewrite pages_after_cons in Hd.
    destruct d'; cbn [app on_last_page is_new_page] in *.
    + by apply IH.
    + rewrite Z.add_0_r in Hd. split; [apply Hdrawn |].
      apply IH; [apply Hdrawn | done].
    + rewrite Z.add_0_r in Hd. split; [apply Hdrawn |].
      apply IH; [apply Hdrawn | done].
Qed.

Lemma page_state_new_page (pages high high' : Z) (drawn : list drawing)
    (doc_len page_num y_pos : Z) :
  50 <= high' ->
  page_state pages high drawn doc_len page_num y_pos ->
  page_state pages high' (append drawn new_page) (doc_len + 1)
             (doc_len + 1 - 1) 50.
Proof.
  intros Hhigh (Hlast & -> & -> & Hwithin & Hy). unfold append.
  split; [by apply on_last_page_snoc |].
  split; [rewrite pages_after_snoc; cbn; lia |].
  split; [done |].
  split; [apply Forall_app; split; [done | by repeat constructor] | lia].
Qed.

Lemma page_state_text (pages high high' : Z) (drawn : list drawing)
    (doc_len page_num y_pos y_pos' : Z) (text : string) (x font_size : Z)
    (bold : bool) :
  y_pos <= 745 -> 50 <= y_pos' <= high' ->
  page_state pages high drawn doc_len page_num y_pos ->
  page_state pages high'
    (_add_text drawn page_num text x y_pos font_size bold)
    doc_len page_num y_pos'.
Proof.
  intros Hy745 Hy' (Hlast & -> & -> & Hwithin & Hy).
  unfold _add_text, append.
  split; [by apply on_last_page_snoc |].
  split; [rewrite pages_after_snoc; cbn; lia |].
  split; [done |].
  split; [| done].
  apply Forall_app. split; [done |]. repeat constructor; cbn; lia.
Qed.

Lemma page_state_high (pages high high' : Z) (drawn : list drawing)
    (doc_len page_num y_pos y_pos' : Z) :
  50 <= y_pos' <= high' ->
  page_state pages high drawn doc_len page_num y_pos ->
  page_state pages high' drawn doc_len page_num y_pos'.
Proof.
  intros Hy (Hlast & Hlen & Hnum & Hwithin & _).
  split; [done |]. split; [done |]. split; [done |]. by split.
Qed.

Lemma add_comment_texts_state (pages : Z) (comments : list Comment)
    (drawn : list drawing) (doc_len page_num y_pos : Z) :
  (length comments <= 1)%nat ->
  page_state pages 745 drawn doc_len page_num y_pos ->
  page_state pages 757
    (add_comment_texts comments drawn page_num y_pos).1
    doc_len page_num
    (add_comment_texts comments drawn page_num y_pos).2.
Proof.
  intros Hlen Hstate.
  assert (Hy : 50 <= y_pos <= 745) by apply Hstate.
  destruct comments as [| comment [| comment' comments]];
    [| | cbn in Hlen; lia].
  - cbn. eapply page_state_high; [| eassumption]. lia.
  - unfold add_comment_texts. cbn [foldl].
    destruct (negb _ && _); cbn [fst snd].
    + eapply page_state_text; [| | done]; lia.
    + eapply page_state_high; [| eassumption]. lia.
Qed.

Lemma add_item_texts_state (pages : Z) (line_items : list LineItem)
    (drawn : list drawing) (doc_len page_num y_pos : Z) :
  page_state pages 757 drawn doc_len page_num y_pos ->
  page_state pages 757
    (add_item_texts line_items drawn doc_len page_num y_pos).1.1.1
    (add_item_texts line_items drawn doc_len page_num y_pos).1.1.2
    (add_item_texts line_items drawn doc_len page_num y_pos).1.2
    (add_item_texts line_items drawn doc_len page_num y_pos).2.
Proof.
  unfold add_item_texts.
  revert drawn doc_len page_num y_pos.
  induction line_items as [| item line_items IH];
    intros drawn doc_len page_num y_pos Hstate; [done |].
  cbn [foldl].
  assert (Hbreak : exists (drawn' : list drawing) (doc_len' page_num' y' : Z),
            (if 730 <? y_pos
             then (append drawn new_page, doc_len + 1, doc_len + 1 - 1, 50)
             else (drawn, doc_len, page_num, y_pos))
            = (drawn', doc_len', page_num', y') /\
            page_state pages 730 drawn' doc_len' page_num' y').
  { destruct (Z.ltb_spec 730 y_pos) as [Hlow | Hfits].
    - do 4 eexists. split; [done |].
      eapply page_state_new_page; [| done]. lia.
    - do 4 eexists. split; [done |].
      eapply page_state_high; [| eassumption].
      destruct Hstate as (_ & _ & _ & _ & Hy). lia. }
  destruct Hbreak as (drawn' & doc_len' & page_num' & y' & -> & Hstate').
  assert (Hy' : 50 <= y' <= 730) by apply Hstate'.
  match goal with
  | |- context [add_comment_texts ?cs ?d ?p ?y] =>
      pose proof (add_comment_texts_state pages cs d doc_len' p y) as Hcomments;
      destruct (add_comment_texts cs d p y) as [drawn'' y'']
  end.
  cbn [fst snd] in Hcomments. apply IH, Hcomments.
  - rewrite length_take. lia.
  - eapply page_state_text; [| | done]; lia.
Qed.

Lemma add_comment_texts_prefix (comments : list Comment)
    (drawn : list drawing) (page_num y_pos : Z) :
  drawn `prefix_of` (add_comment_texts comments drawn page_num y_pos).1.
Proof.
  unfold add_comment_texts. revert drawn y_pos.
  induction comments as [| comment comments IH]; intros drawn y_pos; [done |].
  cbn [foldl]. destruct (negb _ && _); [| apply IH].
  etrans; [| apply IH]. unfold _add_text, append. by apply prefix_app_r.
Qed.

Lemma add_item_texts_prefix (line_items : list LineItem)
    (drawn : list drawing) (doc_len page_num y_pos : Z) :
  drawn `prefix_of`
    (add_item_texts line_items drawn doc_len page_num y_pos).1.1.1.
Proof.
  unfold add_item_texts. revert drawn doc_len page_num y_pos.
  induction line_items as [| item line_items IH];
    intros drawn doc_len page_num y_pos; [done |].
  cbn [foldl].
  destruct (730 <? y_pos);
    match goal with
    | |- context [add_comment_texts ?cs ?d ?p ?y] =>
        pose proof (add_comment_texts_prefix cs d p y) as Hcomments;
        destruct (add_comment_texts cs d p y) as [drawn'' y'']
    end;
    cbn [fst] in Hcomments; (etrans; [| apply IH]);
    (etrans; [| exact Hcomments]); unfold _add_text, append;
    rewrite <- ?app_assoc; by apply prefix_app_r.
Qed.

Lemma add_section_texts_state (pages : Z) (sections : list SectionT)
    (drawn : list drawing) (doc_len page_num y_pos : Z)
    (section_count : nat) :
  (section_count < 10)%nat ->
  page_state pages 767 drawn doc_len page_num y_pos ->
  on_last_page pages
    (add_section_texts sections drawn doc_len page_num y_pos
       (Z.of_nat section_count)).1 /\
  Forall (text_within 50 745)
    (add_section_texts sections drawn doc_len page_num y_pos
       (Z.of_nat section_count)).1 /\
  drawn `prefix_of`
    (add_section_texts sections drawn doc_len page_num y_pos
       (Z.of_nat section_count)).1 /\
  (add_section_texts sections drawn doc_len page_num y_pos
     (Z.of_nat section_count)).2
  = Z.of_nat (section_count + (10 - section_count) `min` length sections).
Proof.
  revert drawn doc_len page_num y_pos section_count.
  induction sections as [| section sections IH];
    intros drawn doc_len page_num y_pos section_count Hcount Hstate.
  - cbn. split; [apply Hstate |]. split; [apply Hstate |].
    split; [done |]. f_equal. lia.
  - cbn [add_section_texts].
    assert (Hbreak : exists (drawn' : list drawing)
                            (doc_len' page_num' y' : Z),
              (if 720 <? y_pos
               then (append drawn new_page, doc_len + 1, doc_len + 1 - 1, 50)
               else (drawn, doc_len, page_num, y_pos))
              = (drawn', doc_len', page_num', y') /\
              page_state pages 720 drawn' doc_len' page_num' y' /\
              drawn `prefix_of` drawn').
    { destruct (Z.ltb_spec 720 y_pos) as [Hlow | Hfits].
      - do 4 eexists. split; [done |]. split.
        + eapply page_state_new_page; [| done]. lia.
        + by apply prefix_app_r.
      - do 4 eexists. split; [done |]. split; [| done].
        eapply page_state_high; [| eassumption].
        destruct Hstate as (_ & _ & _ & _ & Hy). lia. }
    destruct Hbreak
      as (drawn' & doc_len' & page_num' & y' & -> & Hstate' & Hprefix).
    assert (Hy' : 50 <= y' <= 720) by apply Hstate'.
    match goal with
    | |- context [add_item_texts ?items ?d ?l ?p ?y] =>
        pose proof (add_item_texts_state pages items d l p y) as Hitems;
        assert (Hgrows : d `prefix_of` (add_item_texts items d l p y).1.1.1);
        [| destruct (add_item_texts items d l p y)
             as [[[drawn'' doc_len''] page_num''] y'']]
    end.
    { apply add_item_texts_prefix. }
    cbn [fst snd] in Hitems, Hgrows.
    assert (Hstate'' : page_state pages 757 drawn'' doc_len'' page_num'' y'').
    { apply Hitems. eapply page_state_text; [| | done]; lia. }
    assert (Hy'' : 50 <= y'' <= 757) by apply Hstate''.
    assert (Hdrawn : drawn `prefix_of` drawn'').
    { etrans; [exact Hprefix |]. etrans; [| exact Hgrows].
      unfold _add_text, append. by apply prefix_app_r. }
    destruct (Z.leb_spec 10 (Z.of_nat section_count + 1)) as [Hlast | Hmore].
    + cbn [fst snd]. split; [apply Hstate'' |]. split; [apply Hstate'' |].
      split; [done |]. cbn [length]. lia.
    + replace (Z.of_nat section_count + 1) with (Z.of_nat (S section_count))
        by lia.
      destruct (IH drawn'' doc_len'' page_num'' (y'' + 10) (S section_count))
        as (Hlast & Hwithin & Hpre & Hresult); [lia | |].
      { eapply page_state_high; [| eassumption]. lia. }
      split; [done |]. split; [done |].
      split; [by etrans |]. rewrite Hresult. cbn [length]. f_equal. lia.
Qed.

(** X25: whatever the inspection, [_process_sections] draws each text on
    the page that is the last one at that moment, with a base line
    between 50 and 745, since the page breaks of its two loops come
    before a section title is drawn beyond 720 and a line item beyond
    730, and the one comment under an item follows 15 below.  It starts
    with a new page and its title, and the count it prints is the number
    of sections, at most 10. *)
Theorem process_sections_on_page (inspection : Inspection) (doc_len : Z) :
  on_last_page doc_len (_process_sections inspection doc_len).1 /\
  Forall (text_within 50 745) (_process_sections inspection doc_len).1 /\
  [new_page;
   insert_text doc_len "INSPECTION DETAILS" 50 50 16 "Helvetica-Bold"]
    `prefix_of` (_process_sections inspection doc_len).1 /\
  (_process_sections inspection doc_len).2 =
  Z.of_nat (10 `min` length (default [] (inspection_sections inspection))).
Proof.
  unfold _process_sections.
  replace (doc_len + 1 - 1) with doc_len by lia.
  assert (Hstart : page_state doc_len 767
            (_add_text [new_page] doc_len "INSPECTION DETAILS"
                       50 50 16 true)
            (doc_len + 1) doc_len (50 + 40)).
  { split; [cbn; split; [lia | done] |].
    split; [unfold _add_text, append; cbn [app];
            rewrite !pages_after_cons, pages_after_nil;
            cbn [is_new_page]; lia |].
    split; [lia |].
    split; [| lia]. repeat constructor; cbn; lia. }
  destruct (add_section_texts_state doc_len (get_sections inspection)
              _ _ _ _ 0 ltac:(lia) Hstart)
    as (Hlast & Hwithin & Hprefix & Hcount).
  change (Z.of_nat 0) with 0 in *.
  split; [done |]. split; [done |].
  split; [exact Hprefix |].
  rewrite Hcount. unfold get_sections. by rewrite sorted_length.
Qed.
